(** * Lab scheduler: the allocation engine of [app.py]

    A shallow embedding of the scheduling core of the Flask application:
    group resolution ([_infer_req_group]), single-request assignment
    ([_assign_reservation_for_request]), the batch scheduler
    ([run_auto_schedule]), the administrative overrides
    ([update_request_status], [manual_assign]), the suggestion search
    ([ai_explain_conflict_and_suggest]) and the submission path
    ([new_request]).

    The SQLAlchemy session is modelled by explicit state passing: every
    function takes the database as a [Store] and returns the new one.  The
    session autoflushes before each query, so a row added or changed by an
    earlier statement is seen by every later query; passing the store along
    gives exactly that.  Tables are lists of rows in insertion (rowid)
    order.  Integers are [Z]; a [date] is the [Z] number of its day
    ([date.toordinal()]), and [d + timedelta(days=k)] is [d + k] as long as
    that day is between [date.min] and [date.max]; outside, the addition
    raises [OverflowError] ([date_add]). *)

From Stdlib Require Import ZArith String Sorted.
From stdpp Require Import base list gmap strings.

Open Scope Z_scope.

(** ** Rows of the five tables *)

Module Lab.
Record t := mk {
  id : Z;
  name : string;
  subject_group : string;
  capacity : Z;
  is_active : bool
}.
End Lab.

Module User.
Record t := mk {
  id : Z;
  full_name : string;
  role : string;
  preferred_lab_id : option Z
}.
End User.

Module WeekSchedule.
Record t := mk {
  id : Z;
  start_date : Z;
  end_date : Z;
  is_active : bool
}.
End WeekSchedule.

(** The [status] column holds one of four strings. *)
Inductive Status := pending | approved | scheduled | conflict.

#[global] Instance Status_eq_dec : EqDecision Status.
Proof. solve_decision. Defined.

Module LabRequest.
Record t := mk {
  id : Z;
  teacher_id : Z;
  class_name : string;
  lab_group : string;
  week_id : option Z;
  date : Z;
  period : Z;
  status : Status;
  preferred_lab_id : option Z;
  created_at : Z
}.

(** [req.lab_group = g] and [req.status = st] on one row. *)
Definition with_lab_group (g : string) (r : t) : t :=
  mk (id r) (teacher_id r) (class_name r) g (week_id r) (date r) (period r)
     (status r) (preferred_lab_id r) (created_at r).

Definition with_status (st : Status) (r : t) : t :=
  mk (id r) (teacher_id r) (class_name r) (lab_group r) (week_id r) (date r)
     (period r) st (preferred_lab_id r) (created_at r).
End LabRequest.

(** A reservation row.  Its own primary key is never read by the code
    modelled here, so a row is identified by its place in the table. *)
Module Reservation.
Record t := mk {
  lab_id : Z;
  request_id : Z;
  date : Z;
  period : Z
}.
End Reservation.

#[global] Instance Reservation_eq_dec : EqDecision Reservation.t.
Proof. solve_decision. Defined.

Record Store := mkStore {
  labs : list Lab.t;
  users : list User.t;
  weeks : list WeekSchedule.t;
  lab_requests : list LabRequest.t;
  reservations : list Reservation.t
}.

Definition with_lab_requests (rs : list LabRequest.t) (s : Store) : Store :=
  mkStore (labs s) (users s) (weeks s) rs (reservations s).

Definition with_reservations (rs : list Reservation.t) (s : Store) : Store :=
  mkStore (labs s) (users s) (weeks s) (lab_requests s) rs.

(** ** Python values *)

(** Truth value of an optional integer: [None] and [0] are false. *)
Definition truthy (o : option Z) : bool :=
  match o with
  | Some z => negb (z =? 0)
  | None => false
  end.

(** [a or b] on optional integers: [a] when it is true, else [b]. *)
Definition py_or (a b : option Z) : option Z := if truthy a then a else b.

(** The result of a computation that may raise [OverflowError]. *)
Inductive Result (A : Type) := Returned (a : A) | Overflow.
Arguments Returned {A} a.
Arguments Overflow {A}.

(** [date.min] is 0001-01-01, day 1; [date.max] is 9999-12-31, day
    3652059. *)
Definition date_min : Z := 1.
Definition date_max : Z := 3652059.

(** [timedelta.max.days]: [timedelta(days=n)] raises [OverflowError] for a
    larger magnitude. *)
Definition timedelta_max_days : Z := 999999999.

(** [d + timedelta(days=days)], which raises [OverflowError] when the
    [timedelta] cannot be built or the day is outside
    [date.min .. date.max]. *)
Definition date_add (d days : Z) : Result Z :=
  if (Z.abs days <=? timedelta_max_days)
     && (date_min <=? d + days) && (d + days <=? date_max)
  then Returned (d + days) else Overflow.

(** [range(a, b)]. *)
Definition py_range (a b : Z) : list Z :=
  (λ i, a + Z.of_nat i) <$> seq 0 (Z.to_nat (b - a)).

(** A stable sort, as [list.sort(key=...)] and as the row order of an
    [ORDER BY] over a table scan: rows with equal keys keep their order. *)
Section stable_sort.
Context {A : Type} (leb : A → A → bool).

Fixpoint insert_sorted (x : A) (l : list A) : list A :=
  match l with
  | [] => [x]
  | y :: l' => if leb x y then x :: y :: l' else y :: insert_sorted x l'
  end.

Definition sort_by (l : list A) : list A := foldr insert_sorted [] l.
End stable_sort.

(** ** Queries *)

(** [db.session.get(Lab, i)] *)
Definition get_lab (s : Store) (i : Z) : option Lab.t :=
  head (filter (λ l, Lab.id l = i) (labs s)).

(** [db.session.get(User, i)], also the relationship [req.teacher]. *)
Definition get_user (s : Store) (i : Z) : option User.t :=
  head (filter (λ u, User.id u = i) (users s)).

(** [LabRequest.query.get(i)] *)
Definition get_request (s : Store) (i : Z) : option LabRequest.t :=
  head (filter (λ r, LabRequest.id r = i) (lab_requests s)).

(** [WeekSchedule.query.get(i)] *)
Definition get_week (s : Store) (i : Z) : option WeekSchedule.t :=
  head (filter (λ w, WeekSchedule.id w = i) (weeks s)).

(** [Reservation.query.filter_by(request_id=i).first()], which is also what
    the relationship [lab_request.reservation] loads. *)
Definition request_reservation (s : Store) (i : Z) : option Reservation.t :=
  head (filter (λ r, Reservation.request_id r = i) (reservations s)).

(** All reservations that reference request [i]. *)
Definition reservations_of (s : Store) (i : Z) : list Reservation.t :=
  filter (λ r, Reservation.request_id r = i) (reservations s).

(** [Lab.query.filter_by(is_active=True, subject_group=g)
        .order_by(Lab.name.asc()).all()] *)
Definition active_labs_in (s : Store) (g : string) : list Lab.t :=
  sort_by (λ a b, String.leb (Lab.name a) (Lab.name b))
    (filter (λ l, Lab.is_active l = true ∧ Lab.subject_group l = g) (labs s)).

(** The set of [Reservation.lab_id] over the join of [Reservation] with
    [Lab] on [Reservation.lab_id == Lab.id], filtered on the slot and on
    [Lab.subject_group == g]. *)
Definition occupied_lab_ids (s : Store) (d p : Z) (g : string) : gset Z :=
  list_to_set
    (Reservation.lab_id <$>
       filter (λ r, Reservation.date r = d ∧ Reservation.period r = p ∧
                    Exists (λ l, Lab.id l = Reservation.lab_id r ∧
                                 Lab.subject_group l = g) (labs s))
              (reservations s)).

(** ** Row updates *)

Definition set_lab_group (i : Z) (g : string) (s : Store) : Store :=
  with_lab_requests
    ((λ r, if decide (LabRequest.id r = i) then LabRequest.with_lab_group g r else r)
       <$> lab_requests s) s.

Definition set_status (i : Z) (st : Status) (s : Store) : Store :=
  with_lab_requests
    ((λ r, if decide (LabRequest.id r = i) then LabRequest.with_status st r else r)
       <$> lab_requests s) s.

(** [db.session.add(Reservation(...))] *)
Definition add_reservation (r : Reservation.t) (s : Store) : Store :=
  with_reservations (reservations s ++ [r]) s.

(** Removes the first row of a table that satisfies [P]. *)
Fixpoint remove_first {A} (P : A → Prop) `{!∀ x, Decision (P x)}
    (l : list A) : list A :=
  match l with
  | [] => []
  | x :: l' => if decide (P x) then l' else x :: remove_first P l'
  end.

(** [if lab_request.reservation: db.session.delete(lab_request.reservation)] *)
Definition delete_request_reservation (i : Z) (s : Store) : Store :=
  with_reservations
    (remove_first (λ r, Reservation.request_id r = i) (reservations s)) s.

(** ** Group resolution *)

Definition default_group : string := "Tin học".

(** [lab.subject_group] of lab [o] when [o] is true, the lab exists and its
    group is a non-empty string. *)
Definition group_of_lab_ref (s : Store) (o : option Z) : option string :=
  if truthy o then
    match o ≫= get_lab s with
    | Some lab =>
        if decide (Lab.subject_group lab = "") then None
        else Some (Lab.subject_group lab)
    | None => None
    end
  else None.

Definition _infer_req_group (s : Store) (req : LabRequest.t) : string :=
  if decide (LabRequest.lab_group req = "") then
    match group_of_lab_ref s (LabRequest.preferred_lab_id req) with
    | Some g => g
    | None =>
        match get_user s (LabRequest.teacher_id req)
                ≫= (λ u, group_of_lab_ref s (User.preferred_lab_id u)) with
        | Some g => g
        | None => default_group
        end
    end
  else LabRequest.lab_group req.

(** ** Single-request assignment *)

(** [req.preferred_lab_id or
      (req.teacher.preferred_lab_id if req.teacher else None)] *)
Definition pref_lab_id (s : Store) (req : LabRequest.t) : option Z :=
  py_or (LabRequest.preferred_lab_id req)
        (get_user s (LabRequest.teacher_id req) ≫= User.preferred_lab_id).

(** The preference pass: the preferred lab when it exists, is active, is in
    the group and is not occupied. *)
Definition preferred_choice (s : Store) (pref : option Z) (g : string)
    (occupied_ids : gset Z) : option Lab.t :=
  if truthy pref then
    match pref ≫= get_lab s with
    | Some pref_lab =>
        if Lab.is_active pref_lab
           && bool_decide (Lab.subject_group pref_lab = g)
           && bool_decide (Lab.id pref_lab ∉ occupied_ids)
        then Some pref_lab else None
    | None => None
    end
  else None.

(** The fallback pass: the first active lab, by name, that is not occupied. *)
Definition first_free (active_labs : list Lab.t) (occupied_ids : gset Z)
    : option Lab.t :=
  head (filter (λ lab, Lab.id lab ∉ occupied_ids) active_labs).

Definition _assign_reservation_for_request (req : LabRequest.t) (s : Store)
    : bool * Store :=
  if request_reservation s (LabRequest.id req) is Some _ then (true, s)
  else
    let req_group := _infer_req_group s req in
    let s1 := set_lab_group (LabRequest.id req) req_group s in
    let active_labs := active_labs_in s1 req_group in
    if active_labs is [] then (false, s1)
    else
      let occupied_ids :=
        occupied_lab_ids s1 (LabRequest.date req) (LabRequest.period req) req_group in
      let chosen_lab :=
        match preferred_choice s1 (pref_lab_id s1 req) req_group occupied_ids with
        | Some lab => Some lab
        | None => first_free active_labs occupied_ids
        end in
      match chosen_lab with
      | None => (false, s1)
      | Some lab =>
          (true,
           set_status (LabRequest.id req) scheduled
             (add_reservation
                (Reservation.mk (Lab.id lab) (LabRequest.id req)
                   (LabRequest.date req) (LabRequest.period req)) s1))
      end.

(** ** Batch scheduling *)

(** [r.preferred_lab_id or (r.teacher and r.teacher.preferred_lab_id)] as a
    truth value. *)
Definition has_preference_signal (s : Store) (r : LabRequest.t) : bool :=
  truthy
    (py_or (LabRequest.preferred_lab_id r)
           (get_user s (LabRequest.teacher_id r) ≫= User.preferred_lab_id)).

(** The sort key [(0 if <preference signal> else 1, r.created_at)]. *)
Definition sort_key (s : Store) (r : LabRequest.t) : Z * Z :=
  (if has_preference_signal s r then 0 else 1, LabRequest.created_at r).

(** Order of Python tuples: lexicographic. *)
Definition key_leb (a b : Z * Z) : bool :=
  (a.1 <? b.1) || ((a.1 =? b.1) && (a.2 <=? b.2)).

(** [LabRequest.query.filter(LabRequest.status.in_(["pending", "approved"]))
      .all()] *)
Definition backlog (s : Store) : list LabRequest.t :=
  filter (λ r, LabRequest.status r = pending ∨ LabRequest.status r = approved)
         (lab_requests s).

(** The backlog after [unscheduled.sort(key=...)]. *)
Definition unscheduled (s : Store) : list LabRequest.t :=
  sort_by (λ a b, key_leb (sort_key s a) (sort_key s b)) (backlog s).

(** One turn of the loop.  The second component is a ghost log of the
    requests handed to [_assign_reservation_for_request], in call order. *)
Definition schedule_step (st : Store * list LabRequest.t) (req : LabRequest.t)
    : Store * list LabRequest.t :=
  let '(s, attempted) := st in
  if request_reservation s (LabRequest.id req) is Some _ then (s, attempted)
  else
    let '(ok, s') := _assign_reservation_for_request req s in
    (if ok then s' else set_status (LabRequest.id req) conflict s',
     attempted ++ [req]).

Definition schedule_loop (rs : list LabRequest.t) (s : Store)
    : Store * list LabRequest.t :=
  foldl schedule_step (s, []) rs.

(** The result shape that the interface description asks of the batch run. *)
Record ScheduleCounts := mkCounts { assignedCount : nat; conflictCount : nat }.

(** [run_auto_schedule] has no [return] statement: the call evaluates to
    Python's [None], here the [None] of [option ScheduleCounts]. *)
Definition run_auto_schedule (s : Store) : option ScheduleCounts * Store :=
  (None, (schedule_loop (unscheduled s) s).1).

(** The requests the batch run attempts, in order. *)
Definition attempted (s : Store) : list LabRequest.t :=
  (schedule_loop (unscheduled s) s).2.

(** ** Administrative overrides *)

(** A form field read as an integer: empty after [strip()], rejected by
    [int()], or parsed. *)
Inductive FormInt := Blank | NotInt | IsInt (z : Z).

(** [not field_str] *)
Definition is_blank (field : FormInt) : bool :=
  if field is Blank then true else false.

Definition parse_status (new_status : string) : option Status :=
  if decide (new_status = "pending") then Some pending
  else if decide (new_status = "approved") then Some approved
  else if decide (new_status = "scheduled") then Some scheduled
  else if decide (new_status = "conflict") then Some conflict
  else None.

Inductive UpdateOutcome :=
  | UpdateNotFound      (* get_or_404 *)
  | UpdateInvalidStatus (* "Trạng thái không hợp lệ." *)
  | UpdateNoFreeLab     (* "Không thể xếp lịch vì không còn phòng trống. ..." *)
  | UpdateScheduled     (* "Đã xếp lịch và cập nhật trạng thái." *)
  | UpdateDone.         (* "Đã cập nhật trạng thái." *)

Definition update_request_status (req_id : Z) (new_status : string) (s : Store)
    : UpdateOutcome * Store :=
  match get_request s req_id with
  | None => (UpdateNotFound, s)
  | Some lab_request =>
      match parse_status new_status with
      | None => (UpdateInvalidStatus, s)
      | Some scheduled =>
          let '(ok, s') := _assign_reservation_for_request lab_request s in
          if ok then (UpdateScheduled, s')
          else (UpdateNoFreeLab, set_status (LabRequest.id lab_request) conflict s')
      | Some st =>
          (UpdateDone,
           set_status (LabRequest.id lab_request) st
             (delete_request_reservation (LabRequest.id lab_request) s))
      end
  end.

Inductive ManualOutcome :=
  | ManualNotFound    (* get_or_404 *)
  | ManualNoLabChosen (* "Vui lòng chọn phòng khi gán thủ công." *)
  | ManualBadLabId    (* "Phòng không hợp lệ." *)
  | ResourceInactive  (* "Phòng không tồn tại hoặc không hoạt động." *)
  | GroupMismatch     (* "Không thể gán. Yêu cầu nhóm ... nhưng phòng thuộc ..." *)
  | SlotTaken         (* "Phòng này đã có lịch ở ngày/tiết này." *)
  | Assigned.         (* "Đã gán phòng thủ công." *)

(** [Reservation.query.filter_by(lab_id=l, date=d, period=p).first()] *)
Definition slot_reservation (s : Store) (l d p : Z) : option Reservation.t :=
  head (filter (λ r, Reservation.lab_id r = l ∧ Reservation.date r = d ∧
                     Reservation.period r = p) (reservations s)).

Definition manual_assign (req_id : Z) (lab_id_str : FormInt) (s : Store)
    : ManualOutcome * Store :=
  match get_request s req_id with
  | None => (ManualNotFound, s)
  | Some lab_request =>
      match lab_id_str with
      | Blank => (ManualNoLabChosen, s)
      | NotInt => (ManualBadLabId, s)
      | IsInt lab_id =>
          match get_lab s lab_id with
          | None => (ResourceInactive, s)
          | Some lab =>
              if negb (Lab.is_active lab) then (ResourceInactive, s)
              else
                let req_group := _infer_req_group s lab_request in
                if decide (Lab.subject_group lab ≠ req_group) then (GroupMismatch, s)
                else if slot_reservation s (Lab.id lab) (LabRequest.date lab_request)
                          (LabRequest.period lab_request) is Some _
                then (SlotTaken, s)
                else
                  (Assigned,
                   set_status (LabRequest.id lab_request) scheduled
                     (add_reservation
                        (Reservation.mk (Lab.id lab) (LabRequest.id lab_request)
                           (LabRequest.date lab_request)
                           (LabRequest.period lab_request))
                        (delete_request_reservation (LabRequest.id lab_request) s)))
          end
      end
  end.

(** ** Conflict explanation and suggestions *)

Record OccupiedDetail := mkOccupied {
  occ_lab_name : string;
  occ_teacher_name : string;
  occ_class_name : string
}.

(** One suggestion; the two renderings of the date ([isoformat] and
    [strftime]) are both functions of [sg_date]. *)
Record Suggestion := mkSuggestion {
  sg_date : Z;
  sg_period : Z;
  free_lab_names : list string
}.

Record Diagnosis := mkDiagnosis {
  diag_lab_group : string;
  diag_occupied : list OccupiedDetail;
  diag_suggestions : list Suggestion
}.

(** The join of [Reservation], [Lab], [LabRequest] and [User] at one slot
    and group. *)
Definition _get_occupied_details (s : Store) (target_date target_period : Z)
    (subject_group : string) : list OccupiedDetail :=
  res ← reservations s;
  lab ← filter (λ l, Lab.id l = Reservation.lab_id res) (labs s);
  req ← filter (λ r, LabRequest.id r = Reservation.request_id res) (lab_requests s);
  teacher ← filter (λ u, User.id u = LabRequest.teacher_id req) (users s);
  if decide (Reservation.date res = target_date ∧
             Reservation.period res = target_period ∧
             Lab.subject_group lab = subject_group)
  then [mkOccupied (Lab.name lab) (User.full_name teacher) (LabRequest.class_name req)]
  else [].

Section suggestion_search.
Context (s : Store) (req : LabRequest.t) (subject_group : string)
        (active_labs : list Lab.t) (max_period top_k : Z).

(** [[lab for lab in active_labs if lab.id not in occupied_ids]] *)
Definition free_labs_at (d p : Z) : list Lab.t :=
  filter (λ lab, Lab.id lab ∉ occupied_lab_ids s d p subject_group) active_labs.

(** [len(suggestions) >= top_k] *)
Definition enough (suggestions : list Suggestion) : bool :=
  top_k <=? Z.of_nat (length suggestions).

(** [for p in range(1, max_period + 1)] over the periods still to visit. *)
Fixpoint period_loop (d : Z) (ps : list Z) (suggestions : list Suggestion)
    : list Suggestion :=
  match ps with
  | [] => suggestions
  | p :: ps' =>
      if bool_decide (d = LabRequest.date req ∧ p = LabRequest.period req)
      then period_loop d ps' suggestions                       (* continue *)
      else
        let free_labs := free_labs_at d p in
        let suggestions' :=
          if free_labs is [] then suggestions
          else suggestions ++ [mkSuggestion d p (take 3 (Lab.name <$> free_labs))] in
        if enough suggestions' then suggestions'               (* break *)
        else period_loop d ps' suggestions'
  end.

(** [for sign in ([0] if delta_days == 0 else [-1, 1])], whose first
    statement [d = req.date + timedelta(days=sign * delta_days)] may raise. *)
Fixpoint sign_loop (delta_days : Z) (signs : list Z)
    (suggestions : list Suggestion) : Result (list Suggestion) :=
  match signs with
  | [] => Returned suggestions
  | sign :: signs' =>
      match date_add (LabRequest.date req) (sign * delta_days) with
      | Overflow => Overflow
      | Returned d =>
          let suggestions' :=
            period_loop d (py_range 1 (max_period + 1)) suggestions in
          if enough suggestions' then Returned suggestions'    (* break *)
          else sign_loop delta_days signs' suggestions'
      end
  end.

(** [for delta_days in range(0, day_window + 1)] *)
Fixpoint day_loop (deltas : list Z) (suggestions : list Suggestion)
    : Result (list Suggestion) :=
  match deltas with
  | [] => Returned suggestions
  | delta_days :: deltas' =>
      match sign_loop delta_days (if delta_days =? 0 then [0] else [-1; 1])
                      suggestions with
      | Overflow => Overflow
      | Returned suggestions' =>
          if enough suggestions' then Returned suggestions'    (* break *)
          else day_loop deltas' suggestions'
      end
  end.
End suggestion_search.

(** [None] stands for the answer [{"ok": False, ...}] of an unknown request;
    the call raises when the search does. *)
Definition ai_explain_conflict_and_suggest (s : Store) (req_id : Z)
    (max_period day_window top_k : Z) : Result (option Diagnosis) :=
  match get_request s req_id with
  | None => Returned None
  | Some req =>
      let subject_group := _infer_req_group s req in
      let active_labs := active_labs_in s subject_group in
      let occupied_now :=
        _get_occupied_details s (LabRequest.date req) (LabRequest.period req)
          subject_group in
      match day_loop s req subject_group active_labs max_period top_k
              (py_range 0 (day_window + 1)) [] with
      | Overflow => Overflow
      | Returned suggestions =>
          Returned (Some (mkDiagnosis subject_group occupied_now suggestions))
      end
  end.

(** ** Submission of a request *)

(** A form field read as a date: empty, rejected by [strptime], or parsed. *)
Inductive FormDate := NoDate | BadDate | IsDate (d : Z).

Module RequestForm.
Record t := mk {
  class_name : string;
  period_str : FormInt;
  lab_group : string;
  preferred_lab_id_str : FormInt;
  week_id_str : FormInt;
  weekday_str : FormInt;
  date_str : FormDate
}.
End RequestForm.

Inductive HttpRequest := GET | POST (form : RequestForm.t).

Inductive SubmitOutcome :=
  | NotATeacher        (* "Chỉ giáo viên mới được đăng ký phòng." *)
  | FormShown          (* GET: the empty form *)
  | MissingFields      (* "Vui lòng nhập đầy đủ thông tin." *)
  | BadPeriod          (* "Tiết không hợp lệ." *)
  | BadWeek            (* "Tuần không hợp lệ." *)
  | WeekUnavailable    (* "Tuần không tồn tại hoặc không hoạt động." *)
  | MissingWeekday     (* "Vui lòng chọn Thứ trong tuần." *)
  | BadWeekday         (* "Thứ không hợp lệ." *)
  | WeekdayOutOfRange  (* "Thứ phải trong khoảng 0..6 (0=Thứ 2)." *)
  | DateOutsideWeek    (* "Ngày suy ra không nằm trong khoảng tuần." *)
  | MissingDate        (* "Vui lòng chọn ngày đăng ký." *)
  | InvalidDate        (* "Ngày không hợp lệ." *)
  | BadPreferredLab    (* "Phòng ưu tiên không hợp lệ." *)
  | DuplicateSlot      (* "Bạn đã có yêu cầu/lịch ở ngày & tiết này. ..." *)
  | SubmitOverflow     (* [OverflowError] in [_week_date_from_weekday] *)
  | Submitted.         (* "Đã gửi yêu cầu đăng ký phòng." *)

(** [week.start_date + timedelta(days=weekday)] *)
Definition _week_date_from_weekday (week : WeekSchedule.t) (weekday : Z)
    : Result Z :=
  date_add (WeekSchedule.start_date week) weekday.

(** The [if week_id_str: ... else: ...] block of [new_request]: the date the
    submission is for, with its week, or the refusal. *)
Definition submission_date (s : Store) (form : RequestForm.t)
    : SubmitOutcome + (Z * option WeekSchedule.t) :=
  match RequestForm.week_id_str form with
  | NotInt => inl BadWeek
  | IsInt week_id =>
      match get_week s week_id with
      | None => inl WeekUnavailable
      | Some week_obj =>
          if negb (WeekSchedule.is_active week_obj) then inl WeekUnavailable
          else
            match RequestForm.weekday_str form with
            | Blank => inl MissingWeekday
            | NotInt => inl BadWeekday
            | IsInt weekday =>
                if (weekday <? 0) || (6 <? weekday) then inl WeekdayOutOfRange
                else
                  match _week_date_from_weekday week_obj weekday with
                  | Overflow => inl SubmitOverflow
                  | Returned date_obj =>
                      if (date_obj <? WeekSchedule.start_date week_obj)
                         || (WeekSchedule.end_date week_obj <? date_obj)
                      then inl DateOutsideWeek
                      else inr (date_obj, Some week_obj)
                  end
            end
      end
  | Blank =>
      match RequestForm.date_str form with
      | NoDate => inl MissingDate
      | BadDate => inl InvalidDate
      | IsDate date_obj => inr (date_obj, None)
      end
  end.

(** [LabRequest.query.filter_by(teacher_id=t, date=d, period=p)
      .filter(LabRequest.status.in_(["pending", "approved", "scheduled"]))
      .first()] *)
Definition existed_same (s : Store) (t d p : Z) : option LabRequest.t :=
  head (filter (λ r, (LabRequest.teacher_id r = t ∧ LabRequest.date r = d ∧
                      LabRequest.period r = p) ∧
                     (LabRequest.status r = pending ∨ LabRequest.status r = approved ∨
                      LabRequest.status r = scheduled))
               (lab_requests s)).

(** The key SQLite gives a new row: one more than the largest in use. *)
Definition next_id (ids : list Z) : Z := 1 + foldr Z.max 0 ids.

(** [now] is the value of [datetime.utcnow()] when the row is created. *)
Definition new_request (current_user : User.t) (request : HttpRequest) (now : Z)
    (s : Store) : SubmitOutcome * Store :=
  if decide (User.role current_user ≠ "teacher") then (NotATeacher, s)
  else
    match request with
    | GET => (FormShown, s)
    | POST form =>
        let class_name := RequestForm.class_name form in
        let lab_group :=
          if decide (RequestForm.lab_group form = "") then default_group
          else RequestForm.lab_group form in
        if bool_decide (class_name = "") || is_blank (RequestForm.period_str form)
        then (MissingFields, s)
        else
        match RequestForm.period_str form with
        | Blank | NotInt => (BadPeriod, s)       (* int() raises ValueError *)
        | IsInt period =>
        match submission_date s form with
        | inl refusal => (refusal, s)
        | inr (date_obj, week_obj) =>
            let preferred_lab_id :=
              match RequestForm.preferred_lab_id_str form with
              | IsInt z => Some z
              | _ => None
              end in
            let checked_group :=
              if truthy preferred_lab_id then
                match preferred_lab_id ≫= get_lab s with
                | Some lab =>
                    if Lab.is_active lab then Some (Lab.subject_group lab) else None
                | None => None
                end
              else Some lab_group in
            match checked_group with
            | None => (BadPreferredLab, s)
            | Some lab_group =>
                if existed_same s (User.id current_user) date_obj period is Some _
                then (DuplicateSlot, s)
                else
                  (Submitted,
                   with_lab_requests
                     (lab_requests s ++
                        [LabRequest.mk
                           (next_id (LabRequest.id <$> lab_requests s))
                           (User.id current_user) class_name lab_group
                           (WeekSchedule.id <$> week_obj) date_obj period pending
                           preferred_lab_id now])
                     s)
            end
        end
        end
    end.


(** ** Invariants of the store *)

(** The slot a reservation takes: (lab, date, period). *)
Definition slot (r : Reservation.t) : Z * Z * Z :=
  (Reservation.lab_id r, Reservation.date r, Reservation.period r).

(** Slot uniqueness: two different rows of the reservation table never take
    the same slot. *)
Definition slot_unique (s : Store) : Prop :=
  ∀ i j r1 r2, i ≠ j →
    reservations s !! i = Some r1 → reservations s !! j = Some r2 →
    slot r1 ≠ slot r2.

(** The 1:1 binding: a scheduled request is referenced by exactly one
    reservation, a request in any other status by none. *)
Definition binding_ok (s : Store) : Prop :=
  ∀ r, r ∈ lab_requests s →
    length (reservations_of s (LabRequest.id r)) =
      if decide (LabRequest.status r = scheduled) then 1%nat else 0%nat.

(** Lab [l] has a reservation at date [d], period [p]. *)
Definition reserved_at (s : Store) (l d p : Z) : Prop :=
  ∃ r, r ∈ reservations s ∧ Reservation.lab_id r = l ∧
       Reservation.date r = d ∧ Reservation.period r = p.

(** [x] comes before [y] in [l]. *)
Definition before {A} (x y : A) (l : list A) : Prop :=
  ∃ i j, (i < j)%nat ∧ l !! i = Some x ∧ l !! j = Some y.

(** The order of the sort key, on requests. *)
Definition request_leb (s : Store) (a b : LabRequest.t) : bool :=
  key_leb (sort_key s a) (sort_key s b).

(** Every request in the log of attempts is in status scheduled or
    conflict. *)
Definition attempts_settled (st : Store * list LabRequest.t) : Prop :=
  ∀ r r', r ∈ st.2 → r' ∈ lab_requests st.1 →
    LabRequest.id r' = LabRequest.id r →
    LabRequest.status r' = scheduled ∨ LabRequest.status r' = conflict.

(** ** The preferred lab, in the words of the specification *)

(** Request [req] names lab [pid] as its preferred lab: by its own
    [preferred_lab_id] or, when it has none ([None], or [0], which Python
    takes as false), by the [preferred_lab_id] of its teacher. *)
Definition names_preferred_lab (s : Store) (req : LabRequest.t) (pid : Z)
    : Prop :=
  pid ≠ 0 ∧
  (LabRequest.preferred_lab_id req = Some pid ∨
   ((LabRequest.preferred_lab_id req = None ∨
     LabRequest.preferred_lab_id req = Some 0) ∧
    ∃ teacher, get_user s (LabRequest.teacher_id req) = Some teacher ∧
               User.preferred_lab_id teacher = Some pid)).

(** A request carries a preference signal when it names a preferred lab,
    its own or its teacher's. *)
Definition preference_signal (s : Store) (req : LabRequest.t) : Prop :=
  ∃ pid, names_preferred_lab s req pid.

(** ** The body of the batch loop *)

(** What the loop does with a request it attempts:
    [ok = _assign_reservation_for_request(req)] and, when that fails,
    [req.status = "conflict"]. *)
Definition attempt (req : LabRequest.t) (s : Store) : Store :=
  if (_assign_reservation_for_request req s).1
  then (_assign_reservation_for_request req s).2
  else set_status (LabRequest.id req) conflict
         (_assign_reservation_for_request req s).2.

(** One turn of the loop, on the store alone: a request that has a
    reservation is passed over, any other is attempted. *)
Definition turn (s : Store) (req : LabRequest.t) : Store :=
  if request_reservation s (LabRequest.id req) is Some _ then s
  else attempt req s.

(** ** Dates of the calendar *)

(** Day [d] is a date: between [date.min] and [date.max]. *)
Definition in_calendar (d : Z) : Prop := date_min ≤ d ≤ date_max.

(** ** The suggestion search without its [break]s *)

(** The suggestion for date [d], period [p], when some active lab of the
    group is free there. *)
Definition candidate (s : Store) (subject_group : string)
    (active_labs : list Lab.t) (d p : Z) : option Suggestion :=
  let free_labs := free_labs_at s subject_group active_labs d p in
  if free_labs is [] then None
  else Some (mkSuggestion d p (take 3 (Lab.name <$> free_labs))).

(** The dates in the order of the search: [d0], [d0 - 1], [d0 + 1],
    [d0 - 2], [d0 + 2], ... *)
Definition visit_dates (d0 day_window : Z) : list Z :=
  delta_days ← py_range 0 (day_window + 1);
  sign ← (if delta_days =? 0 then [0] else [-1; 1]);
  [d0 + sign * delta_days].

(** The qualifying candidates of one date: periods ascending, the
    request's own slot left out. *)
Definition qualifying_on (s : Store) (req : LabRequest.t) (subject_group : string)
    (active_labs : list Lab.t) (max_period : Z) (d : Z) : list Suggestion :=
  p ← py_range 1 (max_period + 1);
  if decide (d = LabRequest.date req ∧ p = LabRequest.period req) then []
  else option_list (candidate s subject_group active_labs d p).

(** All qualifying candidates, in the order of the search. *)
Definition qualifying (s : Store) (req : LabRequest.t)
    (max_period day_window : Z) : list Suggestion :=
  let subject_group := _infer_req_group s req in
  d ← visit_dates (LabRequest.date req) day_window;
  qualifying_on s req subject_group (active_labs_in s subject_group) max_period d.

(** The suggestions of the answer, when the call returned a diagnosis. *)
Definition suggestions_of (answer : Result (option Diagnosis))
    : option (list Suggestion) :=
  match answer with
  | Returned (Some diag) => Some (diag_suggestions diag)
  | _ => None
  end.

(** ** The batch loop on shared rows *)

(** In Python the elements of [unscheduled] are the session's own objects:
    reading a field of [req] reads the row as it is now.  [schedule_step]
    is handed the row as it was when the backlog was queried;
    [schedule_step_live] looks the row up again at the start of the turn. *)
Definition schedule_step_live (st : Store * list LabRequest.t)
    (req : LabRequest.t) : Store * list LabRequest.t :=
  schedule_step st (default req (get_request st.1 (LabRequest.id req))).

(** ** Example stores *)

Module Demo.
Definition R1 := Lab.mk 1 "R1" "Science" 40 true.
Definition R2 := Lab.mk 2 "R2" "Science" 40 true.
Definition P1 := Lab.mk 3 "P1" "Physics" 30 false.
Definition P2 := Lab.mk 4 "P2" "Physics" 30 true.

Definition teacher1 := User.mk 1 "Teacher One" "teacher" None.
Definition teacher2 := User.mk 2 "Teacher Two" "teacher" None.

(** [A] has no preference and is created first; [B] prefers [R2] and is
    created second.  Both ask for date 100, period 3, group Science. *)
Definition A :=
  LabRequest.mk 1 1 "10A" "Science" None 100 3 pending None 1.
Definition B :=
  LabRequest.mk 2 2 "10B" "Science" None 100 3 pending (Some 2) 2.

(** Two free Science labs. *)
Definition store : Store :=
  mkStore [R1; R2; P1; P2] [teacher1; teacher2] [] [A; B] [].

(** [teacher3] has lab [R2] as standing preference; the request [C] of
    [teacher3] names no lab itself and is created after [A]. *)
Definition teacher3 := User.mk 3 "Teacher Three" "teacher" (Some 2).
Definition C :=
  LabRequest.mk 3 3 "10C" "Science" None 100 3 pending None 3.

Definition standing : Store :=
  mkStore [R1; R2; P1; P2] [teacher1; teacher2; teacher3] [] [A; C] [].

(** The same after a batch run: both requests are scheduled. *)
Definition booked : Store := (run_auto_schedule store).2.

(** One Science lab only. *)
Definition crowded : Store :=
  mkStore [R1] [teacher1; teacher2] [] [A; B] [].

(** [crowded] once [B] has taken the only lab. *)
Definition full : Store := (_assign_reservation_for_request B crowded).2.

(** A second submission of [teacher1] for date 100, period 3. *)
Definition form : RequestForm.t :=
  RequestForm.mk "10C" (IsInt 3) "Science" Blank Blank Blank (IsDate 100).

(** Scenario 3: request [X] is in conflict at date 100, period 1.  Within
    two days and two periods, lab [R1], the only one of the group, is
    taken everywhere except on date 101, period 2. *)
Definition X :=
  LabRequest.mk 1 1 "10A" "Science" None 100 1 conflict None 1.

Definition taken : list (Z * Z) :=
  [(98, 1); (98, 2); (99, 1); (99, 2); (100, 1); (100, 2); (101, 1);
   (102, 1); (102, 2)].

Definition busy : Store :=
  mkStore [R1] [teacher1; teacher2] []
    (X :: imap (λ i c, LabRequest.mk (10 + Z.of_nat i) 2 "11B" "Science" None
                         c.1 c.2 scheduled None (2 + Z.of_nat i)) taken)
    (imap (λ i c, Reservation.mk 1 (10 + Z.of_nat i) c.1 c.2) taken).
End Demo.

(** [Demo.store] once [A] has taken [R1], the first lab by name. *)
Definition half_booked : Store :=
  (_assign_reservation_for_request Demo.A Demo.store).2.

(** * Further operations of [app.py] *)

Definition with_labs (ls : list Lab.t) (s : Store) : Store :=
  mkStore ls (users s) (weeks s) (lab_requests s) (reservations s).

Definition with_users (us : list User.t) (s : Store) : Store :=
  mkStore (labs s) us (weeks s) (lab_requests s) (reservations s).

Definition with_weeks (ws : list WeekSchedule.t) (s : Store) : Store :=
  mkStore (labs s) (users s) ws (lab_requests s) (reservations s).

(** ** Backfill of reservations at start-up *)

(** One turn of the loop of [ensure_reservations_for_scheduled_requests];
    the pair holds the counters [created] and [conflicted]. *)
Definition backfill_step (st : Store * (Z * Z)) (req : LabRequest.t)
    : Store * (Z * Z) :=
  let '(s, (created, conflicted)) := st in
  if request_reservation s (LabRequest.id req) is Some _ then st
  else
    let '(ok, s') := _assign_reservation_for_request req s in
    if ok then (s', (created + 1, conflicted))
    else (set_status (LabRequest.id req) conflict s', (created, conflicted + 1)).

(** Returns the store and the two counters that the function prints. *)
Definition ensure_reservations_for_scheduled_requests (s : Store)
    : Store * (Z * Z) :=
  foldl backfill_step (s, (0, 0))
    (filter (λ r, LabRequest.status r = scheduled) (lab_requests s)).

(** ** Administration of labs *)

Definition lab_with_is_active (b : bool) (l : Lab.t) : Lab.t :=
  Lab.mk (Lab.id l) (Lab.name l) (Lab.subject_group l) (Lab.capacity l) b.

Inductive LabsRequest := LabsGET | LabsPOST (name subject_group : string).

Inductive AddLabOutcome :=
  | LabsListed        (* GET: the list of labs *)
  | LabFieldsMissing  (* "Vui lòng nhập Tên phòng và Tổ/Nhóm bộ môn." *)
  | LabNameExists     (* "Tên phòng đã tồn tại." *)
  | LabAdded.         (* "Đã thêm phòng thực hành." *)

(** [name] and [subject_group] are the form fields after [strip()]. *)
Definition admin_labs (request : LabsRequest) (s : Store) : AddLabOutcome * Store :=
  match request with
  | LabsGET => (LabsListed, s)
  | LabsPOST name subject_group =>
      if bool_decide (name = "") || bool_decide (subject_group = "")
      then (LabFieldsMissing, s)
      else if head (filter (λ l, Lab.name l = name) (labs s)) is Some _
      then (LabNameExists, s)
      else
        (LabAdded,
         with_labs
           (labs s ++ [Lab.mk (next_id (Lab.id <$> labs s)) name subject_group 40 true])
           s)
  end.

Inductive ToggleOutcome := ToggleNotFound | Toggled.

Definition admin_toggle_lab (lab_id : Z) (s : Store) : ToggleOutcome * Store :=
  match get_lab s lab_id with
  | None => (ToggleNotFound, s)
  | Some lab =>
      (Toggled,
       with_labs
         ((λ l, if decide (Lab.id l = Lab.id lab)
                then lab_with_is_active (negb (Lab.is_active lab)) l else l)
            <$> labs s) s)
  end.

Inductive DeleteLabOutcome :=
  | DeleteLabNotFound   (* get_or_404 *)
  | LabHasReservations  (* "Không thể xoá vì phòng này đã có lịch xếp. ..." *)
  | LabPreferredByUser  (* "Không thể xoá vì có giáo viên đang đặt phòng này ..." *)
  | LabPreferredByRequest (* "Không thể xoá vì có yêu cầu đăng ký đang chọn ..." *)
  | LabDeleted.         (* "Đã xoá phòng thực hành." *)

Definition admin_delete_lab (lab_id : Z) (s : Store) : DeleteLabOutcome * Store :=
  match get_lab s lab_id with
  | None => (DeleteLabNotFound, s)
  | Some lab =>
      if head (filter (λ r, Reservation.lab_id r = Lab.id lab) (reservations s))
           is Some _
      then (LabHasReservations, s)
      else if head (filter (λ u, User.preferred_lab_id u = Some (Lab.id lab))
                      (users s)) is Some _
      then (LabPreferredByUser, s)
      else if head (filter (λ r, LabRequest.preferred_lab_id r = Some (Lab.id lab))
                      (lab_requests s)) is Some _
      then (LabPreferredByRequest, s)
      else
        (LabDeleted,
         with_labs (filter (λ l, Lab.id l ≠ Lab.id lab) (labs s)) s)
  end.

(** ** Administration of weeks *)

Definition week_with_is_active (b : bool) (w : WeekSchedule.t) : WeekSchedule.t :=
  WeekSchedule.mk (WeekSchedule.id w) (WeekSchedule.start_date w)
    (WeekSchedule.end_date w) b.

Inductive DeleteWeekOutcome :=
  | DeleteWeekNotFound  (* get_or_404 *)
  | WeekSwitchedOff     (* "Tuần đã có giáo viên đăng ký. Hệ thống đã TẮT tuần ..." *)
  | WeekDeleted.        (* "Đã xoá tuần." *)

Definition admin_delete_week (week_id : Z) (s : Store) : DeleteWeekOutcome * Store :=
  match get_week s week_id with
  | None => (DeleteWeekNotFound, s)
  | Some w =>
      if head (filter (λ r, LabRequest.week_id r = Some (WeekSchedule.id w))
                 (lab_requests s)) is Some _
      then
        (WeekSwitchedOff,
         with_weeks
           ((λ x, if decide (WeekSchedule.id x = WeekSchedule.id w)
                  then week_with_is_active false x else x) <$> weeks s) s)
      else
        (WeekDeleted,
         with_weeks (filter (λ x, WeekSchedule.id x ≠ WeekSchedule.id w) (weeks s)) s)
  end.

(** ** Deletion of a teacher *)

(** [db.session.delete(req)] *)
Definition delete_request (i : Z) (s : Store) : Store :=
  with_lab_requests (filter (λ r, LabRequest.id r ≠ i) (lab_requests s)) s.

(** The body of [for req in list(teacher.lab_requests)]. *)
Definition delete_request_cascade (s : Store) (req : LabRequest.t) : Store :=
  delete_request (LabRequest.id req)
    (delete_request_reservation (LabRequest.id req) s).

Inductive DeleteTeacherOutcome :=
  | DeleteTeacherNotFound (* get_or_404 *)
  | NotATeacherAccount    (* "Không thể xoá tài khoản không phải giáo viên." *)
  | OwnAccount            (* "Không thể tự xoá tài khoản đang đăng nhập." *)
  | TeacherDeleted.       (* "Đã xoá giáo viên + toàn bộ yêu cầu/lịch." *)

Definition admin_delete_teacher (current_user : User.t) (teacher_id : Z)
    (s : Store) : DeleteTeacherOutcome * Store :=
  match get_user s teacher_id with
  | None => (DeleteTeacherNotFound, s)
  | Some teacher =>
      if decide (User.role teacher ≠ "teacher") then (NotATeacherAccount, s)
      else if decide (User.id teacher = User.id current_user) then (OwnAccount, s)
      else
        let s1 :=
          foldl delete_request_cascade s
            (filter (λ r, LabRequest.teacher_id r = User.id teacher)
                    (lab_requests s)) in
        (TeacherDeleted,
         with_users (filter (λ u, User.id u ≠ User.id teacher) (users s1)) s1)
  end.

(** ** The suggestions over HTTP *)

Inductive ApiAnswer :=
  | ApiNotFound                         (* get_or_404 *)
  | ApiForbidden                        (* 403 *)
  | ApiError                            (* the [OverflowError] is not caught *)
  | ApiData (data : option Diagnosis).  (* jsonify(data) *)

Definition api_ai_conflict (current_user : User.t) (req_id : Z) (s : Store)
    : ApiAnswer :=
  match get_request s req_id with
  | None => ApiNotFound
  | Some req =>
      if bool_decide (User.role current_user ≠ "admin")
         && bool_decide (LabRequest.teacher_id req ≠ User.id current_user)
      then ApiForbidden
      else
        match ai_explain_conflict_and_suggest s req_id 10 7 3 with
        | Overflow => ApiError
        | Returned data => ApiData data
        end
  end.

(** ** Further invariants *)

(** Group respect: the lab of a reservation is of the resolved group of the
    request it serves. *)
Definition group_respect (s : Store) : Prop :=
  ∀ r q, r ∈ reservations s →
    get_request s (Reservation.request_id r) = Some q →
    ∃ l, l ∈ labs s ∧ Lab.id l = Reservation.lab_id r ∧
         Lab.subject_group l = _infer_req_group s q.

(** A request has at most the reservations its status allows: at most one
    when scheduled, none otherwise. *)
Definition weak_binding (s : Store) : Prop :=
  ∀ r, r ∈ lab_requests s →
    (length (reservations_of s (LabRequest.id r)) ≤
       if decide (LabRequest.status r = scheduled) then 1 else 0)%nat.

(** The slot a teacher asks for: (teacher, date, period). *)
Definition teacher_slot (r : LabRequest.t) : Z * Z * Z :=
  (LabRequest.teacher_id r, LabRequest.date r, LabRequest.period r).

(** Among the requests that are not in conflict, no two are of the same
    teacher for the same date and period. *)
Definition teacher_slots_unique (s : Store) : Prop :=
  NoDup (teacher_slot <$>
           filter (λ r, LabRequest.status r ≠ conflict) (lab_requests s)).

(** The request that a successful submission of [form] by [u] creates. *)
Definition submitted_request (s : Store) (u : User.t) (form : RequestForm.t)
    (now : Z) (lab_group : string) (date_obj : Z)
    (week_obj : option WeekSchedule.t) (period : Z) : LabRequest.t :=
  LabRequest.mk (next_id (LabRequest.id <$> lab_requests s)) (User.id u)
    (RequestForm.class_name form) lab_group (WeekSchedule.id <$> week_obj)
    date_obj period pending
    (match RequestForm.preferred_lab_id_str form with
     | IsInt z => Some z
     | _ => None
     end) now.

(** Lab [lab] is free for a request at date [d], period [p]: active, of
    group [g], and without reservation there. *)
Definition free_for (s : Store) (g : string) (d p : Z) (lab : Lab.t) : Prop :=
  lab ∈ labs s ∧ Lab.is_active lab = true ∧ Lab.subject_group lab = g ∧
  ¬ reserved_at s (Lab.id lab) d p.

(** The lab the preference pass has to take: the one the request names,
    when it is free for the request. *)
Definition preferred_and_free (s : Store) (req : LabRequest.t)
    (plab : Lab.t) : Prop :=
  ∃ pid, names_preferred_lab s req pid ∧ get_lab s pid = Some plab ∧
         free_for s (_infer_req_group s req) (LabRequest.date req)
           (LabRequest.period req) plab.

(** Request [j] has a reservation. *)
Definition has_reservation (s : Store) (j : Z) : Prop :=
  request_reservation s j ≠ None.

(** The requests whose key is in [done] are reserved or in conflict. *)
Definition settled (done : list Z) (s : Store) : Prop :=
  ∀ r, r ∈ lab_requests s → LabRequest.id r ∈ done →
    has_reservation s (LabRequest.id r) ∨ LabRequest.status r = conflict.

(** What a loop of the search returns when it is started on [suggestions]
    and may add the elements of [found]: never more than [K] entries, or
    one more than it was given, and only entries it was given or found. *)
Definition within (K : nat) (suggestions found result : list Suggestion) : Prop :=
  (length result ≤ Nat.max K (S (length suggestions)))%nat ∧
  ∀ x, x ∈ result → x ∈ suggestions ∨ x ∈ found.


(** What an operation adds to the reservations goes to active labs: the lab
    table of [s'] is that of [s], and every reservation of [s'] that is not
    one of [s] is for a lab that is active. *)
Definition only_active_added (s s' : Store) : Prop :=
  labs s' = labs s ∧
  ∀ r, r ∈ reservations s' →
    r ∈ reservations s ∨
    ∃ lab, lab ∈ labs s ∧ Lab.id lab = Reservation.lab_id r ∧
           Lab.is_active lab = true.

(** Every reservation can be joined with its request, and the request with
    its teacher. *)
Definition references_ok (s : Store) : Prop :=
  ∀ r, r ∈ reservations s →
    ∃ q u, get_request s (Reservation.request_id r) = Some q ∧
           get_user s (LabRequest.teacher_id q) = Some u.

(** ** Further example stores *)

Definition admin_user : User.t := User.mk 9 "Admin" "admin" None.

(** [Demo.booked] with the administrator among the users. *)
Definition staffed : Store :=
  with_users [admin_user; Demo.teacher1; Demo.teacher2] Demo.booked.

(** [A] is marked scheduled but has no reservation. *)
Definition orphaned : Store :=
  mkStore [Demo.R1; Demo.R2; Demo.P1; Demo.P2] [Demo.teacher1; Demo.teacher2] []
    [LabRequest.with_status scheduled Demo.A; Demo.B] [].

(** A week from date 98 to date 104, and a request of [teacher1] for its
    second day, period 4. *)
Definition week1 : WeekSchedule.t := WeekSchedule.mk 1 98 104 true.

Definition weekly : LabRequest.t :=
  LabRequest.mk 3 1 "10C" "Science" (Some 1) 99 4 pending None 3.

Definition termly : Store :=
  mkStore [Demo.R1; Demo.R2; Demo.P1; Demo.P2] [Demo.teacher1; Demo.teacher2]
    [week1] [Demo.A; Demo.B; weekly] [].

(** A submission for the third day of week 1, period 4. *)
Definition week_form : RequestForm.t :=
  RequestForm.mk "10D" (IsInt 4) "Science" Blank (IsInt 1) (IsInt 2) NoDate.

(** A submission for date 100, period 5, that names lab [R2] and leaves
    the group empty. *)
Definition lab_form : RequestForm.t :=
  RequestForm.mk "10C" (IsInt 5) "" (IsInt 2) Blank Blank (IsDate 100).

(** A request of [teacher1] for the last day of the calendar, in a store
    without labs. *)
Definition last_day : Store :=
  mkStore [] [Demo.teacher1] []
    [LabRequest.mk 1 1 "10A" "Science" None date_max 1 conflict None 1] [].
(** * Properties *)

(** ** Lists, first matches and the stable sort *)

Section list_facts.
Context {A : Type}.
Implicit Types (l : list A) (x : A).

Lemma head_filter_Some (P : A → Prop) `{!∀ x, Decision (P x)} l x :
  head (filter P l) = Some x → x ∈ l ∧ P x.
Proof.
  intros Hx%head_Some_elem_of. by apply list_elem_of_filter in Hx as [? ?].
Qed.

Lemma head_filter_None (P : A → Prop) `{!∀ x, Decision (P x)} l :
  head (filter P l) = None ↔ ∀ x, x ∈ l → ¬ P x.
Proof.
  rewrite head_None. split.
  - intros Hnil x Hx HP. by eapply filter_nil_not_elem_of.
  - intros Hall. induction l as [|y l IH]; [done|].
    rewrite filter_cons_False; [|apply Hall; left].
    apply IH. intros x Hx. apply Hall. by right.
Qed.

Lemma remove_first_sublist (P : A → Prop) `{!∀ x, Decision (P x)} l :
  remove_first P l `sublist_of` l.
Proof.
  induction l as [|y l IH]; simpl; [done|].
  case_decide; [by apply sublist_cons|by apply sublist_skip].
Qed.

(** Deleting the first row that satisfies [P] takes the first row off the
    rows that satisfy [P], and leaves alone a selection that excludes [P]. *)
Lemma filter_remove_first (P : A → Prop) `{!∀ x, Decision (P x)} l :
  filter P (remove_first P l) = tail (filter P l).
Proof.
  induction l as [|y l IH]; simpl; [done|].
  case_decide.
  - by rewrite filter_cons_True.
  - by rewrite !filter_cons_False.
Qed.

Lemma filter_remove_first_other (P Q : A → Prop)
    `{!∀ x, Decision (P x)} `{!∀ x, Decision (Q x)} l :
  (∀ x, P x → ¬ Q x) → filter Q (remove_first P l) = filter Q l.
Proof.
  intros HPQ. induction l as [|y l IH]; simpl; [done|].
  case_decide.
  - rewrite (filter_cons_False Q y); [done|by apply HPQ].
  - rewrite !filter_cons, IH. done.
Qed.

Lemma filter_ext_elem_of (P Q : A → Prop)
    `{!∀ x, Decision (P x)} `{!∀ x, Decision (Q x)} l :
  (∀ x, x ∈ l → P x ↔ Q x) → filter P l = filter Q l.
Proof.
  induction l as [|y l IH]; intros HPQ; [done|].
  rewrite !filter_cons, IH by (intros x Hx; apply HPQ; by right).
  apply decide_ext, HPQ. by left.
Qed.

Lemma filter_all (P : A → Prop) `{!∀ x, Decision (P x)} l :
  Forall P l → filter P l = l.
Proof.
  induction 1 as [|x l Hx Hl IH]; [done|]. by rewrite filter_cons_True, IH.
Qed.

Lemma take_snoc_full n l x k :
  n = S (length l) → take n (l ++ x :: k) = l ++ [x].
Proof.
  intros ->. rewrite (cons_middle x l k), app_assoc.
  apply take_app_length'. rewrite length_app. simpl. lia.
Qed.

Section sorting.
Context (leb : A → A → bool).

Lemma insert_sorted_perm x l : insert_sorted leb x l ≡ₚ x :: l.
Proof.
  induction l as [|y l IH]; simpl; [done|].
  destruct (leb x y); [done|]. rewrite IH. apply Permutation_swap.
Qed.

Lemma sort_by_perm l : sort_by leb l ≡ₚ l.
Proof.
  induction l as [|y l IH]; simpl; [done|].
  by rewrite insert_sorted_perm, IH.
Qed.

Lemma elem_of_sort_by x l : x ∈ sort_by leb l ↔ x ∈ l.
Proof. by rewrite sort_by_perm. Qed.

Lemma sort_by_nil l : sort_by leb l = [] ↔ l = [].
Proof.
  split; [|by intros ->].
  intros H. apply Permutation_nil_r. by rewrite <-H, sort_by_perm.
Qed.

Context (leb_total : ∀ x y, leb x y = true ∨ leb y x = true)
        (leb_trans : ∀ x y z, leb x y = true → leb y z = true → leb x z = true).

Lemma insert_sorted_sorted x l :
  StronglySorted (λ a b, leb a b = true) l →
  StronglySorted (λ a b, leb a b = true) (insert_sorted leb x l).
Proof.
  induction 1 as [|y l Hl IH Hy]; simpl.
  - repeat constructor.
  - destruct (leb x y) eqn:Hxy.
    + constructor; [by constructor|].
      constructor; [done|].
      eapply Forall_impl; [exact Hy|]. intros z Hz. by eapply leb_trans.
    + constructor; [done|].
      rewrite insert_sorted_perm. constructor; [|done].
      destruct (leb_total x y); congruence.
Qed.

Lemma sort_by_sorted l :
  StronglySorted (λ a b, leb a b = true) (sort_by leb l).
Proof.
  induction l as [|y l IH]; simpl; [constructor|].
  by apply insert_sorted_sorted.
Qed.
End sorting.
End list_facts.

(** In a strongly sorted list, an earlier element is related to every later
    one; the same holds in each of its sublists. *)
Lemma StronglySorted_lookup {A} (R : A → A → Prop) (l : list A) i j x y :
  StronglySorted R l → (i < j)%nat → l !! i = Some x → l !! j = Some y → R x y.
Proof.
  intros Hl. revert i j. induction Hl as [|z l Hl IH Hz]; intros i j Hij Hi Hj.
  - done.
  - destruct j as [|j]; [lia|]. destruct i as [|i]; simpl in *.
    + simplify_eq. rewrite Forall_forall in Hz. apply Hz.
      by eapply list_elem_of_lookup_2.
    + eapply (IH i j); [lia|done..].
Qed.

Lemma StronglySorted_sublist {A} (R : A → A → Prop) (k l : list A) :
  k `sublist_of` l → StronglySorted R l → StronglySorted R k.
Proof.
  induction 1 as [|x k l Hkl IH|x k l Hkl IH]; intros Hl.
  - constructor.
  - apply StronglySorted_inv in Hl as [Hl Hx]. constructor; [by apply IH|].
    rewrite Forall_forall in Hx |- *. intros y Hy. apply Hx.
    by eapply elem_of_sublist.
  - apply StronglySorted_inv in Hl as [Hl _]. by apply IH.
Qed.

(** ** Reading the store *)

Lemma get_lab_Some s i lab : get_lab s i = Some lab → lab ∈ labs s ∧ Lab.id lab = i.
Proof. apply (head_filter_Some (λ l, Lab.id l = i)). Qed.

Lemma get_request_Some s i r :
  get_request s i = Some r → r ∈ lab_requests s ∧ LabRequest.id r = i.
Proof. apply (head_filter_Some (λ r, LabRequest.id r = i)). Qed.

Lemma request_reservation_None s i :
  request_reservation s i = None ↔ reservations_of s i = [].
Proof. apply head_None. Qed.

Lemma elem_of_active_labs_in s g lab :
  lab ∈ active_labs_in s g ↔
  lab ∈ labs s ∧ Lab.is_active lab = true ∧ Lab.subject_group lab = g.
Proof.
  unfold active_labs_in. rewrite elem_of_sort_by, list_elem_of_filter. tauto.
Qed.

(** For a lab of the group, being in the occupied set is having a
    reservation at the slot. *)
Lemma elem_of_occupied_lab_ids s d p g lab :
  lab ∈ labs s → Lab.subject_group lab = g →
  Lab.id lab ∈ occupied_lab_ids s d p g ↔ reserved_at s (Lab.id lab) d p.
Proof.
  intros Hlab Hg. unfold occupied_lab_ids, reserved_at.
  rewrite elem_of_list_to_set, list_elem_of_fmap. split.
  - intros (r & Hid & Hr). apply list_elem_of_filter in Hr as [(Hd & Hp & _) Hr].
    by exists r.
  - intros (r & Hr & Hid & Hd & Hp). exists r. split; [done|].
    apply list_elem_of_filter. split; [|done].
    split_and!; [done..|]. apply Exists_exists. by exists lab.
Qed.

Lemma occupied_lab_ids_reserved s d p g l :
  l ∈ occupied_lab_ids s d p g → reserved_at s l d p.
Proof.
  unfold occupied_lab_ids, reserved_at.
  rewrite elem_of_list_to_set, list_elem_of_fmap.
  intros (r & -> & Hr). apply list_elem_of_filter in Hr as [(Hd & Hp & _) Hr].
  by exists r.
Qed.

(** ** The outcomes of a single assignment *)

(** The three ways [_assign_reservation_for_request] ends: on the
    short-circuit, on a failure that only wrote the group, or on a new
    reservation for an active, in-group, unoccupied lab. *)
Inductive assign_result (req : LabRequest.t) (s : Store) : bool * Store → Prop :=
  | assign_already r :
      request_reservation s (LabRequest.id req) = Some r →
      assign_result req s (true, s)
  | assign_failed :
      request_reservation s (LabRequest.id req) = None →
      (∀ lab, lab ∈ active_labs_in s (_infer_req_group s req) →
         Lab.id lab ∈ occupied_lab_ids s (LabRequest.date req)
                         (LabRequest.period req) (_infer_req_group s req)) →
      assign_result req s
        (false, set_lab_group (LabRequest.id req) (_infer_req_group s req) s)
  | assign_created lab :
      request_reservation s (LabRequest.id req) = None →
      lab ∈ active_labs_in s (_infer_req_group s req) →
      Lab.id lab ∉ occupied_lab_ids s (LabRequest.date req)
                      (LabRequest.period req) (_infer_req_group s req) →
      assign_result req s
        (true,
         set_status (LabRequest.id req) scheduled
           (add_reservation
              (Reservation.mk (Lab.id lab) (LabRequest.id req)
                 (LabRequest.date req) (LabRequest.period req))
              (set_lab_group (LabRequest.id req) (_infer_req_group s req) s))).

Lemma preferred_choice_Some s pref g occ lab :
  preferred_choice s pref g occ = Some lab →
  ∃ pid, pref = Some pid ∧ pid ≠ 0 ∧ get_lab s pid = Some lab ∧
         Lab.is_active lab = true ∧ Lab.subject_group lab = g ∧ Lab.id lab ∉ occ.
Proof.
  unfold preferred_choice. destruct pref as [pid|]; simpl; [|done].
  destruct (Z.eqb_spec pid 0); simpl; [done|].
  destruct (get_lab s pid) as [pref_lab|] eqn:Hget; [|done].
  destruct (Lab.is_active pref_lab) eqn:Hact; simpl; [|done].
  repeat case_bool_decide; simpl; intros; simplify_eq. by exists pid.
Qed.

Lemma assign_cases req s :
  assign_result req s (_assign_reservation_for_request req s).
Proof.
  unfold _assign_reservation_for_request.
  destruct (request_reservation s (LabRequest.id req)) as [r|] eqn:Hres.
  { by econstructor. }
  set (g := _infer_req_group s req).
  set (s1 := set_lab_group (LabRequest.id req) g s).
  change (active_labs_in s1 g) with (active_labs_in s g).
  change (occupied_lab_ids s1 (LabRequest.date req) (LabRequest.period req) g)
    with (occupied_lab_ids s (LabRequest.date req) (LabRequest.period req) g).
  set (occ := occupied_lab_ids s (LabRequest.date req) (LabRequest.period req) g).
  destruct (active_labs_in s g) as [|l0 ls] eqn:Hactive.
  { constructor; [done|]. fold g. rewrite Hactive. by intros lab ?%elem_of_nil. }
  rewrite <-Hactive.
  destruct (preferred_choice s1 (pref_lab_id s1 req) g occ) as [lab|] eqn:Hpref.
  { apply preferred_choice_Some in Hpref
      as (pid & _ & _ & [Hlab _]%get_lab_Some & Hact & Hg & Hocc).
    apply assign_created; [done| |done].
    by apply elem_of_active_labs_in. }
  unfold first_free.
  destruct (head (filter _ (active_labs_in s g))) as [lab|] eqn:Hfirst.
  - apply head_filter_Some in Hfirst as [Hlab Hocc]. by apply assign_created.
  - constructor; [done|]. intros lab Hlab.
    rewrite head_filter_None in Hfirst.
    destruct (decide (Lab.id lab ∈ occ)) as [|Hn]; [done|].
    by destruct (Hfirst lab Hlab).
Qed.

(** ** Slot uniqueness *)

Lemma slot_unique_NoDup s : slot_unique s ↔ NoDup (slot <$> reservations s).
Proof.
  unfold slot_unique. rewrite NoDup_alt. split.
  - intros Hs i j x Hi Hj. rewrite list_lookup_fmap in Hi, Hj.
    destruct (reservations s !! i) as [r1|] eqn:H1; [|done].
    destruct (reservations s !! j) as [r2|] eqn:H2; [|done].
    destruct (decide (i = j)) as [|Hne]; [done|].
    destruct (Hs i j r1 r2 Hne H1 H2). simpl in *. congruence.
  - intros Hs i j r1 r2 Hne H1 H2 Heq. apply Hne.
    apply (Hs i j (slot r1)); rewrite list_lookup_fmap.
    + by rewrite H1.
    + by rewrite H2, Heq.
Qed.

Lemma slot_unique_reservations s s' :
  reservations s' = reservations s → slot_unique s → slot_unique s'.
Proof. unfold slot_unique. by intros ->. Qed.

Lemma slot_unique_add r s :
  ¬ reserved_at s (Reservation.lab_id r) (Reservation.date r) (Reservation.period r) →
  slot_unique s → slot_unique (add_reservation r s).
Proof.
  rewrite !slot_unique_NoDup. simpl. intros Hfree Hs.
  rewrite fmap_app, NoDup_app. split_and!; [done| |apply NoDup_singleton].
  intros x [r' [-> Hr']]%list_elem_of_fmap [Heq | []%elem_of_nil]%elem_of_cons.
  apply Hfree. exists r'. unfold slot in Heq. by simplify_eq.
Qed.

Lemma slot_unique_delete i s :
  slot_unique s → slot_unique (delete_request_reservation i s).
Proof.
  rewrite !slot_unique_NoDup. simpl. intros Hs.
  eapply sublist_NoDup; [exact Hs|]. apply fmap_sublist, remove_first_sublist.
Qed.

Lemma reserved_at_delete i s l d p :
  reserved_at (delete_request_reservation i s) l d p → reserved_at s l d p.
Proof.
  intros (r & Hr & ?). exists r. split; [|done].
  eapply elem_of_sublist; [exact Hr|]. apply remove_first_sublist.
Qed.

Lemma slot_unique_assign req s :
  slot_unique s → slot_unique (_assign_reservation_for_request req s).2.
Proof.
  intros Hs. destruct (assign_cases req s) as [r Hr|Hnone Hall|lab Hnone Hlab Hocc];
    simpl; [done|done|].
  apply (slot_unique_reservations
           (add_reservation
              (Reservation.mk (Lab.id lab) (LabRequest.id req)
                 (LabRequest.date req) (LabRequest.period req)) s)); [done|].
  apply slot_unique_add; [|done]. simpl.
  apply elem_of_active_labs_in in Hlab as (Hin & _ & Hg).
  by rewrite <-elem_of_occupied_lab_ids.
Qed.

(** Whatever holds before a loop and is kept by each turn holds after it. *)
Lemma foldl_turn {A B} (f : A → B → A) a b l :
  foldl f a (b :: l) = foldl f (f a b) l.
Proof. done. Qed.

Lemma foldl_invariant {A B} (f : A → B → A) (I : A → Prop) :
  (∀ a b, I a → I (f a b)) → ∀ l a, I a → I (foldl f a l).
Proof.
  intros Hstep l. induction l as [|b l IH]; intros a HI; [done|].
  rewrite foldl_turn. apply IH. by apply Hstep.
Qed.

Lemma slot_unique_schedule_step s log req :
  slot_unique s → slot_unique (schedule_step (s, log) req).1.
Proof.
  intros Hs. unfold schedule_step.
  destruct (request_reservation s (LabRequest.id req)); [done|].
  pose proof (slot_unique_assign req s Hs) as Ha.
  destruct (_assign_reservation_for_request req s) as [[] s']; simpl in *; [done|].
  by eapply slot_unique_reservations.
Qed.

Lemma slot_unique_manual_assign req_id lab_id_str s :
  slot_unique s → slot_unique (manual_assign req_id lab_id_str s).2.
Proof.
  intros Hs. unfold manual_assign.
  destruct (get_request s req_id) as [lab_request|]; [|done].
  destruct lab_id_str as [| |lab_id]; [done..|].
  destruct (get_lab s lab_id) as [lab|]; [|done].
  destruct (Lab.is_active lab); simpl; [|done].
  case_decide; [done|].
  destruct (slot_reservation s _ _ _) as [r|] eqn:Hslot; [done|]. simpl.
  eapply (slot_unique_reservations (add_reservation _ _)); [done|].
  apply slot_unique_add; [|by apply slot_unique_delete]. simpl.
  intros (r & Hr & Hl & Hd & Hp)%reserved_at_delete.
  unfold slot_reservation in Hslot. rewrite head_filter_None in Hslot.
  by destruct (Hslot r Hr).
Qed.

(** C1.  Slot uniqueness is kept by every operation that creates
    reservations: if no two reservations of the store share a
    (lab, date, period) triple, then none do after a single assignment of
    any request, after a batch run, or after a manual assignment with any
    request id and any lab field. *)
Theorem slot_uniqueness_preserved s :
  slot_unique s →
  (∀ req, slot_unique (_assign_reservation_for_request req s).2) ∧
  slot_unique (run_auto_schedule s).2 ∧
  (∀ req_id lab_id_str, slot_unique (manual_assign req_id lab_id_str s).2).
Proof.
  intros Hs. split_and!.
  - intros req. by apply slot_unique_assign.
  - apply (foldl_invariant schedule_step (λ st, slot_unique st.1)); [|done].
    intros [s0 log] req. apply slot_unique_schedule_step.
  - intros. by apply slot_unique_manual_assign.
Qed.

(** ** The 1:1 binding of requests and reservations *)

Lemma reservations_of_add r s i :
  reservations_of (add_reservation r s) i =
  reservations_of s i ++ (if decide (Reservation.request_id r = i) then [r] else []).
Proof.
  unfold reservations_of. simpl. by rewrite filter_app.
Qed.

Lemma reservations_of_set_status i st s j :
  reservations_of (set_status i st s) j = reservations_of s j.
Proof. done. Qed.

Lemma reservations_of_set_lab_group i g s j :
  reservations_of (set_lab_group i g s) j = reservations_of s j.
Proof. done. Qed.

Lemma reservations_of_delete i s :
  reservations_of (delete_request_reservation i s) i = tail (reservations_of s i).
Proof. apply (filter_remove_first (λ r, Reservation.request_id r = i)). Qed.

Lemma reservations_of_delete_ne i j s :
  i ≠ j →
  reservations_of (delete_request_reservation i s) j = reservations_of s j.
Proof.
  intros Hne.
  apply (filter_remove_first_other (λ r, Reservation.request_id r = i)
           (λ r, Reservation.request_id r = j)). congruence.
Qed.

Lemma binding_ok_set_lab_group i g s :
  binding_ok s → binding_ok (set_lab_group i g s).
Proof.
  intros Hs r' Hr'. simpl in Hr'.
  apply list_elem_of_fmap in Hr' as (r & -> & Hr).
  specialize (Hs r Hr). by destruct (decide (LabRequest.id r = i)).
Qed.

(** Writing status [st] on request [i] keeps the binding when request [i]
    ends with the number of reservations that [st] asks for and the other
    requests keep theirs. *)
Lemma binding_ok_update i st s s' :
  binding_ok s →
  lab_requests s' = lab_requests (set_status i st s) →
  (∀ j, j ≠ i → reservations_of s' j = reservations_of s j) →
  length (reservations_of s' i) = (if decide (st = scheduled) then 1%nat else 0%nat) →
  binding_ok s'.
Proof.
  intros Hs Hreq Hother Hi r' Hr'. rewrite Hreq in Hr'. simpl in Hr'.
  apply list_elem_of_fmap in Hr' as (r & -> & Hr).
  destruct (decide (LabRequest.id r = i)) as [Hid|Hid].
  - simpl. by rewrite Hid.
  - rewrite Hother; [|done]. by apply Hs.
Qed.

Lemma binding_ok_assign req s :
  binding_ok s → binding_ok (_assign_reservation_for_request req s).2.
Proof.
  intros Hs.
  destruct (assign_cases req s) as [r Hr|Hnone Hall|lab Hnone Hlab Hocc]; simpl.
  - done.
  - by apply binding_ok_set_lab_group.
  - apply request_reservation_None in Hnone.
    eapply (binding_ok_update (LabRequest.id req) scheduled
              (set_lab_group (LabRequest.id req) (_infer_req_group s req) s));
      [by apply binding_ok_set_lab_group|done|..].
    + intros j Hj.
      rewrite reservations_of_set_status, reservations_of_add. simpl.
      rewrite decide_False by done. by rewrite app_nil_r.
    + rewrite reservations_of_set_status, reservations_of_add,
        reservations_of_set_lab_group, Hnone.
      simpl. by rewrite decide_True.
Qed.

(** A failed assignment leaves the request without reservation, so the
    caller may mark it as a conflict. *)
Lemma binding_ok_assign_conflict req s s' :
  binding_ok s →
  _assign_reservation_for_request req s = (false, s') →
  binding_ok (set_status (LabRequest.id req) conflict s').
Proof.
  intros Hs Ha. revert Ha.
  destruct (assign_cases req s) as [r Hr|Hnone Hall|lab Hnone Hlab Hocc];
    intros [= <-].
  apply request_reservation_None in Hnone.
  eapply (binding_ok_update (LabRequest.id req) conflict
            (set_lab_group (LabRequest.id req) (_infer_req_group s req) s));
    [by apply binding_ok_set_lab_group|done|done|].
  by rewrite reservations_of_set_status, reservations_of_set_lab_group, Hnone.
Qed.

Lemma binding_ok_schedule_step s log req :
  binding_ok s → binding_ok (schedule_step (s, log) req).1.
Proof.
  intros Hs. unfold schedule_step.
  destruct (request_reservation s (LabRequest.id req)); [done|].
  pose proof (binding_ok_assign req s Hs) as Hok.
  pose proof (binding_ok_assign_conflict req s) as Hfail.
  destruct (_assign_reservation_for_request req s) as [[] s']; simpl in *; [done|].
  by apply Hfail.
Qed.

(** Under the binding, a request of the store has at most one reservation. *)
Lemma binding_ok_tail s r :
  binding_ok s → r ∈ lab_requests s →
  tail (reservations_of s (LabRequest.id r)) = [].
Proof.
  intros Hs Hr. specialize (Hs r Hr).
  destruct (reservations_of s (LabRequest.id r)) as [|? [|? ?]]; [done..|].
  by case_decide.
Qed.

Lemma binding_ok_manual_assign req_id lab_id_str s :
  binding_ok s → binding_ok (manual_assign req_id lab_id_str s).2.
Proof.
  intros Hs. unfold manual_assign.
  destruct (get_request s req_id) as [lab_request|] eqn:Hget; [|done].
  apply get_request_Some in Hget as [Hin _].
  destruct lab_id_str as [| |lab_id]; [done..|].
  destruct (get_lab s lab_id) as [lab|]; [|done].
  destruct (Lab.is_active lab); simpl; [|done].
  case_decide; [done|].
  destruct (slot_reservation s _ _ _); [done|]. simpl.
  eapply (binding_ok_update (LabRequest.id lab_request) scheduled s);
    [done|done|..].
  - intros j Hj.
    rewrite reservations_of_set_status, reservations_of_add. simpl.
    rewrite decide_False by done.
    rewrite app_nil_r. by apply reservations_of_delete_ne.
  - rewrite reservations_of_set_status, reservations_of_add,
      reservations_of_delete, binding_ok_tail by done.
    simpl. by rewrite decide_True.
Qed.

Lemma binding_ok_update_request_status req_id new_status s :
  binding_ok s → binding_ok (update_request_status req_id new_status s).2.
Proof.
  intros Hs. unfold update_request_status.
  destruct (get_request s req_id) as [lab_request|] eqn:Hget; [|done].
  apply get_request_Some in Hget as [Hin _].
  destruct (parse_status new_status) as [st|]; [|done].
  assert (st ≠ scheduled →
          binding_ok (set_status (LabRequest.id lab_request) st
            (delete_request_reservation (LabRequest.id lab_request) s))) as Hother.
  { intros Hst.
    eapply (binding_ok_update (LabRequest.id lab_request) st s); [done|done|..].
    - intros j Hj. rewrite reservations_of_set_status.
      by apply reservations_of_delete_ne.
    - rewrite decide_False by done.
      by rewrite reservations_of_set_status, reservations_of_delete,
           binding_ok_tail. }
  destruct st; simpl; try (by apply Hother).
  pose proof (binding_ok_assign lab_request s Hs) as Hok.
  pose proof (binding_ok_assign_conflict lab_request s) as Hfail.
  destruct (_assign_reservation_for_request lab_request s) as [[] s']; simpl in *;
    [done|]. by apply Hfail.
Qed.

(** C3.  The 1:1 binding is kept by every core operation.  If each
    scheduled request of the store has exactly one reservation and each
    request in another status has none, the same holds after a single
    assignment of any request, after a batch run, after a manual assignment
    and after a change of status, whatever their arguments. *)
Theorem binding_preserved s :
  binding_ok s →
  (∀ req, binding_ok (_assign_reservation_for_request req s).2) ∧
  binding_ok (run_auto_schedule s).2 ∧
  (∀ req_id lab_id_str, binding_ok (manual_assign req_id lab_id_str s).2) ∧
  (∀ req_id new_status, binding_ok (update_request_status req_id new_status s).2).
Proof.
  intros Hs. split_and!.
  - intros req. by apply binding_ok_assign.
  - apply (foldl_invariant schedule_step (λ st, binding_ok st.1)); [|done].
    intros [s0 log] req. apply binding_ok_schedule_step.
  - intros. by apply binding_ok_manual_assign.
  - intros. by apply binding_ok_update_request_status.
Qed.

(** ** Single assignment: preference, idempotence, failure *)

Lemma assign_already_reserved req s r :
  request_reservation s (LabRequest.id req) = Some r →
  _assign_reservation_for_request req s = (true, s).
Proof. unfold _assign_reservation_for_request. by intros ->. Qed.

Lemma preferred_choice_honored s pid g occ lab :
  pid ≠ 0 → get_lab s pid = Some lab → Lab.is_active lab = true →
  Lab.subject_group lab = g → Lab.id lab ∉ occ →
  preferred_choice s (Some pid) g occ = Some lab.
Proof.
  intros Hpid Hget Hact Hg Hocc. unfold preferred_choice. simpl.
  destruct (Z.eqb_spec pid 0); [done|]. simpl.
  rewrite Hget, Hact, !bool_decide_eq_true_2 by done. done.
Qed.

(** The lab that the code takes as preferred, [pref_lab_id], is the lab the
    request names: its own [preferred_lab_id] or, when that is [None] or
    [0], the one of its teacher. *)
Lemma names_preferred_lab_iff s req pid :
  names_preferred_lab s req pid ↔ pref_lab_id s req = Some pid ∧ pid ≠ 0.
Proof.
  unfold names_preferred_lab, pref_lab_id, py_or, truthy.
  destruct (LabRequest.preferred_lab_id req) as [own|].
  - destruct (Z.eqb_spec own 0) as [->|Hown]; simpl.
    + destruct (get_user s (LabRequest.teacher_id req)) as [teacher|]; simpl.
      * split.
        -- intros [Hpid [[= <-]|[_ (t & [= <-] & Ht)]]]; done.
        -- intros [Ht Hpid]. split; [done|]. right. split; [by right|].
           by exists teacher.
      * split; [|by intros [? _]].
        intros [Hpid [[= <-]|[_ (t & ? & _)]]]; done.
    + split.
      * intros [Hpid [[= <-]|[[?|[= ?]] _]]]; done.
      * intros [[= <-] Hpid]. split; [done|by left].
  - destruct (get_user s (LabRequest.teacher_id req)) as [teacher|]; simpl.
    + split.
      * intros [Hpid [?|[_ (t & [= <-] & Ht)]]]; done.
      * intros [Ht Hpid]. split; [done|]. right. split; [by left|].
        by exists teacher.
    + split; [|by intros [? _]].
      intros [Hpid [?|[_ (t & ? & _)]]]; done.
Qed.

(** C2.  A request names its own preferred lab or, when it has none, its
    teacher's.  When that lab exists, is active, belongs to the resolved
    group of the request and has no reservation at the request's date and
    period, the assignment succeeds and the reservation it creates is for
    exactly that lab; the only case in which it creates none is the
    short-circuit on a request that already has a reservation. *)
Theorem assign_honors_preference req s pid lab :
  names_preferred_lab s req pid →
  get_lab s pid = Some lab →
  Lab.is_active lab = true →
  Lab.subject_group lab = _infer_req_group s req →
  ¬ reserved_at s pid (LabRequest.date req) (LabRequest.period req) →
  (_assign_reservation_for_request req s).1 = true ∧
  match request_reservation s (LabRequest.id req) with
  | None =>
      reservations (_assign_reservation_for_request req s).2 =
      reservations s ++
        [Reservation.mk pid (LabRequest.id req) (LabRequest.date req)
           (LabRequest.period req)]
  | Some _ => (_assign_reservation_for_request req s).2 = s
  end.
Proof.
  intros [Hpref Hpid]%names_preferred_lab_iff Hget Hact Hg Hfree.
  destruct (get_lab_Some _ _ _ Hget) as [Hin Hid].
  unfold _assign_reservation_for_request.
  destruct (request_reservation s (LabRequest.id req)) as [r|] eqn:Hres; [done|].
  set (g := _infer_req_group s req) in *.
  set (s1 := set_lab_group (LabRequest.id req) g s).
  change (active_labs_in s1 g) with (active_labs_in s g).
  change (pref_lab_id s1 req) with (pref_lab_id s req).
  destruct (active_labs_in s g) as [|l0 ls] eqn:Hactive.
  { assert (lab ∈ active_labs_in s g) as Hlab by by apply elem_of_active_labs_in.
    rewrite Hactive in Hlab. by apply elem_of_nil in Hlab. }
  rewrite Hpref.
  rewrite (preferred_choice_honored s1 pid g _ lab); [by rewrite Hid|done..|].
  intros Hocc%occupied_lab_ids_reserved. apply Hfree. by rewrite <-Hid.
Qed.

(** C7.  Assignment is idempotent.  On a request that already has a
    reservation it returns success and leaves the store as it is.  Hence,
    once a call has succeeded, a second call on the same request succeeds
    too and changes nothing, and the request, which had at most one
    reservation before, has exactly one after both calls. *)
Theorem assign_idempotent req s :
  (∀ r, request_reservation s (LabRequest.id req) = Some r →
        _assign_reservation_for_request req s = (true, s)) ∧
  (∀ s1, _assign_reservation_for_request req s = (true, s1) →
     (∀ req', LabRequest.id req' = LabRequest.id req →
        _assign_reservation_for_request req' s1 = (true, s1)) ∧
     ((length (reservations_of s (LabRequest.id req)) ≤ 1)%nat →
      length (reservations_of s1 (LabRequest.id req)) = 1%nat)).
Proof.
  split; [apply assign_already_reserved|].
  intros s1 Ha. revert Ha.
  destruct (assign_cases req s) as [r Hr|Hnone Hall|lab Hnone Hlab Hocc];
    intros [= <-].
  - split.
    + intros req' Hid. apply (assign_already_reserved _ _ r). by rewrite Hid.
    + unfold request_reservation in Hr. fold (reservations_of s (LabRequest.id req)) in Hr.
      destruct (reservations_of s (LabRequest.id req)) as [|? [|? ?]]; simpl;
        [done|done|lia].
  - apply request_reservation_None in Hnone.
    assert (reservations_of
              (set_status (LabRequest.id req) scheduled
                 (add_reservation
                    (Reservation.mk (Lab.id lab) (LabRequest.id req)
                       (LabRequest.date req) (LabRequest.period req))
                    (set_lab_group (LabRequest.id req) (_infer_req_group s req) s)))
              (LabRequest.id req)
            = [Reservation.mk (Lab.id lab) (LabRequest.id req)
                 (LabRequest.date req) (LabRequest.period req)]) as Hone.
    { rewrite reservations_of_set_status, reservations_of_add,
        reservations_of_set_lab_group, Hnone. simpl. by rewrite decide_True. }
    split.
    + intros req' Hid. eapply assign_already_reserved.
      unfold request_reservation. rewrite Hid.
      fold (reservations_of
              (set_status (LabRequest.id req) scheduled
                 (add_reservation
                    (Reservation.mk (Lab.id lab) (LabRequest.id req)
                       (LabRequest.date req) (LabRequest.period req))
                    (set_lab_group (LabRequest.id req) (_infer_req_group s req) s)))
              (LabRequest.id req)).
      by rewrite Hone.
    + intros _. by rewrite Hone.
Qed.


(** ** Manual assignment across groups *)

(** C8, as the code has it.  A manual assignment whose target lab is not of
    the request's resolved group never changes the store.  It is refused
    with [GroupMismatch] when the target is active; an inactive target is
    refused earlier, with [ResourceInactive], whatever its group. *)
Theorem manual_assign_group_mismatch s req_id lab_id req lab :
  get_request s req_id = Some req →
  get_lab s lab_id = Some lab →
  Lab.subject_group lab ≠ _infer_req_group s req →
  manual_assign req_id (IsInt lab_id) s =
    (if Lab.is_active lab then GroupMismatch else ResourceInactive, s).
Proof.
  intros Hreq Hlab Hg. unfold manual_assign. rewrite Hreq, Hlab.
  destruct (Lab.is_active lab); simpl; [|done].
  by rewrite decide_True.
Qed.

(** ** Duplicate submissions *)

Lemma existed_same_Some s t d p r0 :
  r0 ∈ lab_requests s →
  LabRequest.teacher_id r0 = t → LabRequest.date r0 = d → LabRequest.period r0 = p →
  LabRequest.status r0 = pending ∨ LabRequest.status r0 = approved ∨
    LabRequest.status r0 = scheduled →
  is_Some (existed_same s t d p).
Proof.
  intros Hin Ht Hd Hp Hst. unfold existed_same.
  destruct (head _) as [r|] eqn:Hhead; [by eexists|].
  rewrite head_filter_None in Hhead. by destruct (Hhead r0 Hin).
Qed.

(** C10.  A teacher who already has a request at date [d], period [p] in
    status pending, approved or scheduled cannot submit another one for
    that date and period: whatever else the form holds, the submission is
    refused and the store, hence the request table, is unchanged. *)
Theorem new_request_rejects_duplicate current_user form now s d p week_obj r0 :
  r0 ∈ lab_requests s →
  LabRequest.teacher_id r0 = User.id current_user →
  LabRequest.date r0 = d → LabRequest.period r0 = p →
  LabRequest.status r0 = pending ∨ LabRequest.status r0 = approved ∨
    LabRequest.status r0 = scheduled →
  RequestForm.period_str form = IsInt p →
  submission_date s form = inr (d, week_obj) →
  (new_request current_user (POST form) now s).1 ≠ Submitted ∧
  (new_request current_user (POST form) now s).2 = s.
Proof.
  intros Hin Ht Hd Hp Hst Hperiod Hdate.
  destruct (existed_same_Some s _ d p r0 Hin Ht Hd Hp Hst) as [r Hr].
  unfold new_request. rewrite Hperiod, Hdate, Hr.
  case_decide; [done|].
  destruct (bool_decide _ || _); [done|].
  destruct (if truthy _ then _ else _); done.
Qed.

(** ** The batch run: order of the attempts *)

Lemma request_leb_total s a b : request_leb s a b = true ∨ request_leb s b a = true.
Proof.
  unfold request_leb, key_leb.
  destruct (sort_key s a) as [ta ca], (sort_key s b) as [tb cb]. simpl.
  rewrite !orb_true_iff, !andb_true_iff, !Z.ltb_lt, !Z.eqb_eq, !Z.leb_le. lia.
Qed.

Lemma request_leb_trans s a b c :
  request_leb s a b = true → request_leb s b c = true → request_leb s a c = true.
Proof.
  unfold request_leb, key_leb.
  destruct (sort_key s a) as [ta ca], (sort_key s b) as [tb cb],
           (sort_key s c) as [tc cc]. simpl.
  rewrite !orb_true_iff, !andb_true_iff, !Z.ltb_lt, !Z.eqb_eq, !Z.leb_le. lia.
Qed.

(** What the sort key says of two requests: a request with a preference
    signal is never after one without, and within a tier the creation times
    ascend. *)
Lemma request_leb_tiers s a b :
  request_leb s a b = true →
  (has_preference_signal s a = false → has_preference_signal s b = false) ∧
  (has_preference_signal s a = has_preference_signal s b →
   LabRequest.created_at a ≤ LabRequest.created_at b).
Proof.
  unfold request_leb, key_leb, sort_key. simpl.
  rewrite !orb_true_iff, !andb_true_iff, !Z.ltb_lt, !Z.eqb_eq, !Z.leb_le.
  destruct (has_preference_signal s a), (has_preference_signal s b);
    intros [?|[? ?]]; split; intros; try done; lia.
Qed.

Lemma unscheduled_sorted s :
  StronglySorted (λ a b, request_leb s a b = true) (unscheduled s).
Proof.
  apply (sort_by_sorted (request_leb s));
    [apply request_leb_total|apply request_leb_trans].
Qed.

Lemma unscheduled_perm s : unscheduled s ≡ₚ backlog s.
Proof. apply sort_by_perm. Qed.

Lemma unscheduled_NoDup s :
  NoDup (LabRequest.id <$> lab_requests s) →
  NoDup (LabRequest.id <$> unscheduled s).
Proof.
  intros Hnd. rewrite unscheduled_perm.
  eapply sublist_NoDup; [exact Hnd|]. apply fmap_sublist, sublist_filter.
Qed.

(** A turn of the loop touches the reservations of its own request only. *)
Lemma schedule_step_reservations_of s log req j :
  j ≠ LabRequest.id req →
  reservations_of (schedule_step (s, log) req).1 j = reservations_of s j.
Proof.
  intros Hj. unfold schedule_step.
  destruct (request_reservation s (LabRequest.id req)); [done|].
  destruct (assign_cases req s) as [r Hr|Hnone Hall|lab Hnone Hlab Hocc]; simpl;
    [done|done|].
  rewrite reservations_of_set_status, reservations_of_add. simpl.
  rewrite decide_False by done. by rewrite app_nil_r.
Qed.

Lemma schedule_step_log s log req :
  (schedule_step (s, log) req).2 =
  log ++ (if request_reservation s (LabRequest.id req) is Some _ then [] else [req]).
Proof.
  unfold schedule_step.
  destruct (request_reservation s (LabRequest.id req)); simpl.
  - by rewrite app_nil_r.
  - by destruct (_assign_reservation_for_request req s).
Qed.

(** The log of attempts is a sublist of the list the loop walks through. *)
Lemma schedule_log_sublist rs st :
  ∃ k, k `sublist_of` rs ∧ (foldl schedule_step st rs).2 = st.2 ++ k.
Proof.
  revert st. induction rs as [|req rs IH]; intros [s log].
  - exists []. simpl. by rewrite app_nil_r.
  - rewrite foldl_turn.
    destruct (IH (schedule_step (s, log) req)) as (k & Hk & ->).
    rewrite schedule_step_log. cbn [snd].
    destruct (request_reservation s (LabRequest.id req)).
    + exists k. split; [by apply sublist_cons|]. by rewrite app_nil_r.
    + exists (req :: k). split; [by apply sublist_skip|]. by rewrite <-app_assoc.
Qed.

(** With unique request keys, the attempts are the requests that had no
    reservation when the loop started. *)
Lemma schedule_log_filter rs s log :
  NoDup (LabRequest.id <$> rs) →
  (foldl schedule_step (s, log) rs).2 =
  log ++ filter (λ r, request_reservation s (LabRequest.id r) = None) rs.
Proof.
  revert s log. induction rs as [|req rs IH]; intros s log Hnd.
  - simpl. by rewrite app_nil_r.
  - rewrite fmap_cons in Hnd. apply NoDup_cons in Hnd as [Hreq Hnd].
    rewrite foldl_turn.
    destruct (schedule_step (s, log) req) as [s' log'] eqn:Hstep.
    rewrite IH by done.
    assert (log' = (schedule_step (s, log) req).2) as -> by by rewrite Hstep.
    assert (s' = (schedule_step (s, log) req).1) as -> by by rewrite Hstep.
    rewrite schedule_step_log, <-app_assoc. f_equal.
    assert (filter (λ r, request_reservation (schedule_step (s, log) req).1
                           (LabRequest.id r) = None) rs
            = filter (λ r, request_reservation s (LabRequest.id r) = None) rs) as ->.
    { apply filter_ext_elem_of. intros r Hr.
      rewrite !request_reservation_None, schedule_step_reservations_of; [done|].
      intros Heq. apply Hreq. rewrite <-Heq. by apply list_elem_of_fmap_2. }
    rewrite filter_cons.
    destruct (request_reservation s (LabRequest.id req)) eqn:Hres.
    + by rewrite decide_False.
    + by rewrite decide_True.
Qed.

Lemma attempted_sublist s : attempted s `sublist_of` unscheduled s.
Proof.
  unfold attempted, schedule_loop.
  by destruct (schedule_log_sublist (unscheduled s) (s, [])) as (k & Hk & ->).
Qed.

Lemma sublist_lookup_lt {A} (k l : list A) :
  k `sublist_of` l →
  ∀ i j x y, (i < j)%nat → k !! i = Some x → k !! j = Some y →
  ∃ i' j', (i' < j')%nat ∧ l !! i' = Some x ∧ l !! j' = Some y.
Proof.
  induction 1 as [|z k l Hkl IH|z k l Hkl IH]; intros i j x y Hij Hi Hj.
  - done.
  - destruct j as [|j]; [lia|]. destruct i as [|i]; simpl in *.
    + simplify_eq. apply list_elem_of_lookup_2 in Hj.
      eapply elem_of_sublist in Hj; [|done].
      apply list_elem_of_lookup_1 in Hj as [j' Hj'].
      exists 0%nat, (S j'). split_and!; [lia|done..].
    + destruct (IH i j x y) as (i' & j' & ? & ? & ?); [lia|done..|].
      exists (S i'), (S j'). split_and!; [lia|done..].
  - destruct (IH i j x y) as (i' & j' & ? & ? & ?); [done..|].
    exists (S i'), (S j'). split_and!; [lia|done..].
Qed.

Lemma attempted_ordered s i j a b :
  (i < j)%nat → attempted s !! i = Some a → attempted s !! j = Some b →
  request_leb s a b = true.
Proof.
  apply (StronglySorted_lookup (λ a b, request_leb s a b = true)).
  eapply StronglySorted_sublist; [apply attempted_sublist|apply unscheduled_sorted].
Qed.

(** The preference signal of the sort key, [r.preferred_lab_id or
    (r.teacher and r.teacher.preferred_lab_id)], is true exactly when the
    request names a preferred lab, its own or its teacher's. *)
Lemma preference_signal_iff s r :
  has_preference_signal s r = true ↔ preference_signal s r.
Proof.
  unfold preference_signal, has_preference_signal.
  change (py_or _ _) with (pref_lab_id s r). split.
  - destruct (pref_lab_id s r) as [pid|] eqn:Hpref; simpl; [|done].
    destruct (Z.eqb_spec pid 0); [done|]. intros _.
    exists pid. by apply names_preferred_lab_iff.
  - intros (pid & [-> Hpid]%names_preferred_lab_iff). simpl.
    by destruct (Z.eqb_spec pid 0).
Qed.

Lemma attempt_eq req s :
  attempt req s =
  (let '(ok, s') := _assign_reservation_for_request req s in
   if ok then s' else set_status (LabRequest.id req) conflict s').
Proof. unfold attempt. by destruct (_assign_reservation_for_request req s) as [[] ?]. Qed.

Lemma schedule_step_attempt s log req :
  (schedule_step (s, log) req).1 =
  if request_reservation s (LabRequest.id req) is Some _ then s else attempt req s.
Proof.
  unfold schedule_step, attempt.
  destruct (request_reservation s (LabRequest.id req)); [done|].
  by destruct (_assign_reservation_for_request req s) as [[] ?].
Qed.

(** The store of the loop is that of its turns. *)
Lemma schedule_loop_turns rs st :
  (foldl schedule_step st rs).1 = foldl turn st.1 rs.
Proof.
  revert st. induction rs as [|req rs IH]; intros [s log]; [done|].
  rewrite !foldl_turn, IH. by rewrite schedule_step_attempt.
Qed.

(** The store of the loop is made by the attempts it logs, in the order of
    the log. *)
Lemma schedule_loop_attempts rs s log :
  ∃ k, (foldl schedule_step (s, log) rs).2 = log ++ k ∧
       (foldl schedule_step (s, log) rs).1 = foldl (λ st req, attempt req st) s k.
Proof.
  revert s log. induction rs as [|req rs IH]; intros s log.
  { exists []. simpl. by rewrite app_nil_r. }
  rewrite foldl_turn.
  rewrite (surjective_pairing (schedule_step (s, log) req)).
  destruct (IH (schedule_step (s, log) req).1 (schedule_step (s, log) req).2)
    as (k & -> & ->).
  rewrite schedule_step_log, schedule_step_attempt.
  destruct (request_reservation s (LabRequest.id req)).
  - exists k. by rewrite app_nil_r.
  - exists (req :: k). by rewrite <-app_assoc.
Qed.

(** C4.  The batch run takes the requests in status pending or approved,
    sorted by the key, and attempts, in that order, those that have no
    reservation: the store it returns is the one these attempts make, one
    call of the assignment after the other.  Among the attempts, no
    request without preference signal (a preferred lab of its own or of
    its teacher) comes before one with a signal, and within each of the
    two tiers the creation times ascend.  In particular, when A has no
    preference signal and B has one, B is attempted before A, whichever
    was created first. *)
Theorem batch_order s :
  (run_auto_schedule s).2 = foldl turn s (unscheduled s) ∧
  (run_auto_schedule s).2 = foldl (λ st req, attempt req st) s (attempted s) ∧
  unscheduled s ≡ₚ
    filter (λ r, LabRequest.status r = pending ∨ LabRequest.status r = approved)
      (lab_requests s) ∧
  attempted s `sublist_of` unscheduled s ∧
  (NoDup (LabRequest.id <$> lab_requests s) →
   attempted s =
   filter (λ r, request_reservation s (LabRequest.id r) = None) (unscheduled s)) ∧
  (∀ i j a b,
     (i < j)%nat → attempted s !! i = Some a → attempted s !! j = Some b →
     (preference_signal s b → preference_signal s a) ∧
     ((preference_signal s a ↔ preference_signal s b) →
      LabRequest.created_at a ≤ LabRequest.created_at b)) ∧
  (∀ A B,
     A ∈ attempted s → B ∈ attempted s →
     ¬ preference_signal s A → preference_signal s B →
     before B A (attempted s)).
Proof.
  split_and!.
  - unfold run_auto_schedule, schedule_loop. simpl. by rewrite schedule_loop_turns.
  - unfold run_auto_schedule, attempted, schedule_loop. simpl.
    by destruct (schedule_loop_attempts (unscheduled s) s []) as (k & -> & ->).
  - apply unscheduled_perm.
  - apply attempted_sublist.
  - intros Hnd. unfold attempted, schedule_loop.
    rewrite schedule_log_filter; [done|]. by apply unscheduled_NoDup.
  - intros i j a b Hij Ha Hb.
    pose proof (attempted_ordered s i j a b Hij Ha Hb) as Hle.
    apply request_leb_tiers in Hle as [Htier Htime]. split.
    + rewrite <-!preference_signal_iff. intros Hsb.
      destruct (has_preference_signal s a); [done|].
      rewrite Htier in Hsb; done.
    + rewrite <-!preference_signal_iff. intros Hsame. apply Htime.
      destruct (has_preference_signal s a), (has_preference_signal s b);
        try done.
      * by destruct (proj1 Hsame eq_refl).
      * by destruct (proj2 Hsame eq_refl).
  - intros A B [iA HA]%list_elem_of_lookup_1 [iB HB]%list_elem_of_lookup_1 HnA HpB.
    exists iB, iA. split_and!; [|done..].
    destruct (decide (iB < iA)%nat) as [|Hge]; [done|]. exfalso.
    destruct (decide (iA = iB)) as [->|Hne]; [congruence|].
    assert (iA < iB)%nat as Hlt by lia.
    pose proof (attempted_ordered s iA iB A B Hlt HA HB) as Hle.
    apply request_leb_tiers in Hle as [Hle _].
    apply preference_signal_iff in HpB.
    rewrite Hle in HpB; [done|].
    destruct (has_preference_signal s A) eqn:HA'; [|done].
    by apply preference_signal_iff in HA'.
Qed.

(** With unique request keys the two readings of the loop agree: no turn
    writes to the row of a request that is still to come. *)
Lemma get_request_unique s r :
  NoDup (LabRequest.id <$> lab_requests s) → r ∈ lab_requests s →
  get_request s (LabRequest.id r) = Some r.
Proof.
  unfold get_request. induction (lab_requests s) as [|x l IH]; intros Hnd Hr.
  { by apply elem_of_nil in Hr. }
  rewrite fmap_cons in Hnd. apply NoDup_cons in Hnd as [Hx Hnd].
  apply elem_of_cons in Hr as [->|Hr].
  - by rewrite filter_cons_True.
  - rewrite filter_cons_False; [by apply IH|].
    intros Heq. apply Hx. rewrite Heq. by apply list_elem_of_fmap_2.
Qed.

Lemma get_request_set_lab_group_ne i g s j :
  j ≠ i → get_request (set_lab_group i g s) j = get_request s j.
Proof.
  intros Hj. unfold get_request. simpl. f_equal.
  induction (lab_requests s) as [|x l IH]; [done|].
  rewrite fmap_cons, !filter_cons, IH.
  destruct (decide (LabRequest.id x = i)) as [Hx|Hx]; simpl; [|done].
  by rewrite !decide_False by congruence.
Qed.

Lemma get_request_set_status_ne i st s j :
  j ≠ i → get_request (set_status i st s) j = get_request s j.
Proof.
  intros Hj. unfold get_request. simpl. f_equal.
  induction (lab_requests s) as [|x l IH]; [done|].
  rewrite fmap_cons, !filter_cons, IH.
  destruct (decide (LabRequest.id x = i)) as [Hx|Hx]; simpl; [|done].
  by rewrite !decide_False by congruence.
Qed.

Lemma schedule_step_get_request_ne s log req j :
  j ≠ LabRequest.id req →
  get_request (schedule_step (s, log) req).1 j = get_request s j.
Proof.
  intros Hj. unfold schedule_step.
  destruct (request_reservation s (LabRequest.id req)); [done|].
  destruct (assign_cases req s) as [r Hr|Hnone Hall|lab Hnone Hlab Hocc]; simpl.
  - done.
  - by rewrite get_request_set_status_ne, get_request_set_lab_group_ne.
  - rewrite get_request_set_status_ne by done.
    by apply get_request_set_lab_group_ne.
Qed.

Lemma schedule_loop_live_rows rs :
  NoDup (LabRequest.id <$> rs) →
  ∀ st, (∀ r, r ∈ rs → get_request st.1 (LabRequest.id r) = Some r) →
  foldl schedule_step_live st rs = foldl schedule_step st rs.
Proof.
  induction rs as [|req rs IH]; intros Hnd [s log] Hlive; [done|].
  rewrite fmap_cons in Hnd. apply NoDup_cons in Hnd as [Hreq Hnd].
  rewrite !foldl_turn.
  assert (schedule_step_live (s, log) req = schedule_step (s, log) req) as ->.
  { unfold schedule_step_live. by rewrite Hlive by left. }
  apply IH; [done|]. intros r Hr.
  rewrite schedule_step_get_request_ne; [apply Hlive; by right|].
  intros Heq. apply Hreq. rewrite <-Heq. by apply list_elem_of_fmap_2.
Qed.

Lemma schedule_loop_live s :
  NoDup (LabRequest.id <$> lab_requests s) →
  foldl schedule_step_live (s, []) (unscheduled s) = schedule_loop (unscheduled s) s.
Proof.
  intros Hnd. apply schedule_loop_live_rows; [by apply unscheduled_NoDup|].
  intros r Hr. apply get_request_unique; [done|].
  rewrite unscheduled_perm in Hr. unfold backlog in Hr.
  by apply list_elem_of_filter in Hr as [_ Hr].
Qed.

(** Under the 1:1 binding no request of the backlog has a reservation, so
    with unique keys the run attempts the whole backlog. *)
Lemma attempted_all s :
  binding_ok s → NoDup (LabRequest.id <$> lab_requests s) →
  attempted s = unscheduled s.
Proof.
  intros Hs Hnd. unfold attempted, schedule_loop.
  rewrite schedule_log_filter by by apply unscheduled_NoDup. simpl.
  apply filter_all. apply Forall_forall. intros r Hr.
  rewrite unscheduled_perm in Hr. unfold backlog in Hr.
  apply list_elem_of_filter in Hr as [Hst Hr].
  apply request_reservation_None.
  specialize (Hs r Hr). rewrite decide_False in Hs by (destruct Hst; congruence).
  by apply nil_length_inv.
Qed.

(** ** The batch run: what it returns *)

Lemma elem_of_rows_updated i st g s r' :
  r' ∈ lab_requests (set_status i st (set_lab_group i g s)) →
  ∃ r0, r0 ∈ lab_requests s ∧ LabRequest.id r' = LabRequest.id r0 ∧
        if decide (LabRequest.id r0 = i) then LabRequest.status r' = st
        else LabRequest.status r' = LabRequest.status r0.
Proof.
  simpl. rewrite <-list_fmap_compose.
  intros (r0 & -> & Hr0)%list_elem_of_fmap. exists r0. split; [done|]. simpl.
  destruct (decide (LabRequest.id r0 = i)) as [Hid|Hid]; simpl.
  - by rewrite decide_True.
  - by rewrite decide_False.
Qed.

(** An attempt ends with status scheduled or conflict on the request. *)
Lemma schedule_step_rows s log req :
  request_reservation s (LabRequest.id req) = None →
  ∃ st, (st = scheduled ∨ st = conflict) ∧
    lab_requests (schedule_step (s, log) req).1 =
    lab_requests (set_status (LabRequest.id req) st
                    (set_lab_group (LabRequest.id req) (_infer_req_group s req) s)).
Proof.
  intros Hres. unfold schedule_step. rewrite Hres.
  destruct (assign_cases req s) as [r Hr|Hnone Hall|lab Hnone Hlab Hocc]; simpl.
  - congruence.
  - exists conflict. eauto.
  - exists scheduled. eauto.
Qed.

Lemma attempts_settled_step st req :
  attempts_settled st → attempts_settled (schedule_step st req).
Proof.
  destruct st as [s log]. intros Hst r r' Hr Hr' Hid.
  rewrite schedule_step_log in Hr.
  destruct (request_reservation s (LabRequest.id req)) as [x|] eqn:Hres.
  { unfold schedule_step in Hr'. rewrite Hres in Hr'. rewrite app_nil_r in Hr.
    by apply (Hst r r'). }
  destruct (schedule_step_rows s log req Hres) as (st & Hstatus & Hrows).
  rewrite Hrows in Hr'. apply elem_of_rows_updated in Hr' as (r0 & Hr0 & Hid0 & Hcase).
  destruct (decide (LabRequest.id r0 = LabRequest.id req)) as [Heq|Hne].
  - rewrite Hcase. done.
  - rewrite Hcase. apply elem_of_app in Hr as [Hr|Hr%list_elem_of_singleton].
    + apply (Hst r r0); [done..|congruence].
    + subst r. congruence.
Qed.

(** C5, as the code has it.  The batch run returns nothing: its value is
    [None], not a pair of counts.  What it did can only be read off the
    store: every request it attempted is left in status scheduled or
    conflict. *)
Theorem run_auto_schedule_returns_nothing s :
  (run_auto_schedule s).1 = None ∧
  ∀ r r', r ∈ attempted s → r' ∈ lab_requests (run_auto_schedule s).2 →
    LabRequest.id r' = LabRequest.id r →
    LabRequest.status r' = scheduled ∨ LabRequest.status r' = conflict.
Proof.
  split; [done|].
  apply (foldl_invariant schedule_step attempts_settled).
  - intros st req. apply attempts_settled_step.
  - by intros r r' ?%elem_of_nil.
Qed.

(** ** The suggestion search *)

Lemma elem_of_py_range a b x : x ∈ py_range a b ↔ a ≤ x < b.
Proof.
  unfold py_range. rewrite list_elem_of_fmap. split.
  - intros (i & -> & Hi%elem_of_seq). lia.
  - intros Hx. exists (Z.to_nat (x - a)). split; [lia|].
    apply elem_of_seq. lia.
Qed.

(** A date addition that returns gives the day [d + n], which is a date. *)
Lemma date_add_Returned d n x :
  date_add d n = Returned x → x = d + n ∧ in_calendar x.
Proof.
  unfold date_add, in_calendar.
  destruct (Z.leb_spec (Z.abs n) timedelta_max_days); simpl; [|done].
  destruct (Z.leb_spec date_min (d + n)); simpl; [|done].
  destruct (Z.leb_spec (d + n) date_max); simpl; [|done].
  by intros [= <-].
Qed.

(** Between two dates the addition returns. *)
Lemma date_add_in_calendar d n :
  in_calendar d → in_calendar (d + n) → date_add d n = Returned (d + n).
Proof.
  unfold date_add, in_calendar, date_min, date_max, timedelta_max_days.
  intros Hd Hn.
  destruct (Z.leb_spec (Z.abs n) 999999999); simpl; [|lia].
  destruct (Z.leb_spec 1 (d + n)); simpl; [|lia].
  destruct (Z.leb_spec (d + n) 3652059); simpl; [done|lia].
Qed.

Section search_facts.
Context (s : Store) (req : LabRequest.t) (subject_group : string)
        (active_labs : list Lab.t) (max_period top_k : Z).

Local Abbreviation K := (Z.to_nat top_k).
Local Abbreviation full := (enough top_k).

Lemma enough_iff (suggestions : list Suggestion) :
  full suggestions = true ↔ (K ≤ length suggestions)%nat.
Proof. unfold enough. rewrite Z.leb_le. lia. Qed.

Lemma not_enough_iff (suggestions : list Suggestion) :
  full suggestions = false ↔ (length suggestions < K)%nat.
Proof. rewrite <-not_true_iff_false, enough_iff. lia. Qed.

(** One turn of a loop that appends [found] to the suggestions it was
    given, cut at [K], then tests [break]. *)
Lemma turn_break (suggestions found rest : list Suggestion) :
  full (take K (suggestions ++ found)) = true →
  take K (suggestions ++ found) = take K (suggestions ++ found ++ rest).
Proof.
  rewrite enough_iff, length_take. intros Hlen.
  rewrite (app_assoc suggestions), (take_app_le _ rest); [done|lia].
Qed.

Lemma turn_go_on (suggestions found : list Suggestion) :
  full (take K (suggestions ++ found)) = false →
  take K (suggestions ++ found) = suggestions ++ found.
Proof.
  rewrite not_enough_iff, length_take. intros Hlen. apply take_ge. lia.
Qed.

Lemma period_loop_spec d ps suggestions :
  full suggestions = false →
  period_loop s req subject_group active_labs top_k d ps suggestions =
  take K (suggestions ++
    (ps ≫= λ p,
       if decide (d = LabRequest.date req ∧ p = LabRequest.period req) then []
       else option_list (candidate s subject_group active_labs d p))).
Proof.
  revert suggestions. induction ps as [|p ps IH]; intros suggestions Hless.
  { simpl. rewrite app_nil_r. symmetry. apply take_ge.
    apply not_enough_iff in Hless. lia. }
  rewrite bind_cons. simpl.
  case_bool_decide as Hown.
  { rewrite decide_True by done. by apply IH. }
  rewrite decide_False by done. unfold candidate.
  destruct (free_labs_at s subject_group active_labs d p) as [|lab free]; simpl.
  { rewrite Hless. by apply IH. }
  destruct (full (suggestions ++ _)) eqn:Hfull.
  - apply enough_iff in Hfull. apply not_enough_iff in Hless.
    rewrite length_app in Hfull. simpl in Hfull.
    symmetry. apply take_snoc_full. lia.
  - rewrite IH by done. by rewrite <-app_assoc.
Qed.

Lemma sign_loop_Overflow delta_days signs suggestions :
  sign_loop s req subject_group active_labs max_period top_k delta_days signs
    suggestions = Overflow →
  ∃ sign, sign ∈ signs ∧
          date_add (LabRequest.date req) (sign * delta_days) = Overflow.
Proof.
  revert suggestions. induction signs as [|sign signs IH]; intros suggestions;
    [done|]. simpl.
  destruct (date_add _ _) as [d|] eqn:Hd.
  - destruct (full _); [done|]. intros (sign' & ? & ?)%IH.
    exists sign'. split; [by right|done].
  - intros _. exists sign. split; [left|done].
Qed.

Lemma sign_loop_spec delta_days signs suggestions result :
  full suggestions = false →
  sign_loop s req subject_group active_labs max_period top_k delta_days signs
    suggestions = Returned result →
  result =
  take K (suggestions ++
    (signs ≫= λ sign,
       qualifying_on s req subject_group active_labs max_period
         (LabRequest.date req + sign * delta_days))).
Proof.
  revert suggestions. induction signs as [|sign signs IH]; intros suggestions Hless.
  { simpl. intros [= <-]. rewrite app_nil_r. symmetry. apply take_ge.
    apply not_enough_iff in Hless. lia. }
  rewrite bind_cons. simpl.
  destruct (date_add _ _) as [d|] eqn:Hd; [|done].
  apply date_add_Returned in Hd as [-> _].
  rewrite period_loop_spec by done.
  fold (qualifying_on s req subject_group active_labs max_period
          (LabRequest.date req + sign * delta_days)).
  destruct (full (take K _)) eqn:Hfull.
  - intros [= <-]. by apply turn_break.
  - rewrite (turn_go_on _ _ Hfull) in Hfull |- *.
    intros Hres. apply IH in Hres; [|done]. by rewrite <-app_assoc in Hres.
Qed.

Lemma day_loop_Overflow deltas suggestions :
  day_loop s req subject_group active_labs max_period top_k deltas suggestions
    = Overflow →
  ∃ delta_days sign,
    delta_days ∈ deltas ∧ sign ∈ (if delta_days =? 0 then [0] else [-1; 1]) ∧
    date_add (LabRequest.date req) (sign * delta_days) = Overflow.
Proof.
  revert suggestions. induction deltas as [|delta deltas IH]; intros suggestions;
    [done|]. cbn [day_loop].
  destruct (sign_loop _ _ _ _ _ _ _ _ _) as [middle|] eqn:Hsigns.
  - destruct (full _); [done|]. intros (delta' & sign & ? & ? & ?)%IH.
    exists delta', sign. split_and!; [by right|done..].
  - intros _. apply sign_loop_Overflow in Hsigns as (sign & ? & ?).
    exists delta, sign. split_and!; [left|done..].
Qed.

Lemma day_loop_spec deltas suggestions result :
  full suggestions = false →
  day_loop s req subject_group active_labs max_period top_k deltas suggestions
    = Returned result →
  result =
  take K (suggestions ++
    (deltas ≫= λ delta_days,
       (if delta_days =? 0 then [0] else [-1; 1]) ≫= λ sign,
         qualifying_on s req subject_group active_labs max_period
           (LabRequest.date req + sign * delta_days))).
Proof.
  revert suggestions. induction deltas as [|delta deltas IH]; intros suggestions Hless.
  { simpl. intros [= <-]. rewrite app_nil_r. symmetry. apply take_ge.
    apply not_enough_iff in Hless. lia. }
  rewrite bind_cons. cbn [day_loop].
  destruct (sign_loop _ _ _ _ _ _ _ _ _) as [middle|] eqn:Hsigns; [|done].
  apply sign_loop_spec in Hsigns; [|done]. subst middle.
  destruct (full (take K _)) eqn:Hfull.
  - intros [= <-]. by apply turn_break.
  - rewrite (turn_go_on _ _ Hfull) in Hfull |- *.
    intros Hres. apply IH in Hres; [|done]. by rewrite <-app_assoc in Hres.
Qed.
End search_facts.

Lemma list_bind_assoc {A B C} (f : A → list B) (g : B → list C) (l : list A) :
  (l ≫= f) ≫= g = l ≫= (λ x, f x ≫= g).
Proof.
  induction l as [|x l IH]; [done|].
  by rewrite !bind_cons, bind_app, IH.
Qed.

(** A date and period give a suggestion exactly when some active lab of the
    group has no reservation there. *)
Lemma candidate_is_Some s g d p :
  is_Some (candidate s g (active_labs_in s g) d p) ↔
  ∃ lab, lab ∈ labs s ∧ Lab.is_active lab = true ∧ Lab.subject_group lab = g ∧
         ¬ reserved_at s (Lab.id lab) d p.
Proof.
  unfold candidate, free_labs_at. split.
  - destruct (filter _ _) as [|lab free] eqn:Hfree; [by intros [? ?]|]. intros _.
    assert (lab ∈ filter (λ lab, Lab.id lab ∉ occupied_lab_ids s d p g)
                   (active_labs_in s g)) as Hlab by (rewrite Hfree; left).
    apply list_elem_of_filter in Hlab as [Hocc (Hin & Hact & Hg)%elem_of_active_labs_in].
    exists lab. split_and!; [done..|]. by rewrite <-(elem_of_occupied_lab_ids s d p g).
  - intros (lab & Hin & Hact & Hg & Hfree).
    assert (lab ∈ filter (λ lab, Lab.id lab ∉ occupied_lab_ids s d p g)
                   (active_labs_in s g)) as Hlab.
    { apply list_elem_of_filter. split; [|by apply elem_of_active_labs_in].
      by rewrite (elem_of_occupied_lab_ids s d p g). }
    destruct (filter _ _); [by apply elem_of_nil in Hlab|by eexists].
Qed.

(** The search raises only at a day of its window that is not a date:
    with a negative window, or with the whole window in the calendar, the
    call returns a diagnosis. *)
Lemma explain_returns s req_id req max_period day_window top_k :
  get_request s req_id = Some req →
  day_window < 0 ∨
    (in_calendar (LabRequest.date req - day_window) ∧
     in_calendar (LabRequest.date req + day_window)) →
  ∃ diag,
    ai_explain_conflict_and_suggest s req_id max_period day_window top_k =
      Returned (Some diag).
Proof.
  intros Hreq Hwindow. unfold ai_explain_conflict_and_suggest. rewrite Hreq.
  destruct (day_loop _ _ _ _ _ _ _ _) as [suggestions|] eqn:Hloop; [by eexists|].
  apply day_loop_Overflow in Hloop
    as (delta & sign & Hdelta%elem_of_py_range & Hsign & Hadd).
  destruct Hwindow as [?|[Hlo Hhi]]; [lia|].
  rewrite date_add_in_calendar in Hadd; [done|unfold in_calendar in *; lia|].
  unfold in_calendar in *.
  destruct (Z.eqb_spec delta 0).
  - apply list_elem_of_singleton in Hsign as ->. lia.
  - apply elem_of_cons in Hsign as [->|Hsign]; [lia|].
    apply list_elem_of_singleton in Hsign as ->. lia.
Qed.

(** For [top_k >= 1] a search that returns gives the first [top_k]
    qualifying candidates of the visit order: dates [d0], [d0 - 1],
    [d0 + 1], ... out to [day_window], periods [1..max_period] ascending on
    each date, the request's own slot left out. *)
Lemma suggestions_first_top_k s req_id req max_period day_window top_k answer :
  1 ≤ top_k →
  get_request s req_id = Some req →
  ai_explain_conflict_and_suggest s req_id max_period day_window top_k =
    Returned answer →
  diag_suggestions <$> answer =
  Some (take (Z.to_nat top_k) (qualifying s req max_period day_window)).
Proof.
  intros Hk Hreq. unfold ai_explain_conflict_and_suggest. rewrite Hreq.
  destruct (day_loop _ _ _ _ _ _ _ _) as [suggestions|] eqn:Hloop; [|done].
  intros [= <-]. simpl. f_equal.
  apply day_loop_spec in Hloop; [|apply not_enough_iff; simpl; lia].
  rewrite Hloop. simpl. f_equal. unfold qualifying, visit_dates.
  rewrite list_bind_assoc. apply list_bind_ext; [|done]. intros delta_days.
  rewrite list_bind_assoc. apply list_bind_ext; [|done]. intros sign.
  by rewrite bind_singleton.
Qed.

(** The dates of the search, for a window of two days. *)
Example visit_dates_window_2 d0 :
  visit_dates d0 2 = [d0; d0 - 1; d0 + 1; d0 - 2; d0 + 2].
Proof. unfold visit_dates. simpl. repeat f_equal; lia. Qed.

(** Scenario 3 on any store: with [dayWindow = 2], [maxPeriod = 2] and
    [topK = 1], when the day after the request's date, period 2, is the
    only slot of the window with a free lab, the suggestions are exactly
    that entry. *)
Lemma scenario_3_any_store s req_id req x :
  get_request s req_id = Some req →
  in_calendar (LabRequest.date req - 2) → in_calendar (LabRequest.date req + 2) →
  candidate s (_infer_req_group s req) (active_labs_in s (_infer_req_group s req))
    (LabRequest.date req + 1) 2 = Some x →
  (∀ d p, LabRequest.date req - 2 ≤ d ≤ LabRequest.date req + 2 → 1 ≤ p ≤ 2 →
     (d, p) ≠ (LabRequest.date req + 1, 2) →
     (d, p) ≠ (LabRequest.date req, LabRequest.period req) →
     candidate s (_infer_req_group s req) (active_labs_in s (_infer_req_group s req))
       d p = None) →
  suggestions_of (ai_explain_conflict_and_suggest s req_id 2 2 1) = Some [x].
Proof.
  intros Hreq Hlo Hhi Hfree Hnone.
  destruct (explain_returns s req_id req 2 2 1 Hreq) as [diag Hdiag]; [by right|].
  rewrite Hdiag. simpl.
  apply (suggestions_first_top_k s req_id req) in Hdiag; [|lia|done].
  simpl in Hdiag. rewrite Hdiag.
  f_equal. unfold qualifying, qualifying_on.
  set (g := _infer_req_group s req) in *.
  set (D := LabRequest.date req) in *.
  assert (∀ d p, D - 2 ≤ d ≤ D + 2 → 1 ≤ p ≤ 2 → (d, p) ≠ (D + 1, 2) →
            (if decide (d = D ∧ p = LabRequest.period req) then []
             else option_list (candidate s g (active_labs_in s g) d p)) = [])
    as Hcell.
  { intros d p Hd Hp Hne. case_decide as Hown; [done|].
    rewrite Hnone; [done..|]. intros [= -> ->]. by apply Hown. }
  rewrite visit_dates_window_2.
  change (py_range 1 (2 + 1)) with [1; 2].
  rewrite !bind_cons. simpl. rewrite ?app_nil_r.
  rewrite (decide_False (P := D + 1 = D ∧ 2 = _)) by lia. rewrite Hfree.
  rewrite !Hcell by (lia || (intros Heq; inversion Heq; lia)). done.
Qed.

(** ** The properties on the example stores *)

Lemma binding_ok_Forall s :
  Forall (λ r, length (reservations_of s (LabRequest.id r)) =
               if decide (LabRequest.status r = scheduled) then 1%nat else 0%nat)
         (lab_requests s) →
  binding_ok s.
Proof. rewrite Forall_forall. by intros Hall r Hr; apply Hall. Qed.

Lemma reserved_at_Exists s l d p :
  reserved_at s l d p ↔
  Exists (λ r, Reservation.lab_id r = l ∧ Reservation.date r = d ∧
               Reservation.period r = p) (reservations s).
Proof. unfold reserved_at. rewrite Exists_exists. naive_solver. Qed.

(** Scenario 3: with [dayWindow = 2], [maxPeriod = 2], [topK = 1] and date
    101, period 2 the only free slot, the search returns that one entry. *)
Example scenario_3 :
  suggestions_of (ai_explain_conflict_and_suggest Demo.busy 1 2 2 1) =
  Some [mkSuggestion 101 2 ["R1"]].
Proof. vm_compute. done. Qed.

(** C6 at [top_k = 0].  Request [A] of [Demo.store] asks for date 100,
    period 3, and both labs of its group are free on date 100, period 1.
    The first [0] qualifying candidates are none, but the search returns
    one suggestion: the test [len(suggestions) >= top_k] that ends the
    loops is made only after a candidate has been examined and appended. *)
Theorem explain_top_k_zero :
  suggestions_of (ai_explain_conflict_and_suggest Demo.store 1 2 2 0) =
    Some [mkSuggestion 100 1 ["R1"; "R2"]] ∧
  take (Z.to_nat 0) (qualifying Demo.store Demo.A 2 2) = [].
Proof. split; [vm_compute|]; done. Qed.

(** C1 on [Demo.full], where lab [R1] is taken on date 100, period 3. *)
Lemma slot_uniqueness_preserved_witness :
  slot_unique Demo.full ∧
  ((∀ req, slot_unique (_assign_reservation_for_request req Demo.full).2) ∧
   slot_unique (run_auto_schedule Demo.full).2 ∧
   (∀ req_id lab_id_str, slot_unique (manual_assign req_id lab_id_str Demo.full).2)).
Proof.
  assert (slot_unique Demo.full) as Hfull.
  { apply slot_unique_NoDup. apply (bool_decide_unpack _). vm_compute. exact I. }
  exact (conj Hfull (slot_uniqueness_preserved Demo.full Hfull)).
Defined.

(** C3 on [Demo.full]: [B] is scheduled with one reservation, [A] is
    pending with none. *)
Lemma binding_preserved_witness :
  binding_ok Demo.full ∧
  binding_ok (run_auto_schedule Demo.full).2 ∧
  binding_ok (manual_assign 1 (IsInt 1) Demo.full).2 ∧
  binding_ok (update_request_status 2 "pending" Demo.full).2.
Proof.
  assert (binding_ok Demo.full) as Hfull.
  { apply binding_ok_Forall. apply (bool_decide_unpack _). vm_compute. exact I. }
  pose proof (binding_preserved Demo.full Hfull) as (_ & Hrun & Hmanual & Hupdate).
  exact (conj Hfull (conj Hrun (conj (Hmanual 1 (IsInt 1)) (Hupdate 2 "pending")))).
Defined.

(** C2 on [half_booked], where [R1] is taken and [B] itself prefers [R2],
    which is free; and on [Demo.standing], where [C] names no lab, its
    teacher prefers [R2], and both [R1] and [R2] are free. *)
Lemma assign_honors_preference_witness :
  (¬ reserved_at half_booked 2 100 3 ∧
   (_assign_reservation_for_request Demo.B half_booked).1 = true ∧
   reservations (_assign_reservation_for_request Demo.B half_booked).2 =
     reservations half_booked ++ [Reservation.mk 2 2 100 3]) ∧
  (¬ reserved_at Demo.standing 2 100 3 ∧
   (_assign_reservation_for_request Demo.C Demo.standing).1 = true ∧
   reservations (_assign_reservation_for_request Demo.C Demo.standing).2 =
     reservations Demo.standing ++ [Reservation.mk 2 3 100 3]).
Proof.
  assert (¬ reserved_at half_booked 2 100 3) as Hfree.
  { rewrite reserved_at_Exists. apply (bool_decide_unpack _). vm_compute. exact I. }
  assert (¬ reserved_at Demo.standing 2 100 3) as Hfree'.
  { rewrite reserved_at_Exists. apply (bool_decide_unpack _). vm_compute. exact I. }
  split; (split; [assumption|]).
  - apply (assign_honors_preference Demo.B half_booked 2 Demo.R2);
      [split; [lia|left; reflexivity]
      |reflexivity|reflexivity|reflexivity|exact Hfree].
  - apply (assign_honors_preference Demo.C Demo.standing 2 Demo.R2);
      [split; [lia|right; split; [left; reflexivity|]];
       exists Demo.teacher3; split; reflexivity
      |reflexivity|reflexivity|reflexivity|exact Hfree'].
Defined.

(** C7 on [Demo.crowded]: the first call gives [B] its reservation and
    yields [Demo.full]; the second call changes nothing. *)
Lemma assign_idempotent_witness :
  _assign_reservation_for_request Demo.B Demo.full = (true, Demo.full) ∧
  length (reservations_of Demo.full 2) = 1%nat.
Proof.
  split.
  - apply (proj1 (assign_idempotent Demo.B Demo.full) (Reservation.mk 1 2 100 3)).
    reflexivity.
  - apply (proj2 (proj2 (assign_idempotent Demo.B Demo.crowded) Demo.full eq_refl)).
    vm_compute. lia.
Defined.


(** C8 on [Demo.store]: [P2] is an active Physics lab, [A] a Science
    request. *)
Lemma manual_assign_group_mismatch_witness :
  manual_assign 1 (IsInt 4) Demo.store = (GroupMismatch, Demo.store).
Proof.
  apply (manual_assign_group_mismatch Demo.store 1 4 Demo.A Demo.P2);
    [reflexivity|reflexivity|vm_compute; discriminate].
Defined.

(** C8 as it was stated fails on an inactive target: lab [P1] is of group
    Physics, request [A] of group Science, and the manual assignment is
    refused as [ResourceInactive], not as [GroupMismatch]. *)
Lemma manual_assign_inactive_target :
  get_request Demo.store 1 = Some Demo.A ∧
  get_lab Demo.store 3 = Some Demo.P1 ∧
  Lab.subject_group Demo.P1 ≠ _infer_req_group Demo.store Demo.A ∧
  manual_assign 1 (IsInt 3) Demo.store = (ResourceInactive, Demo.store) ∧
  (manual_assign 1 (IsInt 3) Demo.store).1 ≠ GroupMismatch.
Proof. split_and!; [done|done|vm_compute; discriminate|done|done]. Qed.

(** C10 on [Demo.store]: [teacher1] already has the pending request [A] on
    date 100, period 3. *)
Lemma new_request_rejects_duplicate_witness :
  (new_request Demo.teacher1 (POST Demo.form) 9 Demo.store).1 ≠ Submitted ∧
  (new_request Demo.teacher1 (POST Demo.form) 9 Demo.store).2 = Demo.store.
Proof.
  apply (new_request_rejects_duplicate Demo.teacher1 Demo.form 9 Demo.store
           100 3 None Demo.A);
    [apply list_elem_of_here|reflexivity|reflexivity|reflexivity
    |left; reflexivity|reflexivity|reflexivity].
Defined.

(** C4 on [Demo.store], where [A] was created first and names no lab and
    [B] prefers [R2]: [B] is attempted first and the store of the run is
    that of the two attempts.  On [Demo.standing] the signal of [C] is the
    standing preference of its teacher, and [C] is attempted before [A]. *)
Lemma batch_order_witness :
  NoDup (LabRequest.id <$> lab_requests Demo.store) ∧
  attempted Demo.store = [Demo.B; Demo.A] ∧
  (run_auto_schedule Demo.store).2 =
    attempt Demo.A (attempt Demo.B Demo.store) ∧
  before Demo.B Demo.A (attempted Demo.store) ∧
  before Demo.C Demo.A (attempted Demo.standing).
Proof.
  assert (NoDup (LabRequest.id <$> lab_requests Demo.store)) as Hnd.
  { apply (bool_decide_unpack _). vm_compute. exact I. }
  assert (∀ s, ¬ preference_signal s Demo.A ↔
               has_preference_signal s Demo.A ≠ true) as HA.
  { intros s. by rewrite preference_signal_iff. }
  pose proof (batch_order Demo.store) as (_ & Hrun & _ & _ & Hfilter & _ & Hbefore).
  pose proof (batch_order Demo.standing) as (_ & _ & _ & _ & _ & _ & Hbefore').
  split_and!.
  - exact Hnd.
  - exact (Hfilter Hnd).
  - rewrite Hrun, (Hfilter Hnd). reflexivity.
  - apply Hbefore;
      [apply list_elem_of_further, list_elem_of_here|apply list_elem_of_here| |].
    + apply HA. vm_compute. discriminate.
    + exists 2. split; [lia|left; reflexivity].
  - apply Hbefore';
      [apply list_elem_of_further, list_elem_of_here|apply list_elem_of_here| |].
    + apply HA. vm_compute. discriminate.
    + exists 2. split; [lia|right; split; [left; reflexivity|]].
      exists Demo.teacher3. split; reflexivity.
Defined.

(** C5 as it was stated fails on [Demo.crowded]: the run schedules one
    request and leaves the other in conflict, and returns no counts. *)
Lemma run_auto_schedule_returns_no_counts :
  LabRequest.status <$> lab_requests (run_auto_schedule Demo.crowded).2 =
    [conflict; scheduled] ∧
  ¬ ∃ counts, (run_auto_schedule Demo.crowded).1 = Some counts.
Proof. split; [by vm_compute|]. by intros [counts ?]. Qed.

(** * Further properties *)

(** ** Group resolution *)

Lemma infer_req_group_nonempty s req : _infer_req_group s req ≠ "".
Proof.
  unfold _infer_req_group. case_decide; [|done].
  assert (∀ o g, group_of_lab_ref s o = Some g → g ≠ "") as Hlab.
  { intros o g. unfold group_of_lab_ref.
    destruct (truthy o); [|done]. destruct (o ≫= get_lab s); [|done].
    case_decide; [done|]. by intros [= <-]. }
  destruct (group_of_lab_ref s _) as [g|] eqn:Hg; [by eapply Hlab|].
  assert (default_group ≠ "") as Hdefault by by unfold default_group.
  destruct (get_user s _) as [u|]; simpl; [|done].
  destruct (group_of_lab_ref s (User.preferred_lab_id u)) as [g|] eqn:Hu;
    [by eapply Hlab|done].
Qed.

(** The resolution reads the lab and user tables and the request only. *)
Lemma infer_req_group_ext s s' req :
  labs s' = labs s → users s' = users s →
  _infer_req_group s' req = _infer_req_group s req.
Proof.
  intros Hl Hu. unfold _infer_req_group, group_of_lab_ref, get_user, get_lab.
  by rewrite Hl, Hu.
Qed.

(** X1.  The resolved group is never the empty string, and once it is
    written back on the request every later resolution returns it, whatever
    the labs, the teachers and their preferences have become. *)
Theorem infer_req_group_persisted s req :
  _infer_req_group s req ≠ "" ∧
  ∀ s', _infer_req_group s'
          (LabRequest.with_lab_group (_infer_req_group s req) req) =
        _infer_req_group s req.
Proof.
  split; [apply infer_req_group_nonempty|]. intros s'.
  unfold _infer_req_group at 1. simpl.
  by rewrite decide_False by apply infer_req_group_nonempty.
Qed.

(** ** What a successful assignment creates *)

Lemma string_leb_trans a b c :
  String.leb a b = true → String.leb b c = true → String.leb a c = true.
Proof.
  unfold String.leb. revert b c.
  induction a as [|x a IH]; intros [|y b] [|z c]; simpl; try done.
  unfold Ascii.compare.
  destruct (N.compare_spec (Ascii.N_of_ascii x) (Ascii.N_of_ascii y));
    destruct (N.compare_spec (Ascii.N_of_ascii y) (Ascii.N_of_ascii z));
    destruct (N.compare_spec (Ascii.N_of_ascii x) (Ascii.N_of_ascii z));
    try done; try lia.
  apply IH.
Qed.

Lemma active_labs_in_sorted s g :
  StronglySorted (λ a b, String.leb (Lab.name a) (Lab.name b) = true)
    (active_labs_in s g).
Proof.
  apply (sort_by_sorted (λ a b, String.leb (Lab.name a) (Lab.name b))).
  - intros a b. apply String.leb_total.
  - intros a b c. apply string_leb_trans.
Qed.

(** The head of a sorted list is related to each of its elements, itself
    included when the order is reflexive. *)
Lemma StronglySorted_head {A} (R : A → A → Prop) (l : list A) x y :
  (∀ a, R a a) → StronglySorted R l → head l = Some x → y ∈ l → R x y.
Proof.
  intros Hrefl Hl Hx Hy. destruct Hl as [|z l Hl Hz]; [done|].
  simpl in Hx. simplify_eq. apply elem_of_cons in Hy as [->|Hy]; [done|].
  rewrite Forall_forall in Hz. by apply Hz.
Qed.

Lemma free_for_iff s g d p lab :
  free_for s g d p lab ↔
  lab ∈ active_labs_in s g ∧ Lab.id lab ∉ occupied_lab_ids s d p g.
Proof.
  unfold free_for. rewrite elem_of_active_labs_in. split.
  - intros (Hin & Hact & Hg & Hfree). split; [done|].
    by rewrite elem_of_occupied_lab_ids.
  - intros ((Hin & Hact & Hg) & Hocc). split_and!; [done..|].
    by rewrite <-(elem_of_occupied_lab_ids s d p g).
Qed.

(** X2.  A call that creates a reservation (it returns True on a request
    that had none) creates exactly one, for a lab that is active, of the
    request's resolved group and without reservation at the request's date
    and period; the request becomes scheduled and carries the resolved
    group.  When the lab the request names as preferred (its own or its
    teacher's) is free for it, that lab is the one taken; when no such
    lab is free for it, the lab taken is first by name among the free
    labs of the group. *)
Theorem assign_creates s req s' :
  request_reservation s (LabRequest.id req) = None →
  _assign_reservation_for_request req s = (true, s') →
  ∃ lab,
    free_for s (_infer_req_group s req) (LabRequest.date req)
      (LabRequest.period req) lab ∧
    s' = set_status (LabRequest.id req) scheduled
           (add_reservation
              (Reservation.mk (Lab.id lab) (LabRequest.id req)
                 (LabRequest.date req) (LabRequest.period req))
              (set_lab_group (LabRequest.id req) (_infer_req_group s req) s)) ∧
    (∀ plab, preferred_and_free s req plab → lab = plab) ∧
    ((¬ ∃ plab, preferred_and_free s req plab) →
     ∀ lab', free_for s (_infer_req_group s req) (LabRequest.date req)
               (LabRequest.period req) lab' →
             String.leb (Lab.name lab) (Lab.name lab') = true).
Proof.
  intros Hres. unfold _assign_reservation_for_request. rewrite Hres.
  set (g := _infer_req_group s req).
  set (s1 := set_lab_group (LabRequest.id req) g s).
  change (active_labs_in s1 g) with (active_labs_in s g).
  change (pref_lab_id s1 req) with (pref_lab_id s req).
  change (occupied_lab_ids s1 (LabRequest.date req) (LabRequest.period req) g)
    with (occupied_lab_ids s (LabRequest.date req) (LabRequest.period req) g).
  set (occ := occupied_lab_ids s (LabRequest.date req) (LabRequest.period req) g).
  destruct (active_labs_in s g) as [|l0 ls] eqn:Hactive; [done|].
  rewrite <-Hactive.
  destruct (preferred_choice s1 (pref_lab_id s req) g occ) as [lab|] eqn:Hpref.
  - intros [= <-]. exists lab.
    apply preferred_choice_Some in Hpref
      as (pid & Hpid & Hnz & Hget & Hact & Hg & Hocc).
    destruct (get_lab_Some _ _ _ Hget) as [Hin _].
    assert (free_for s g (LabRequest.date req) (LabRequest.period req) lab)
      as Hfree.
    { apply free_for_iff. split; [by apply elem_of_active_labs_in|done]. }
    assert (preferred_and_free s req lab) as Hlab.
    { exists pid. split_and!; [|done..]. by apply names_preferred_lab_iff. }
    split_and!; [done..| |].
    + intros plab (pid' & [Hpid' _]%names_preferred_lab_iff & Hget' & _).
      change (get_lab s1 pid) with (get_lab s pid) in Hget. congruence.
    + intros Hnone. destruct Hnone. by exists lab.
  - unfold first_free.
    destruct (head (filter _ (active_labs_in s g))) as [lab|] eqn:Hfirst; [|done].
    intros [= <-]. exists lab.
    pose proof (head_filter_Some _ _ _ Hfirst) as [Hlab Hocc].
    split_and!; [by apply free_for_iff|done| |].
    + intros plab (pid & [Hpid Hnz]%names_preferred_lab_iff & Hget
                   & (_ & Hact & Hg & Hfree)).
      destruct (get_lab_Some _ _ _ Hget) as [Hin Hid].
      rewrite Hpid in Hpref.
      rewrite (preferred_choice_honored s1 pid g occ plab) in Hpref;
        [done..|].
      intros Hocc'%occupied_lab_ids_reserved. apply Hfree. by rewrite Hid.
    + intros _ lab' [Hlab' Hocc']%free_for_iff.
      eapply (StronglySorted_head
                (λ a b, String.leb (Lab.name a) (Lab.name b) = true));
        [| |exact Hfirst|].
      * intros a. destruct (String.leb_total (Lab.name a) (Lab.name a)); done.
      * eapply StronglySorted_sublist; [apply sublist_filter|].
        apply active_labs_in_sorted.
      * by apply list_elem_of_filter.
Qed.

(** ** Group respect *)

Lemma infer_with_status s st q :
  _infer_req_group s (LabRequest.with_status st q) = _infer_req_group s q.
Proof. done. Qed.

Lemma get_request_set_status i st s j :
  get_request (set_status i st s) j =
  (if decide (j = i) then LabRequest.with_status st else id) <$> get_request s j.
Proof.
  destruct (decide (j = i)) as [->|Hne].
  - unfold get_request. simpl.
    induction (lab_requests s) as [|x l IH]; [done|].
    rewrite fmap_cons, !filter_cons.
    destruct (decide (LabRequest.id x = i)) as [Hx|Hx]; simpl.
    + by rewrite decide_True.
    + by rewrite decide_False.
  - rewrite get_request_set_status_ne by done. by destruct (get_request s j).
Qed.

Lemma get_request_set_lab_group i g s j :
  get_request (set_lab_group i g s) j =
  (if decide (j = i) then LabRequest.with_lab_group g else id) <$> get_request s j.
Proof.
  destruct (decide (j = i)) as [->|Hne].
  - unfold get_request. simpl.
    induction (lab_requests s) as [|x l IH]; [done|].
    rewrite fmap_cons, !filter_cons.
    destruct (decide (LabRequest.id x = i)) as [Hx|Hx]; simpl.
    + by rewrite decide_True.
    + by rewrite decide_False.
  - rewrite get_request_set_lab_group_ne by done. by destruct (get_request s j).
Qed.

(** The shape of the argument for each operation: the reservations of
    request [i] are accounted for one by one, the others are old and their
    requests resolve to the same group as before. *)
Lemma group_respect_step i s s' :
  group_respect s →
  labs s' = labs s → users s' = users s →
  (∀ j q', j ≠ i → get_request s' j = Some q' →
     ∃ q, get_request s j = Some q ∧ _infer_req_group s q' = _infer_req_group s q) →
  (∀ r q', r ∈ reservations s' → Reservation.request_id r = i →
     get_request s' i = Some q' →
     ∃ l, l ∈ labs s ∧ Lab.id l = Reservation.lab_id r ∧
          Lab.subject_group l = _infer_req_group s q') →
  (∀ r, r ∈ reservations s' → Reservation.request_id r ≠ i → r ∈ reservations s) →
  group_respect s'.
Proof.
  intros Hs Hlabs Husers Hrows Hnew Hold r q' Hr Hq'.
  rewrite Hlabs, (infer_req_group_ext s s') by done.
  destruct (decide (Reservation.request_id r = i)) as [Hi|Hi].
  - apply Hnew; [done..|]. by rewrite <-Hi.
  - destruct (Hrows _ q' Hi Hq') as (q & Hq & ->). by apply Hs; [apply Hold|].
Qed.

Lemma group_respect_set_status i st s :
  group_respect s → group_respect (set_status i st s).
Proof.
  intros Hs. apply (group_respect_step i s); [done..| | |done].
  - intros j q' Hj. rewrite get_request_set_status_ne by done. by exists q'.
  - intros r q' Hr Hi. rewrite get_request_set_status, decide_True by done.
    destruct (get_request s i) as [q|] eqn:Hq; [|done]. intros [= <-].
    rewrite infer_with_status. rewrite <-Hi in Hq. by apply (Hs r q).
Qed.

Lemma group_respect_delete i s :
  group_respect s → group_respect (delete_request_reservation i s).
Proof.
  intros Hs r q Hr Hq. apply (Hs r q); [|done].
  eapply elem_of_sublist; [exact Hr|]. apply remove_first_sublist.
Qed.

(** A new reservation for request [i], on a lab of the group the request
    resolves to, and status [scheduled]. *)
Lemma group_respect_bind i lab d p s :
  group_respect s →
  lab ∈ labs s →
  (∀ q, get_request s i = Some q → Lab.subject_group lab = _infer_req_group s q) →
  group_respect
    (set_status i scheduled (add_reservation (Reservation.mk (Lab.id lab) i d p) s)).
Proof.
  intros Hs Hlab Hg. apply group_respect_set_status.
  intros r q Hr Hq. simpl in Hr.
  apply elem_of_app in Hr as [Hr|Hr%list_elem_of_singleton].
  - by apply (Hs r q).
  - subst r. exists lab. split_and!; [done..|]. by apply Hg.
Qed.

Lemma group_respect_set_lab_group req s :
  request_reservation s (LabRequest.id req) = None →
  group_respect s →
  group_respect (set_lab_group (LabRequest.id req) (_infer_req_group s req) s).
Proof.
  intros Hnone Hs.
  apply (group_respect_step (LabRequest.id req) s); [done..| | |done].
  - intros j q' Hj. rewrite get_request_set_lab_group_ne by done. by exists q'.
  - intros r q' Hr Hi. apply request_reservation_None in Hnone.
    assert (r ∈ reservations_of s (LabRequest.id req)) as Hin
      by by apply list_elem_of_filter.
    rewrite Hnone in Hin. by apply elem_of_nil in Hin.
Qed.

Lemma group_respect_assign req s :
  group_respect s → group_respect (_assign_reservation_for_request req s).2.
Proof.
  intros Hs.
  destruct (assign_cases req s) as [r Hr|Hnone Hall|lab Hnone Hlab Hocc]; simpl.
  - done.
  - by apply group_respect_set_lab_group.
  - apply elem_of_active_labs_in in Hlab as (Hin & _ & Hg).
    apply group_respect_bind; [by apply group_respect_set_lab_group|done|].
    intros q. rewrite get_request_set_lab_group, decide_True by done.
    destruct (get_request s (LabRequest.id req)) as [q0|]; [|done].
    intros [= <-]. rewrite Hg.
    rewrite (infer_req_group_ext s (set_lab_group _ _ s)) by done.
    unfold _infer_req_group at 2. simpl.
    by rewrite decide_False by apply infer_req_group_nonempty.
Qed.

Lemma group_respect_attempt req s : group_respect s → group_respect (attempt req s).
Proof.
  intros Hs. unfold attempt. pose proof (group_respect_assign req s Hs).
  destruct (_assign_reservation_for_request req s) as [[] s']; simpl in *; [done|].
  by apply group_respect_set_status.
Qed.

Lemma group_respect_manual_assign req_id lab_id_str s :
  group_respect s → group_respect (manual_assign req_id lab_id_str s).2.
Proof.
  intros Hs. unfold manual_assign.
  destruct (get_request s req_id) as [lab_request|] eqn:Hget; [|done].
  destruct (get_request_Some _ _ _ Hget) as [_ Hid].
  destruct lab_id_str as [| |lab_id]; [done..|].
  destruct (get_lab s lab_id) as [lab|] eqn:Hlab; [|done].
  destruct (Lab.is_active lab); simpl; [|done].
  case_decide as Hg; [done|].
  destruct (slot_reservation s _ _ _); [done|]. simpl.
  apply group_respect_bind; [by apply group_respect_delete| |].
  - by apply get_lab_Some in Hlab as [? _].
  - intros q. change (get_request (delete_request_reservation ?i s))
      with (get_request s). rewrite Hid, Hget. intros [= <-].
    by destruct (decide (Lab.subject_group lab = _infer_req_group s lab_request)).
Qed.

Lemma group_respect_update_request_status req_id new_status s :
  group_respect s → group_respect (update_request_status req_id new_status s).2.
Proof.
  intros Hs. unfold update_request_status.
  destruct (get_request s req_id) as [lab_request|]; [|done].
  destruct (parse_status new_status) as [st|]; [|done].
  assert (group_respect (attempt lab_request s)) as Ha
    by by apply group_respect_attempt.
  rewrite attempt_eq in Ha.
  destruct st; simpl;
    try (by apply group_respect_set_status, group_respect_delete).
  by destruct (_assign_reservation_for_request lab_request s) as [[] ?].
Qed.

(** X3.  Group respect is kept by every operation that writes
    reservations or statuses: if the lab of each reservation is of the
    group its request resolves to, the same holds after a single
    assignment, a batch run, a manual assignment and a change of status. *)
Theorem group_respect_preserved s :
  group_respect s →
  (∀ req, group_respect (_assign_reservation_for_request req s).2) ∧
  group_respect (run_auto_schedule s).2 ∧
  (∀ req_id lab_id_str, group_respect (manual_assign req_id lab_id_str s).2) ∧
  (∀ req_id new_status,
     group_respect (update_request_status req_id new_status s).2).
Proof.
  intros Hs. split_and!.
  - intros req. by apply group_respect_assign.
  - apply (foldl_invariant schedule_step (λ st, group_respect st.1)); [|done].
    intros [s0 log] req Hs0. rewrite schedule_step_attempt.
    destruct (request_reservation s0 (LabRequest.id req)); [done|].
    by apply group_respect_attempt.
  - intros. by apply group_respect_manual_assign.
  - intros. by apply group_respect_update_request_status.
Qed.

(** ** The loops over requests *)

Lemma attempt_cases req s :
  request_reservation s (LabRequest.id req) = None →
  attempt req s =
    set_status (LabRequest.id req) conflict
      (set_lab_group (LabRequest.id req) (_infer_req_group s req) s) ∨
  ∃ lab,
    free_for s (_infer_req_group s req) (LabRequest.date req)
      (LabRequest.period req) lab ∧
    attempt req s =
      set_status (LabRequest.id req) scheduled
        (add_reservation
           (Reservation.mk (Lab.id lab) (LabRequest.id req)
              (LabRequest.date req) (LabRequest.period req))
           (set_lab_group (LabRequest.id req) (_infer_req_group s req) s)).
Proof.
  intros Hres. unfold attempt.
  destruct (assign_cases req s) as [r Hr|Hnone Hall|lab Hnone Hlab Hocc]; simpl.
  - congruence.
  - by left.
  - right. exists lab. split; [|done]. by apply free_for_iff.
Qed.

Lemma backfill_step_turn st req : (backfill_step st req).1 = turn st.1 req.
Proof.
  destruct st as [s [created conflicted]]. unfold backfill_step, turn. simpl.
  destruct (request_reservation s (LabRequest.id req)); [done|].
  rewrite attempt_eq.
  by destruct (_assign_reservation_for_request req s) as [[] ?].
Qed.

Lemma backfill_loop_turns rs st :
  (foldl backfill_step st rs).1 = foldl turn st.1 rs.
Proof.
  revert st. induction rs as [|req rs IH]; intros st; [done|].
  by rewrite !foldl_turn, IH, backfill_step_turn.
Qed.

(** A turn only adds reservations. *)
Lemma turn_reservations s req :
  ∃ extra, reservations (turn s req) = reservations s ++ extra.
Proof.
  unfold turn. destruct (request_reservation s (LabRequest.id req)) eqn:Hres.
  { exists []. by rewrite app_nil_r. }
  destruct (attempt_cases req s Hres) as [->|(lab & _ & ->)].
  - exists []. simpl. by rewrite app_nil_r.
  - by eexists.
Qed.

Lemma has_reservation_app s s' j extra :
  reservations s' = reservations s ++ extra →
  has_reservation s j → has_reservation s' j.
Proof.
  unfold has_reservation, request_reservation. intros ->.
  rewrite filter_app, !head_None. by intros Hs [? _]%app_eq_nil.
Qed.

Lemma turn_has_reservation s req j :
  has_reservation s j → has_reservation (turn s req) j.
Proof.
  destruct (turn_reservations s req) as [extra Hextra].
  by apply (has_reservation_app s _ j extra).
Qed.

(** A row after a turn comes from a row of the same key; its status is the
    same unless the turn was for that key. *)
Lemma turn_rows s req r' :
  r' ∈ lab_requests (turn s req) →
  ∃ r0, r0 ∈ lab_requests s ∧ LabRequest.id r0 = LabRequest.id r' ∧
        (LabRequest.id r' ≠ LabRequest.id req →
         LabRequest.status r' = LabRequest.status r0).
Proof.
  unfold turn. destruct (request_reservation s (LabRequest.id req)) eqn:Hres.
  { intros Hr'. by exists r'. }
  assert (∀ st s0, lab_requests s0 = lab_requests
                     (set_lab_group (LabRequest.id req) (_infer_req_group s req) s) →
            r' ∈ lab_requests (set_status (LabRequest.id req) st s0) →
            ∃ r0, r0 ∈ lab_requests s ∧ LabRequest.id r0 = LabRequest.id r' ∧
                  (LabRequest.id r' ≠ LabRequest.id req →
                   LabRequest.status r' = LabRequest.status r0)) as Hrows.
  { intros st s0 Hs0 Hr'.
    assert (r' ∈ lab_requests (set_status (LabRequest.id req) st
                (set_lab_group (LabRequest.id req) (_infer_req_group s req) s)))
      as Hin by (simpl in *; by rewrite <-Hs0).
    apply elem_of_rows_updated in Hin as (r0 & Hr0 & Hid & Hst).
    exists r0. split_and!; [done..|]. intros Hne.
    rewrite decide_False in Hst by congruence. done. }
  destruct (attempt_cases req s Hres) as [->|(lab & _ & ->)]; by apply Hrows.
Qed.

(** After its turn a request is reserved or in conflict. *)
Lemma turn_own s req r' :
  r' ∈ lab_requests (turn s req) → LabRequest.id r' = LabRequest.id req →
  has_reservation (turn s req) (LabRequest.id req) ∨
  LabRequest.status r' = conflict.
Proof.
  unfold turn. destruct (request_reservation s (LabRequest.id req)) eqn:Hres.
  { intros _ _. left. unfold has_reservation. by rewrite Hres. }
  destruct (attempt_cases req s Hres) as [->|(lab & _ & ->)]; intros Hr' Hid.
  - right. apply elem_of_rows_updated in Hr' as (r0 & _ & Hid0 & Hst).
    rewrite decide_True in Hst by congruence. done.
  - left. unfold has_reservation. rewrite request_reservation_None.
    rewrite reservations_of_set_status, reservations_of_add. simpl.
    rewrite decide_True by done. by intros [_ ?]%app_eq_nil.
Qed.

Lemma settled_turn done s req :
  settled done s → settled (done ++ [LabRequest.id req]) (turn s req).
Proof.
  intros Hs r' Hr' Hdone.
  destruct (decide (LabRequest.id r' = LabRequest.id req)) as [Heq|Hne].
  { rewrite Heq. by apply turn_own. }
  destruct (turn_rows s req r' Hr') as (r0 & Hr0 & Hid & Hst).
  rewrite Hst by done.
  apply elem_of_app in Hdone as [Hdone|Hdone%list_elem_of_singleton]; [|done].
  rewrite <-Hid in Hdone |- *.
  destruct (Hs r0 Hr0 Hdone) as [Hres|?]; [left|by right].
  by apply turn_has_reservation.
Qed.

Lemma settled_loop rs done s :
  settled done s → settled (done ++ (LabRequest.id <$> rs)) (foldl turn s rs).
Proof.
  revert done s. induction rs as [|req rs IH]; intros done s Hs.
  { simpl. by rewrite app_nil_r. }
  rewrite foldl_turn, fmap_cons, (cons_middle _ done), app_assoc.
  by apply IH, settled_turn.
Qed.

(** After a loop, a row keeps the status it had unless its key was in the
    list. *)
Lemma loop_rows rs s r' :
  r' ∈ lab_requests (foldl turn s rs) →
  ∃ r0, r0 ∈ lab_requests s ∧ LabRequest.id r0 = LabRequest.id r' ∧
        (LabRequest.status r' = LabRequest.status r0 ∨
         LabRequest.id r' ∈ LabRequest.id <$> rs).
Proof.
  revert s. induction rs as [|req rs IH]; intros s Hr'.
  { exists r'. eauto. }
  rewrite foldl_turn in Hr'.
  destruct (IH _ Hr') as (r1 & Hr1 & Hid1 & Hst1).
  destruct (turn_rows s req r1 Hr1) as (r0 & Hr0 & Hid0 & Hst0).
  exists r0. split_and!; [done|congruence|].
  rewrite fmap_cons.
  destruct Hst1 as [Hst1|Hin]; [|by right; right].
  destruct (decide (LabRequest.id r1 = LabRequest.id req)) as [Heq|Hne].
  - right. rewrite <-Hid1, Heq. left.
  - left. rewrite Hst1. by apply Hst0.
Qed.

(** A loop over requests that all have a reservation changes nothing. *)
Lemma schedule_loop_skips rs s log :
  (∀ r, r ∈ rs → has_reservation s (LabRequest.id r)) →
  foldl schedule_step (s, log) rs = (s, log).
Proof.
  induction rs as [|req rs IH]; intros Hall; [done|].
  rewrite foldl_turn.
  assert (schedule_step (s, log) req = (s, log)) as ->.
  { unfold schedule_step.
    destruct (request_reservation s (LabRequest.id req)) eqn:Hres; [done|].
    by destruct (Hall req (list_elem_of_here _ _)). }
  apply IH. intros r Hr. apply Hall. by right.
Qed.

(** Whatever its status, a request of the backlog that the run leaves
    behind has a reservation. *)
Lemma run_leaves_reserved s r' :
  r' ∈ backlog (run_auto_schedule s).2 →
  has_reservation (run_auto_schedule s).2 (LabRequest.id r').
Proof.
  unfold run_auto_schedule, schedule_loop, backlog. simpl.
  rewrite schedule_loop_turns. simpl.
  intros [Hst Hr']%list_elem_of_filter.
  assert (LabRequest.id r' ∈ LabRequest.id <$> unscheduled s) as Hdone.
  { destruct (loop_rows _ _ _ Hr') as (r0 & Hr0 & Hid & [Heq|Hin]); [|done].
    rewrite <-Hid. apply list_elem_of_fmap_2. rewrite unscheduled_perm.
    apply list_elem_of_filter. split; [|done]. by rewrite <-Heq. }
  destruct (settled_loop (unscheduled s) [] s) with (r := r') as [Hres|Hc];
    [by intros ? ? ?%elem_of_nil|done|done|done|].
  destruct Hst; congruence.
Qed.

(** X4.  A second batch run right after a first one does nothing: it
    attempts no request and returns the store as it is. *)
Theorem run_auto_schedule_twice s :
  attempted (run_auto_schedule s).2 = [] ∧
  (run_auto_schedule (run_auto_schedule s).2).2 = (run_auto_schedule s).2.
Proof.
  assert (schedule_loop (unscheduled (run_auto_schedule s).2)
            (run_auto_schedule s).2 = ((run_auto_schedule s).2, [])) as Hloop.
  { apply schedule_loop_skips. intros r Hr. apply run_leaves_reserved.
    by rewrite <-unscheduled_perm. }
  split.
  - unfold attempted. by rewrite Hloop.
  - change ((run_auto_schedule (run_auto_schedule s).2).2)
      with (schedule_loop (unscheduled (run_auto_schedule s).2)
              (run_auto_schedule s).2).1.
    by rewrite Hloop.
Qed.

(** X5.  Under the 1:1 binding a batch run leaves no request pending or
    approved: every request of the backlog ends scheduled or in conflict. *)
Theorem run_auto_schedule_clears_backlog s :
  binding_ok s → backlog (run_auto_schedule s).2 = [].
Proof.
  intros Hs.
  assert (binding_ok (run_auto_schedule s).2) as Hfinal.
  { apply (foldl_invariant schedule_step (λ st, binding_ok st.1)); [|done].
    intros [s0 log] req. apply binding_ok_schedule_step. }
  destruct (backlog (run_auto_schedule s).2) as [|r' l] eqn:Hb; [done|].
  assert (r' ∈ backlog (run_auto_schedule s).2) as Hr' by (rewrite Hb; left).
  pose proof (run_leaves_reserved s r' Hr') as Hres.
  unfold backlog in Hr'. apply list_elem_of_filter in Hr' as [Hst Hr'].
  specialize (Hfinal r' Hr').
  rewrite decide_False in Hfinal by (destruct Hst; congruence).
  apply nil_length_inv, request_reservation_None in Hfinal. done.
Qed.

(** ** The backfill of reservations *)

Lemma turn_schedule_step s log req : turn s req = (schedule_step (s, log) req).1.
Proof. by rewrite schedule_step_attempt. Qed.

Lemma weak_binding_set_lab_group i g s :
  weak_binding s → weak_binding (set_lab_group i g s).
Proof.
  intros Hs r' Hr'. simpl in Hr'.
  apply list_elem_of_fmap in Hr' as (r & -> & Hr).
  specialize (Hs r Hr). by destruct (decide (LabRequest.id r = i)).
Qed.

Lemma weak_binding_update i st s s' :
  weak_binding s →
  lab_requests s' = lab_requests (set_status i st s) →
  (∀ j, j ≠ i → reservations_of s' j = reservations_of s j) →
  (length (reservations_of s' i) ≤ if decide (st = scheduled) then 1 else 0)%nat →
  weak_binding s'.
Proof.
  intros Hs Hreq Hother Hi r' Hr'. rewrite Hreq in Hr'. simpl in Hr'.
  apply list_elem_of_fmap in Hr' as (r & -> & Hr).
  destruct (decide (LabRequest.id r = i)) as [Hid|Hid].
  - simpl. by rewrite Hid.
  - rewrite Hother; [|done]. by apply Hs.
Qed.

Lemma weak_binding_turn s req : weak_binding s → weak_binding (turn s req).
Proof.
  intros Hs. unfold turn.
  destruct (request_reservation s (LabRequest.id req)) eqn:Hres; [done|].
  pose proof Hres as Hnone. apply request_reservation_None in Hnone.
  destruct (attempt_cases req s Hres) as [->|(lab & _ & ->)].
  - eapply (weak_binding_update (LabRequest.id req) conflict
              (set_lab_group (LabRequest.id req) (_infer_req_group s req) s));
      [by apply weak_binding_set_lab_group|done|done|].
    by rewrite reservations_of_set_status, reservations_of_set_lab_group, Hnone.
  - eapply (weak_binding_update (LabRequest.id req) scheduled
              (set_lab_group (LabRequest.id req) (_infer_req_group s req) s));
      [by apply weak_binding_set_lab_group|done|..].
    + intros j Hj.
      rewrite reservations_of_set_status, reservations_of_add. simpl.
      rewrite decide_False by done. by rewrite app_nil_r.
    + rewrite reservations_of_set_status, reservations_of_add,
        reservations_of_set_lab_group, Hnone.
      simpl. by rewrite decide_True.
Qed.

(** After the backfill every scheduled request has a reservation. *)
Lemma backfill_reserves s r' :
  r' ∈ lab_requests (ensure_reservations_for_scheduled_requests s).1 →
  LabRequest.status r' = scheduled →
  has_reservation (ensure_reservations_for_scheduled_requests s).1
    (LabRequest.id r').
Proof.
  unfold ensure_reservations_for_scheduled_requests.
  rewrite backfill_loop_turns. simpl.
  set (rs := filter (λ r, LabRequest.status r = scheduled) (lab_requests s)).
  intros Hr' Hst.
  assert (LabRequest.id r' ∈ LabRequest.id <$> rs) as Hdone.
  { destruct (loop_rows _ _ _ Hr') as (r0 & Hr0 & Hid & [Heq|Hin]); [|done].
    rewrite <-Hid. apply list_elem_of_fmap_2.
    apply list_elem_of_filter. split; [|done]. by rewrite <-Heq. }
  destruct (settled_loop rs [] s) with (r := r') as [Hres|Hc];
    [by intros ? ? ?%elem_of_nil|done|done|done|congruence].
Qed.

(** X6.  The backfill repairs the 1:1 binding: when no request has more
    reservations than its status allows (at most one if scheduled, none
    otherwise), then afterwards every scheduled request has exactly one
    reservation and every other request none.  It also keeps slot
    uniqueness and group respect. *)
Theorem backfill_repairs_binding s :
  (weak_binding s → binding_ok (ensure_reservations_for_scheduled_requests s).1) ∧
  (slot_unique s → slot_unique (ensure_reservations_for_scheduled_requests s).1) ∧
  (group_respect s →
   group_respect (ensure_reservations_for_scheduled_requests s).1).
Proof.
  split_and!.
  - intros Hs r' Hr'.
    assert (weak_binding (ensure_reservations_for_scheduled_requests s).1) as Hweak.
    { unfold ensure_reservations_for_scheduled_requests.
      rewrite backfill_loop_turns.
      apply (foldl_invariant turn weak_binding); [|done].
      intros s0 req. apply weak_binding_turn. }
    specialize (Hweak r' Hr').
    destruct (decide (LabRequest.status r' = scheduled)) as [Hst|Hst]; [|lia].
    pose proof (backfill_reserves s r' Hr' Hst) as Hres.
    unfold has_reservation in Hres. rewrite request_reservation_None in Hres.
    destruct (reservations_of _ (LabRequest.id r')) as [|? [|? ?]];
      simpl in *; [done|done|lia].
  - intros Hs. unfold ensure_reservations_for_scheduled_requests.
    rewrite backfill_loop_turns.
    apply (foldl_invariant turn slot_unique); [|done].
    intros s0 req. rewrite (turn_schedule_step s0 []).
    apply slot_unique_schedule_step.
  - intros Hs. unfold ensure_reservations_for_scheduled_requests.
    rewrite backfill_loop_turns.
    apply (foldl_invariant turn group_respect); [|done].
    intros s0 req Hs0. unfold turn.
    destruct (request_reservation s0 (LabRequest.id req)); [done|].
    by apply group_respect_attempt.
Qed.

Lemma backfill_step_counts st req :
  Z.of_nat (length (reservations (backfill_step st req).1))
    - (backfill_step st req).2.1 =
  Z.of_nat (length (reservations st.1)) - st.2.1 ∧
  st.2.2 ≤ (backfill_step st req).2.2.
Proof.
  destruct st as [s [created conflicted]]. unfold backfill_step.
  destruct (request_reservation s (LabRequest.id req)) eqn:Hres; [simpl; lia|].
  destruct (assign_cases req s) as [r Hr|Hnone Hall|lab Hnone Hlab Hocc]; simpl.
  - congruence.
  - lia.
  - rewrite length_app. simpl. lia.
Qed.

(** X7.  The counter [created] that the backfill prints is the number of
    reservations it added, and [conflicted] is never negative.  On a store
    that satisfies the 1:1 binding the backfill does nothing and both
    counters are zero. *)
Theorem backfill_counts s :
  Z.of_nat (length (reservations (ensure_reservations_for_scheduled_requests s).1)) =
    Z.of_nat (length (reservations s))
    + (ensure_reservations_for_scheduled_requests s).2.1 ∧
  0 ≤ (ensure_reservations_for_scheduled_requests s).2.2 ∧
  (binding_ok s → ensure_reservations_for_scheduled_requests s = (s, (0, 0))).
Proof.
  split_and!.
  - enough (Z.of_nat (length (reservations
              (ensure_reservations_for_scheduled_requests s).1))
            - (ensure_reservations_for_scheduled_requests s).2.1 =
            Z.of_nat (length (reservations s)) - 0) by lia.
    apply (foldl_invariant backfill_step
             (λ st, Z.of_nat (length (reservations st.1)) - st.2.1 =
                    Z.of_nat (length (reservations s)) - 0)); [|done].
    intros st req Hst. by rewrite (proj1 (backfill_step_counts st req)).
  - apply (foldl_invariant backfill_step (λ st, 0 ≤ st.2.2)); [|done].
    intros st req Hst. pose proof (proj2 (backfill_step_counts st req)). lia.
  - intros Hs. unfold ensure_reservations_for_scheduled_requests.
    assert (∀ r, r ∈ filter (λ r, LabRequest.status r = scheduled) (lab_requests s) →
                 has_reservation s (LabRequest.id r)) as Hall.
    { intros r [Hst Hr]%list_elem_of_filter. specialize (Hs r Hr).
      rewrite decide_True in Hs by done.
      unfold has_reservation. rewrite request_reservation_None.
      by destruct (reservations_of s (LabRequest.id r)). }
    induction (filter _ (lab_requests s)) as [|req rs IH]; [done|].
    rewrite foldl_turn.
    assert (backfill_step (s, (0, 0)) req = (s, (0, 0))) as ->.
    { unfold backfill_step.
      destruct (request_reservation s (LabRequest.id req)) eqn:Hres; [done|].
      by destruct (Hall req (list_elem_of_here _ _)). }
    apply IH. intros r Hr. apply Hall. by right.
Qed.

(** ** Cancelling and moving a reservation *)

Lemma slot_reservation_None s l d p :
  slot_reservation s l d p = None ↔ ¬ reserved_at s l d p.
Proof.
  unfold slot_reservation, reserved_at. rewrite head_filter_None. split.
  - intros Hnone (r & Hr & Hslot). by apply (Hnone r).
  - intros Hfree r Hr Hslot. apply Hfree. by exists r.
Qed.

(** With unique slots, the slot of the first row that satisfies [P] is not
    taken by any row that is left when that row is removed. *)
Lemma remove_first_frees_slot (P : Reservation.t → Prop)
    `{!∀ x, Decision (P x)} (l : list Reservation.t) r :
  NoDup (slot <$> l) → head (filter P l) = Some r →
  slot r ∉ slot <$> remove_first P l.
Proof.
  induction l as [|x l IH]; intros Hnd Hhead; [done|].
  rewrite fmap_cons in Hnd. apply NoDup_cons in Hnd as [Hx Hnd]. simpl.
  rewrite filter_cons in Hhead. destruct (decide (P x)) as [HP|HP].
  - simpl in Hhead. by simplify_eq.
  - rewrite fmap_cons, not_elem_of_cons. split; [|by apply IH].
    intros Heq. apply Hx. rewrite <-Heq. apply list_elem_of_fmap_2.
    by apply head_filter_Some in Hhead as [? _].
Qed.

Lemma delete_frees_slot s i r :
  slot_unique s → request_reservation s i = Some r →
  ¬ reserved_at (delete_request_reservation i s)
      (Reservation.lab_id r) (Reservation.date r) (Reservation.period r).
Proof.
  intros Hs%slot_unique_NoDup Hr (r' & Hr' & Hl & Hd & Hp).
  apply (remove_first_frees_slot (λ x, Reservation.request_id x = i)
           (reservations s) r Hs Hr).
  replace (slot r) with (slot r') by (unfold slot; congruence).
  by apply list_elem_of_fmap_2.
Qed.

(** X8.  Moving a request away from [scheduled] frees its slot.  When the
    store has unique slots and the request has one reservation, a change
    of its status to pending, approved or conflict removes that
    reservation: the request is left with the new status and without
    reservation, and the lab it held is no longer taken on that date and
    period. *)
Theorem status_change_frees_slot s req_id new_status st q r :
  get_request s req_id = Some q →
  parse_status new_status = Some st → st ≠ scheduled →
  slot_unique s →
  reservations_of s req_id = [r] →
  get_request (update_request_status req_id new_status s).2 req_id =
    Some (LabRequest.with_status st q) ∧
  reservations_of (update_request_status req_id new_status s).2 req_id = [] ∧
  ¬ reserved_at (update_request_status req_id new_status s).2
      (Reservation.lab_id r) (Reservation.date r) (Reservation.period r).
Proof.
  intros Hq Hst Hne Hs Hr. destruct (get_request_Some _ _ _ Hq) as [_ Hid].
  assert ((update_request_status req_id new_status s).2 =
          set_status req_id st (delete_request_reservation req_id s)) as ->.
  { unfold update_request_status. rewrite Hq, Hst, Hid. by destruct st. }
  split_and!.
  - rewrite get_request_set_status, decide_True by done.
    change (get_request (delete_request_reservation req_id s) req_id)
      with (get_request s req_id). by rewrite Hq.
  - by rewrite reservations_of_set_status, reservations_of_delete, Hr.
  - apply (delete_frees_slot s req_id r Hs).
    unfold request_reservation. fold (reservations_of s req_id). by rewrite Hr.
Qed.

(** X9.  A manual assignment succeeds exactly when the target lab exists,
    is active, is of the request's resolved group and has no reservation
    at the request's date and period; every other outcome leaves the store
    unchanged.  On success a request that had at most one reservation has
    exactly the new one, on the target lab, and is scheduled. *)
Theorem manual_assign_assigned s req_id lab_id q :
  get_request s req_id = Some q →
  ((manual_assign req_id (IsInt lab_id) s).1 = Assigned ↔
   ∃ lab, get_lab s lab_id = Some lab ∧ Lab.is_active lab = true ∧
          Lab.subject_group lab = _infer_req_group s q ∧
          ¬ reserved_at s lab_id (LabRequest.date q) (LabRequest.period q)) ∧
  ((manual_assign req_id (IsInt lab_id) s).1 ≠ Assigned →
   (manual_assign req_id (IsInt lab_id) s).2 = s) ∧
  ((manual_assign req_id (IsInt lab_id) s).1 = Assigned →
   (length (reservations_of s req_id) ≤ 1)%nat →
   reservations_of (manual_assign req_id (IsInt lab_id) s).2 req_id =
     [Reservation.mk lab_id req_id (LabRequest.date q) (LabRequest.period q)] ∧
   get_request (manual_assign req_id (IsInt lab_id) s).2 req_id =
     Some (LabRequest.with_status scheduled q)).
Proof.
  intros Hq. destruct (get_request_Some _ _ _ Hq) as [_ Hid].
  unfold manual_assign. rewrite Hq.
  destruct (get_lab s lab_id) as [lab|] eqn:Hlab; [|by split_and!; [split; [|intros (? & ? & _)]|..]].
  destruct (get_lab_Some _ _ _ Hlab) as [_ Hlid].
  destruct (Lab.is_active lab) eqn:Hact; simpl.
  2: { split_and!; [split; [done|]|done..]. intros (? & ? & ? & _). congruence. }
  destruct (decide (Lab.subject_group lab ≠ _infer_req_group s q)) as [Hg|Hg].
  { split_and!; [split; [done|]|done..]. intros (? & ? & _ & ? & _). congruence. }
  apply dec_stable in Hg. rewrite Hlid, Hid.
  destruct (slot_reservation s lab_id _ _) as [r|] eqn:Hslot; simpl.
  { split_and!; [split; [done|]|done..]. intros (? & _ & _ & _ & Hfree).
    apply slot_reservation_None in Hfree. congruence. }
  apply slot_reservation_None in Hslot.
  split_and!; [split; [|done]|done|].
  - intros _. by exists lab.
  - intros _ Hlen. split.
    + rewrite reservations_of_set_status, reservations_of_add,
        reservations_of_delete. simpl. rewrite decide_True by done.
      by destruct (reservations_of s req_id) as [|? [|? ?]]; simpl in *; [..|lia].
    + rewrite get_request_set_status, decide_True by done.
      change (get_request (add_reservation ?x (delete_request_reservation ?i s)) req_id)
        with (get_request s req_id). by rewrite Hq.
Qed.

(** X10.  A manual assignment moves the reservation.  When it succeeds on
    a store with unique slots, the lab that the request held before is no
    longer taken at the slot of the old reservation. *)
Theorem manual_assign_moves s req_id lab_id r0 :
  slot_unique s →
  request_reservation s req_id = Some r0 →
  (manual_assign req_id (IsInt lab_id) s).1 = Assigned →
  ¬ reserved_at (manual_assign req_id (IsInt lab_id) s).2
      (Reservation.lab_id r0) (Reservation.date r0) (Reservation.period r0).
Proof.
  intros Hs Hr0. unfold manual_assign.
  destruct (get_request s req_id) as [q|] eqn:Hq; [|done].
  destruct (get_request_Some _ _ _ Hq) as [_ Hid].
  destruct (get_lab s lab_id) as [lab|] eqn:Hlab; [|done].
  destruct (Lab.is_active lab); simpl; [|done].
  case_decide; [done|].
  destruct (slot_reservation s _ _ _) as [r|] eqn:Hslot; [done|]. simpl.
  intros _ (r' & Hr' & Hl & Hd & Hp). rewrite Hid in Hr'.
  apply elem_of_app in Hr' as [Hr'|Hr'%list_elem_of_singleton].
  - apply (delete_frees_slot s req_id r0 Hs Hr0). by exists r'.
  - subst r'. simpl in *. apply slot_reservation_None in Hslot. apply Hslot.
    exists r0. split_and!; [|done..].
    by apply (head_filter_Some (λ x, Reservation.request_id x = req_id)) in Hr0
      as [? _].
Qed.


(** ** Submissions *)

Lemma submission_date_inr s form d w :
  submission_date s form = inr (d, w) →
  (RequestForm.week_id_str form = Blank ∧ RequestForm.date_str form = IsDate d ∧
   w = None) ∨
  ∃ week_id week weekday,
    RequestForm.week_id_str form = IsInt week_id ∧
    get_week s week_id = Some week ∧ w = Some week ∧
    WeekSchedule.is_active week = true ∧
    RequestForm.weekday_str form = IsInt weekday ∧
    0 ≤ weekday ≤ 6 ∧ d = WeekSchedule.start_date week + weekday ∧
    WeekSchedule.start_date week ≤ d ≤ WeekSchedule.end_date week.
Proof.
  unfold submission_date.
  destruct (RequestForm.week_id_str form) as [| |week_id]; [|done|].
  { destruct (RequestForm.date_str form); [done..|]. intros [= -> <-]. by left. }
  destruct (get_week s week_id) as [week|] eqn:Hweek; [|done].
  destruct (WeekSchedule.is_active week) eqn:Hact; simpl; [|done].
  destruct (RequestForm.weekday_str form) as [| |weekday]; [done..|].
  destruct (Z.ltb_spec weekday 0); simpl; [done|].
  destruct (Z.ltb_spec 6 weekday); simpl; [done|].
  unfold _week_date_from_weekday.
  destruct (date_add _ _) as [date_obj|] eqn:Hadd; [|done].
  apply date_add_Returned in Hadd as [-> _].
  destruct (Z.ltb_spec (WeekSchedule.start_date week + weekday)
              (WeekSchedule.start_date week)); simpl; [done|].
  destruct (Z.ltb_spec (WeekSchedule.end_date week)
              (WeekSchedule.start_date week + weekday)); simpl; [done|].
  intros [= <- <-]. right. exists week_id, week, weekday.
  split_and!; (done || lia).
Qed.

Lemma submission_date_inl s form o :
  submission_date s form = inl o → o ≠ Submitted.
Proof.
  unfold submission_date. intros Ho ->.
  repeat (match type of Ho with
          | context [match ?x with _ => _ end] => destruct x
          end; simplify_eq/=).
Qed.

(** The two ways a call of [new_request] ends. *)
Lemma new_request_cases u request now s :
  ((new_request u request now s).1 ≠ Submitted ∧
   (new_request u request now s).2 = s) ∨
  ∃ form lab_group date_obj week_obj period,
    request = POST form ∧
    User.role u = "teacher" ∧
    RequestForm.class_name form ≠ "" ∧
    RequestForm.period_str form = IsInt period ∧
    submission_date s form = inr (date_obj, week_obj) ∧
    existed_same s (User.id u) date_obj period = None ∧
    (let q := submitted_request s u form now lab_group date_obj week_obj period in
     (if truthy (LabRequest.preferred_lab_id q)
      then ∃ lab, LabRequest.preferred_lab_id q ≫= get_lab s = Some lab ∧
                  Lab.is_active lab = true ∧ lab_group = Lab.subject_group lab
      else lab_group = (if decide (RequestForm.lab_group form = "")
                        then default_group else RequestForm.lab_group form)) ∧
     new_request u request now s =
       (Submitted, with_lab_requests (lab_requests s ++ [q]) s)).
Proof.
  unfold new_request.
  destruct (decide (User.role u ≠ "teacher")) as [|Hrole%dec_stable]; [by left|].
  destruct request as [|form]; [by left|].
  case_bool_decide as Hclass; simpl; [by left|].
  destruct (RequestForm.period_str form) as [| |period] eqn:Hperiod; simpl;
    [by left..|].
  destruct (submission_date s form) as [o|[date_obj week_obj]] eqn:Hdate.
  { left. split; [|done]. by eapply submission_date_inl. }
  set (pref := match RequestForm.preferred_lab_id_str form with
               | IsInt z => Some z
               | _ => None
               end).
  destruct (truthy pref) eqn:Hpref.
  - destruct (pref ≫= get_lab s) as [lab|] eqn:Hlab; [|by left].
    destruct (Lab.is_active lab) eqn:Hact; [|by left].
    destruct (existed_same s (User.id u) date_obj period) eqn:Hsame; [by left|].
    right. exists form, (Lab.subject_group lab), date_obj, week_obj, period.
    split_and!; [done..| |done]. simpl. fold pref. rewrite Hpref. by exists lab.
  - destruct (existed_same s (User.id u) date_obj period) eqn:Hsame; [by left|].
    right. eexists form, _, date_obj, week_obj, period.
    split_and!; [done..| |done]. simpl. fold pref. by rewrite Hpref.
Qed.

Lemma next_id_fresh (ids : list Z) i : i ∈ ids → i < next_id ids.
Proof.
  unfold next_id. induction ids as [|x ids IH]; intros Hi.
  { by apply elem_of_nil in Hi. }
  simpl. apply elem_of_cons in Hi as [->|Hi]; [lia|]. specialize (IH Hi). lia.
Qed.

(** X12.  A call of [new_request] either refuses and leaves the store as
    it is, or appends exactly one request: pending, of the current user,
    who is a teacher, for the class and period of the form, stamped with
    the current time, and with a key larger than every key in use. *)
Theorem new_request_submitted u request now s :
  ((new_request u request now s).1 ≠ Submitted ∧
   (new_request u request now s).2 = s) ∨
  ∃ form q,
    request = POST form ∧
    new_request u request now s =
      (Submitted, with_lab_requests (lab_requests s ++ [q]) s) ∧
    User.role u = "teacher" ∧
    LabRequest.teacher_id q = User.id u ∧
    LabRequest.status q = pending ∧
    LabRequest.created_at q = now ∧
    LabRequest.class_name q = RequestForm.class_name form ∧
    LabRequest.class_name q ≠ "" ∧
    RequestForm.period_str form = IsInt (LabRequest.period q) ∧
    ∀ r, r ∈ lab_requests s → LabRequest.id r < LabRequest.id q.
Proof.
  destruct (new_request_cases u request now s)
    as [?|(form & g & d & w & p & -> & Hrole & Hclass & Hp & _ & _ & _ & Hnew)];
    [by left|right].
  eexists form, _. split_and!; [done|exact Hnew|done..|].
  intros r Hr. simpl. apply next_id_fresh. by apply list_elem_of_fmap_2.
Qed.

(** X13.  A request submitted for a week is dated inside that week: the
    week exists and is active, the date is its start date plus a weekday in
    0..6, and it is not after the end date of the week. *)
Theorem new_request_week_date u form now s week_id :
  RequestForm.week_id_str form = IsInt week_id →
  (new_request u (POST form) now s).1 = Submitted →
  ∃ week q,
    lab_requests (new_request u (POST form) now s).2 = lab_requests s ++ [q] ∧
    get_week s week_id = Some week ∧
    WeekSchedule.is_active week = true ∧
    LabRequest.week_id q = Some week_id ∧
    WeekSchedule.start_date week ≤ LabRequest.date q ≤ WeekSchedule.end_date week ∧
    0 ≤ LabRequest.date q - WeekSchedule.start_date week ≤ 6.
Proof.
  intros Hweek Hout.
  destruct (new_request_cases u (POST form) now s)
    as [[? _]|(form' & g & d & w & p & [= <-] & _ & _ & _ & Hdate & _ & _ & Hnew)];
    [done|].
  apply submission_date_inr in Hdate
    as [(? & _)|(wid & week & weekday & Hwid & Hget & -> & Hact & _ & Hday & -> & Hin)];
    [congruence|].
  rewrite Hweek in Hwid. injection Hwid as <-.
  destruct (head_filter_Some (λ w, WeekSchedule.id w = week_id) _ _ Hget)
    as [_ Hkey].
  exists week,
    (submitted_request s u form now g (WeekSchedule.start_date week + weekday)
       (Some week) p).
  rewrite Hnew. simpl. rewrite Hkey. split_and!; (done || lia).
Qed.

(** X14.  A submitted request carries a usable group.  If it names a
    preferred lab, that lab exists and is active at the time of the
    submission, and the group stored on the request is the lab's, whatever
    the group field of the form says; otherwise the stored group is the
    form's, or the default group when the field is empty, and is never
    empty. *)
Theorem new_request_group u form now s :
  (new_request u (POST form) now s).1 = Submitted →
  ∃ q,
    lab_requests (new_request u (POST form) now s).2 = lab_requests s ++ [q] ∧
    if truthy (LabRequest.preferred_lab_id q)
    then ∃ lab, LabRequest.preferred_lab_id q ≫= get_lab s = Some lab ∧
                Lab.is_active lab = true ∧
                LabRequest.lab_group q = Lab.subject_group lab
    else LabRequest.lab_group q ≠ "" ∧
         LabRequest.lab_group q =
           (if decide (RequestForm.lab_group form = "") then default_group
            else RequestForm.lab_group form).
Proof.
  intros Hout.
  destruct (new_request_cases u (POST form) now s)
    as [[? _]|(form' & g & d & w & p & [= <-] & _ & _ & _ & _ & _ & Hg & Hnew)];
    [done|].
  eexists. rewrite Hnew. split; [done|]. simpl in *.
  destruct (truthy _); [done|]. split; [|done]. rewrite Hg.
  case_decide; [by unfold default_group|done].
Qed.

(** X15.  Submissions never give a teacher two live requests for one slot:
    if no two requests that are not in conflict are of the same teacher
    for the same date and period, this still holds after any call of
    [new_request]. *)
Theorem new_request_keeps_teacher_slots u request now s :
  teacher_slots_unique s →
  teacher_slots_unique (new_request u request now s).2.
Proof.
  intros Hs.
  destruct (new_request_cases u request now s)
    as [[_ ->]|(form & g & d & w & p & _ & _ & _ & _ & _ & Hsame & _ & ->)];
    [done|].
  unfold teacher_slots_unique in *. simpl.
  rewrite filter_app, fmap_app, filter_cons_True by done.
  apply NoDup_app. split_and!; [done| |apply NoDup_singleton].
  intros x [r [-> Hr]]%list_elem_of_fmap [Heq|[]%elem_of_nil]%elem_of_cons.
  apply list_elem_of_filter in Hr as [Hst Hr].
  unfold existed_same in Hsame. rewrite head_filter_None in Hsame.
  apply (Hsame r Hr). unfold teacher_slot in Heq. simpl in Heq.
  split; [by simplify_eq|]. destruct (LabRequest.status r); auto. done.
Qed.

(** ** Bounds on the suggestions *)

Section search_bounds.
Context (s : Store) (req : LabRequest.t) (subject_group : string)
        (active_labs : list Lab.t) (max_period top_k : Z).

Local Abbreviation K := (Z.to_nat top_k).

Lemma within_go_on suggestions found1 found2 middle result :
  within K suggestions found1 middle →
  enough top_k middle = false →
  within K middle found2 result →
  within K suggestions (found1 ++ found2) result.
Proof.
  intros [Hlen1 Hin1] Hless%not_enough_iff [Hlen2 Hin2]. split; [lia|].
  intros x [Hx|Hx]%Hin2; [|right; apply elem_of_app; by right].
  destruct (Hin1 x Hx); [by left|right; apply elem_of_app; by left].
Qed.

Lemma within_break suggestions found1 found2 result :
  within K suggestions found1 result →
  within K suggestions (found1 ++ found2) result.
Proof.
  intros [Hlen Hin]. split; [done|].
  intros x [?|?]%Hin; [by left|right; apply elem_of_app; by left].
Qed.

Lemma period_loop_within d ps suggestions :
  within K suggestions
    (ps ≫= λ p,
       if decide (d = LabRequest.date req ∧ p = LabRequest.period req) then []
       else option_list (candidate s subject_group active_labs d p))
    (period_loop s req subject_group active_labs top_k d ps suggestions).
Proof.
  revert suggestions. induction ps as [|p ps IH]; intros suggestions.
  { split; [simpl; lia|]. by left. }
  rewrite bind_cons. simpl.
  case_bool_decide as Hown.
  { rewrite decide_True by done. apply IH. }
  rewrite decide_False by done. unfold candidate at 1.
  destruct (free_labs_at s subject_group active_labs d p) as [|lab free] eqn:Hfree.
  { simpl. destruct (enough top_k suggestions) eqn:Hfull; [|apply IH].
    split; [lia|]. by left. }
  set (c := mkSuggestion d p _).
  assert (within K suggestions (option_list (Some c)) (suggestions ++ [c])) as Hc.
  { split; [rewrite length_app; simpl; lia|].
    intros x [?|?]%elem_of_app; [by left|by right]. }
  destruct (enough top_k (suggestions ++ [c])) eqn:Hfull.
  - by apply within_break.
  - eapply within_go_on; [exact Hc|done|apply IH].
Qed.

Lemma sign_loop_within delta_days signs suggestions result :
  sign_loop s req subject_group active_labs max_period top_k delta_days signs
    suggestions = Returned result →
  within K suggestions
    (signs ≫= λ sign,
       qualifying_on s req subject_group active_labs max_period
         (LabRequest.date req + sign * delta_days))
    result.
Proof.
  revert suggestions. induction signs as [|sign signs IH]; intros suggestions.
  { intros [= <-]. split; [simpl; lia|]. by left. }
  rewrite bind_cons. simpl.
  destruct (date_add _ _) as [d|] eqn:Hd; [|done].
  apply date_add_Returned in Hd as [-> _].
  pose proof (period_loop_within (LabRequest.date req + sign * delta_days)
                (py_range 1 (max_period + 1)) suggestions) as Hp.
  fold (qualifying_on s req subject_group active_labs max_period
          (LabRequest.date req + sign * delta_days)) in Hp.
  destruct (enough top_k (period_loop _ _ _ _ _ _ _ _)) eqn:Hfull.
  - intros [= <-]. by apply within_break.
  - intros Hres%IH. by eapply within_go_on.
Qed.

Lemma day_loop_within deltas suggestions result :
  day_loop s req subject_group active_labs max_period top_k deltas suggestions
    = Returned result →
  within K suggestions
    (deltas ≫= λ delta_days,
       (if delta_days =? 0 then [0] else [-1; 1]) ≫= λ sign,
         qualifying_on s req subject_group active_labs max_period
           (LabRequest.date req + sign * delta_days))
    result.
Proof.
  revert suggestions. induction deltas as [|delta deltas IH]; intros suggestions.
  { intros [= <-]. split; [simpl; lia|]. by left. }
  rewrite bind_cons. cbn [day_loop].
  destruct (sign_loop _ _ _ _ _ _ _ _ _) as [middle|] eqn:Hsigns; [|done].
  apply sign_loop_within in Hsigns.
  destruct (enough top_k middle) eqn:Hfull.
  - intros [= <-]. by apply within_break.
  - intros Hres%IH. by eapply within_go_on.
Qed.
End search_bounds.

Lemma candidate_Some s g d p sg :
  candidate s g (active_labs_in s g) d p = Some sg →
  sg_date sg = d ∧ sg_period sg = p ∧
  (1 ≤ length (free_lab_names sg) ≤ 3)%nat ∧
  ∀ name, name ∈ free_lab_names sg →
    ∃ lab, free_for s g d p lab ∧ Lab.name lab = name.
Proof.
  unfold candidate.
  destruct (free_labs_at s g (active_labs_in s g) d p) as [|lab free] eqn:Hfree;
    [done|].
  intros [= <-]. simpl. split_and!; [done..| | |].
  - lia.
  - rewrite length_take. lia.
  - intros name Hname.
    assert (name ∈ Lab.name <$> free_labs_at s g (active_labs_in s g) d p) as Hin.
    { rewrite Hfree, fmap_cons.
      apply elem_of_cons in Hname as [->|Hname]; [left|right].
      by eapply elem_of_sublist; [|apply sublist_take]. }
    apply list_elem_of_fmap in Hin as (l & -> & Hl).
    exists l. split; [|done]. apply free_for_iff.
    by apply list_elem_of_filter in Hl as [? ?].
Qed.

(** X16.  Whatever its arguments, the search returns at most
    [max(top_k, 1)] suggestions.  Each lies within [day_window] days of the
    request's date, has a period in [1..max_period], is not the request's
    own slot, and lists between one and three names, each the name of an
    active lab of the group without reservation at that date and period.
    With a negative window or no period there is no suggestion. *)
Theorem suggestions_bounds s req_id req max_period day_window top_k diag :
  get_request s req_id = Some req →
  ai_explain_conflict_and_suggest s req_id max_period day_window top_k =
    Returned (Some diag) →
  (length (diag_suggestions diag) ≤ Nat.max (Z.to_nat top_k) 1)%nat ∧
  (∀ sg, sg ∈ diag_suggestions diag →
     Z.abs (sg_date sg - LabRequest.date req) ≤ day_window ∧
     1 ≤ sg_period sg ≤ max_period ∧
     (sg_date sg, sg_period sg) ≠ (LabRequest.date req, LabRequest.period req) ∧
     (1 ≤ length (free_lab_names sg) ≤ 3)%nat ∧
     ∀ name, name ∈ free_lab_names sg →
       ∃ lab, free_for s (_infer_req_group s req) (sg_date sg) (sg_period sg) lab ∧
              Lab.name lab = name) ∧
  (day_window < 0 ∨ max_period < 1 → diag_suggestions diag = []).
Proof.
  intros Hreq. unfold ai_explain_conflict_and_suggest. rewrite Hreq.
  set (g := _infer_req_group s req).
  destruct (day_loop s req g (active_labs_in s g) max_period top_k
              (py_range 0 (day_window + 1)) []) as [suggestions|] eqn:Hloop;
    [|done].
  intros [= <-]. simpl.
  destruct (day_loop_within s req g (active_labs_in s g) max_period top_k
              (py_range 0 (day_window + 1)) [] suggestions Hloop) as [Hlen Hin].
  assert (∀ sg,
    sg ∈ suggestions →
    Z.abs (sg_date sg - LabRequest.date req) ≤ day_window ∧
    1 ≤ sg_period sg ≤ max_period ∧
    (sg_date sg, sg_period sg) ≠ (LabRequest.date req, LabRequest.period req) ∧
    (1 ≤ length (free_lab_names sg) ≤ 3)%nat ∧
    ∀ name, name ∈ free_lab_names sg →
      ∃ lab, free_for s g (sg_date sg) (sg_period sg) lab ∧ Lab.name lab = name)
    as Hall.
  { intros sg [[]%elem_of_nil|Hsg]%Hin.
    apply list_elem_of_bind in Hsg as (delta & Hsg & Hdelta%elem_of_py_range).
    apply list_elem_of_bind in Hsg as (sign & Hsg & Hsign).
    unfold qualifying_on in Hsg.
    apply list_elem_of_bind in Hsg as (p & Hsg & Hp%elem_of_py_range).
    destruct (decide (_ ∧ _)) as [|Hown]; [by apply elem_of_nil in Hsg|].
    destruct (candidate s g (active_labs_in s g) _ p) as [c|] eqn:Hc;
      [|by apply elem_of_nil in Hsg].
    apply list_elem_of_singleton in Hsg as ->.
    apply candidate_Some in Hc as (-> & -> & Hnames & Hfree).
    assert (Z.abs (sign * delta) ≤ day_window) as Habs.
    { destruct (Z.eqb_spec delta 0).
      - apply list_elem_of_singleton in Hsign as ->. lia.
      - apply elem_of_cons in Hsign as [->|Hsign]; [lia|].
        apply list_elem_of_singleton in Hsign as ->. lia. }
    replace (LabRequest.date req + sign * delta - LabRequest.date req)
      with (sign * delta) by lia.
    split; [done|]. split; [lia|]. split; [|done].
    intros [= ? ?]. by apply Hown. }
  split_and!; [simpl in Hlen; lia|done|].
  intros Hempty.
  destruct suggestions as [|sg l]; [done|].
  destruct (Hall sg) as (? & ? & _); [left|]. lia.
Qed.

(** X17.  Over HTTP the suggestions are asked with [max_period = 10],
    [day_window = 7] and [top_k = 3].  For an administrator and for the
    teacher who owns the request, the call either fails with the
    [OverflowError] of the search or answers with a diagnosis whose
    suggestions are the first three qualifying candidates of the search
    order; it answers whenever the seven days before and after the
    request's date are dates of the calendar.  Any other user is refused
    and gets no data. *)
Theorem api_ai_conflict_answer u req_id s req :
  get_request s req_id = Some req →
  (User.role u = "admin" ∨ LabRequest.teacher_id req = User.id u →
   (api_ai_conflict u req_id s = ApiError ∨
    ∃ diag, api_ai_conflict u req_id s = ApiData (Some diag) ∧
            diag_suggestions diag = take 3 (qualifying s req 10 7)) ∧
   (in_calendar (LabRequest.date req - 7) →
    in_calendar (LabRequest.date req + 7) →
    ∃ diag, api_ai_conflict u req_id s = ApiData (Some diag) ∧
            diag_suggestions diag = take 3 (qualifying s req 10 7))) ∧
  (User.role u ≠ "admin" → LabRequest.teacher_id req ≠ User.id u →
   api_ai_conflict u req_id s = ApiForbidden).
Proof.
  intros Hreq. unfold api_ai_conflict. rewrite Hreq. split.
  - intros Hallowed.
    assert (bool_decide (User.role u ≠ "admin")
            && bool_decide (LabRequest.teacher_id req ≠ User.id u) = false) as ->.
    { apply andb_false_iff. rewrite !bool_decide_eq_false.
      destruct Hallowed; [left|right]; by intros ?. }
    assert (∀ data,
      ai_explain_conflict_and_suggest s req_id 10 7 3 = Returned data →
      ∃ diag, data = Some diag ∧
              diag_suggestions diag = take 3 (qualifying s req 10 7)) as Hfirst.
    { intros data Hdata.
      apply (suggestions_first_top_k s req_id req) in Hdata; [|lia|done].
      destruct data as [diag|]; [|done]. exists diag. split; [done|].
      by injection Hdata. }
    split.
    + destruct (ai_explain_conflict_and_suggest s req_id 10 7 3) as [data|];
        [|by left].
      right. destruct (Hfirst data eq_refl) as (diag & -> & Hdiag).
      by exists diag.
    + intros Hlo Hhi.
      destruct (explain_returns s req_id req 10 7 3 Hreq) as [diag Hdiag];
        [by right|].
      rewrite Hdiag. destruct (Hfirst _ Hdiag) as (diag' & [= <-] & Hsugg).
      by exists diag.
  - intros Hrole Howner. by rewrite !bool_decide_eq_true_2.
Qed.

(** ** Inactive labs *)

Lemma only_active_added_refl s : only_active_added s s.
Proof. split; [done|]. intros r Hr. by left. Qed.

Lemma only_active_added_trans s1 s2 s3 :
  only_active_added s1 s2 → only_active_added s2 s3 → only_active_added s1 s3.
Proof.
  intros [Hl12 H12] [Hl23 H23]. split; [congruence|].
  intros r [Hr|(lab & Hlab & ? & ?)]%H23; [by apply H12|].
  right. exists lab. by rewrite <-Hl12.
Qed.

Lemma only_active_added_sublist s s' :
  labs s' = labs s → reservations s' `sublist_of` reservations s →
  only_active_added s s'.
Proof.
  intros Hl Hsub. split; [done|]. intros r Hr. left.
  by eapply elem_of_sublist.
Qed.

Lemma only_active_added_turn s req : only_active_added s (turn s req).
Proof.
  unfold turn.
  destruct (request_reservation s (LabRequest.id req)) eqn:Hres;
    [apply only_active_added_refl|].
  destruct (attempt_cases req s Hres) as [->|(lab & (Hin & Hact & _) & ->)].
  - by apply only_active_added_sublist.
  - split; [done|]. simpl.
    intros r [Hr|Hr%list_elem_of_singleton]%elem_of_app; [by left|].
    subst r. right. by exists lab.
Qed.

Lemma only_active_added_loop rs s : only_active_added s (foldl turn s rs).
Proof.
  apply (foldl_invariant turn (only_active_added s));
    [|apply only_active_added_refl].
  intros s0 req Hs0. eapply only_active_added_trans; [done|].
  apply only_active_added_turn.
Qed.

Lemma only_active_added_assign s req :
  only_active_added s (_assign_reservation_for_request req s).2.
Proof.
  destruct (assign_cases req s) as [r Hr|Hnone Hall|lab Hnone Hlab Hocc]; simpl.
  - apply only_active_added_refl.
  - by apply only_active_added_sublist.
  - apply elem_of_active_labs_in in Hlab as (Hin & Hact & _).
    split; [done|]. simpl.
    intros r [Hr|Hr%list_elem_of_singleton]%elem_of_app; [by left|].
    subst r. right. by exists lab.
Qed.

Lemma only_active_added_manual_assign s req_id lab_id_str :
  only_active_added s (manual_assign req_id lab_id_str s).2.
Proof.
  unfold manual_assign.
  destruct (get_request s req_id) as [lab_request|];
    [|apply only_active_added_refl].
  destruct lab_id_str as [| |lab_id]; [apply only_active_added_refl..|].
  destruct (get_lab s lab_id) as [lab|] eqn:Hlab;
    [|apply only_active_added_refl].
  apply get_lab_Some in Hlab as [Hin _].
  destruct (Lab.is_active lab) eqn:Hact; simpl; [|apply only_active_added_refl].
  case_decide; [apply only_active_added_refl|].
  destruct (slot_reservation s _ _ _); [apply only_active_added_refl|].
  split; [done|]. simpl.
  intros r [Hr|Hr%list_elem_of_singleton]%elem_of_app.
  - left. eapply elem_of_sublist; [done|]. apply remove_first_sublist.
  - subst r. right. by exists lab.
Qed.

Lemma only_active_added_update_request_status s req_id new_status :
  only_active_added s (update_request_status req_id new_status s).2.
Proof.
  unfold update_request_status.
  destruct (get_request s req_id) as [lab_request|];
    [|apply only_active_added_refl].
  destruct (parse_status new_status) as [st|]; [|apply only_active_added_refl].
  pose proof (only_active_added_assign s lab_request) as Ha.
  destruct st; simpl;
    try (apply only_active_added_sublist; [done|apply remove_first_sublist]).
  by destruct (_assign_reservation_for_request lab_request s) as [[] ?].
Qed.

(** X18.  No operation reserves a lab that is switched off, and none
    touches the lab table: after a single assignment, a batch run, the
    backfill, a manual assignment or a change of status, every reservation
    that was not there before is for a lab that is active. *)
Theorem inactive_lab_never_reserved s :
  (∀ req, only_active_added s (_assign_reservation_for_request req s).2) ∧
  only_active_added s (run_auto_schedule s).2 ∧
  only_active_added s (ensure_reservations_for_scheduled_requests s).1 ∧
  (∀ req_id lab_id_str,
     only_active_added s (manual_assign req_id lab_id_str s).2) ∧
  (∀ req_id new_status,
     only_active_added s (update_request_status req_id new_status s).2).
Proof.
  split_and!.
  - apply only_active_added_assign.
  - unfold run_auto_schedule, schedule_loop. simpl.
    rewrite schedule_loop_turns. apply only_active_added_loop.
  - unfold ensure_reservations_for_scheduled_requests.
    rewrite backfill_loop_turns. apply only_active_added_loop.
  - apply only_active_added_manual_assign.
  - apply only_active_added_update_request_status.
Qed.

(** ** Administration of labs *)

Lemma head_filter_fmap {A} (P : A → Prop) `{!∀ x, Decision (P x)}
    (f : A → A) (l : list A) :
  (∀ x, P (f x) ↔ P x) → head (filter P (f <$> l)) = f <$> head (filter P l).
Proof.
  intros Hf. induction l as [|x l IH]; [done|].
  rewrite fmap_cons, !filter_cons.
  destruct (decide (P x)) as [Hx|Hx].
  - by rewrite decide_True by by apply Hf.
  - by rewrite decide_False by by rewrite Hf.
Qed.

Lemma NoDup_fmap_eq {A B} (f : A → B) (l : list A) x y :
  NoDup (f <$> l) → x ∈ l → y ∈ l → f x = f y → x = y.
Proof.
  induction l as [|z l IH]; intros Hnd Hx Hy Heq.
  { by apply elem_of_nil in Hx. }
  rewrite fmap_cons in Hnd. apply NoDup_cons in Hnd as [Hz Hnd].
  apply elem_of_cons in Hx as [->|Hx]; apply elem_of_cons in Hy as [->|Hy].
  - done.
  - destruct Hz. rewrite Heq. by apply list_elem_of_fmap_2.
  - destruct Hz. rewrite <-Heq. by apply list_elem_of_fmap_2.
  - by apply IH.
Qed.

Lemma fmap_id_elem_of {A} (f : A → A) (l : list A) :
  (∀ x, x ∈ l → f x = x) → f <$> l = l.
Proof.
  induction l as [|x l IH]; intros Hf; [done|].
  rewrite fmap_cons, Hf, IH; [done| |left].
  intros y Hy. apply Hf. by right.
Qed.

Lemma get_lab_toggled s lab j :
  get_lab
    (with_labs
       ((λ l, if decide (Lab.id l = Lab.id lab)
              then lab_with_is_active (negb (Lab.is_active lab)) l else l)
          <$> labs s) s) j =
  (λ l, if decide (Lab.id l = Lab.id lab)
        then lab_with_is_active (negb (Lab.is_active lab)) l else l)
    <$> get_lab s j.
Proof.
  unfold get_lab. simpl. apply (head_filter_fmap (λ l, Lab.id l = j)).
  intros l. by destruct (decide (Lab.id l = Lab.id lab)).
Qed.

(** X19.  Switching a lab off and on.  With unique lab keys a toggle flips
    the flag of that lab and of no other, a second toggle restores the
    store, and once an active lab is switched off no later operation
    reserves it: every reservation for it was there before. *)
Theorem admin_toggle_lab_off_and_back i s lab :
  NoDup (Lab.id <$> labs s) →
  get_lab s i = Some lab →
  get_lab (admin_toggle_lab i s).2 i =
    Some (lab_with_is_active (negb (Lab.is_active lab)) lab) ∧
  (∀ j, j ≠ i → get_lab (admin_toggle_lab i s).2 j = get_lab s j) ∧
  (admin_toggle_lab i (admin_toggle_lab i s).2).2 = s ∧
  (Lab.is_active lab = true →
   ∀ s2 r, only_active_added (admin_toggle_lab i s).2 s2 →
     r ∈ reservations s2 → Reservation.lab_id r = i → r ∈ reservations s).
Proof.
  intros Hnd Hget. destruct (get_lab_Some _ _ _ Hget) as [Hin Hid].
  assert (get_lab (admin_toggle_lab i s).2 i =
          Some (lab_with_is_active (negb (Lab.is_active lab)) lab)) as Hget1.
  { unfold admin_toggle_lab. rewrite Hget. simpl.
    rewrite get_lab_toggled, Hget. simpl. by rewrite decide_True. }
  split_and!; [done| | |].
  - intros j Hne. unfold admin_toggle_lab. rewrite Hget. simpl.
    rewrite get_lab_toggled.
    destruct (get_lab s j) as [l|] eqn:Hj; [|done]. simpl.
    apply get_lab_Some in Hj as [_ Hj].
    rewrite decide_False; [done|congruence].
  - unfold admin_toggle_lab at 1. rewrite Hget1.
    unfold admin_toggle_lab. rewrite Hget. simpl.
    destruct s as [ls us ws qs rs]. unfold with_labs. simpl in *. f_equal.
    rewrite <-list_fmap_compose. apply fmap_id_elem_of.
    intros l Hl. simpl.
    destruct (decide (Lab.id l = Lab.id lab)) as [Heq|Hne]; simpl.
    + rewrite decide_True by done.
      assert (l = lab) as -> by by apply (NoDup_fmap_eq Lab.id ls).
      destruct lab as [? ? ? ? []]; done.
    + by rewrite decide_False.
  - intros Hact s2 r [Hlabs Hadded] Hr Hri.
    destruct (Hadded r Hr) as [Hold|(lab' & Hlab' & Hid' & Hact')].
    { revert Hold. unfold admin_toggle_lab. by rewrite Hget. }
    revert Hlab'. unfold admin_toggle_lab. rewrite Hget. simpl.
    intros (l & -> & Hl)%list_elem_of_fmap.
    destruct (decide (Lab.id l = Lab.id lab)) as [Heq|Hne].
    + rewrite Hact in Hact'. done.
    + destruct Hne. congruence.
Qed.

Lemma get_lab_app s lab i l :
  get_lab s i = Some l → get_lab (with_labs (labs s ++ [lab]) s) i = Some l.
Proof.
  unfold get_lab. simpl. rewrite filter_app.
  by destruct (filter (λ l, Lab.id l = i) (labs s)).
Qed.

(** X20.  Adding a lab.  The form is accepted exactly when both fields are
    filled in and no lab carries the name; lab names stay unique, every
    lab that could be looked up still is, and the lab that was added is at
    once among the active labs of its group.  A refused form changes
    nothing. *)
Theorem admin_labs_adds name g s :
  NoDup (Lab.name <$> labs s) →
  ((admin_labs (LabsPOST name g) s).1 = LabAdded ↔
     name ≠ "" ∧ g ≠ "" ∧ name ∉ Lab.name <$> labs s) ∧
  NoDup (Lab.name <$> labs (admin_labs (LabsPOST name g) s).2) ∧
  (∀ i lab, get_lab s i = Some lab →
     get_lab (admin_labs (LabsPOST name g) s).2 i = Some lab) ∧
  ((admin_labs (LabsPOST name g) s).1 = LabAdded →
     ∃ lab, lab ∈ active_labs_in (admin_labs (LabsPOST name g) s).2 g ∧
            Lab.name lab = name ∧ Lab.capacity lab = 40) ∧
  ((admin_labs (LabsPOST name g) s).1 ≠ LabAdded →
     (admin_labs (LabsPOST name g) s).2 = s).
Proof.
  intros Hnd. unfold admin_labs.
  destruct (decide (name = "")) as [->|Hname].
  { simpl. split_and!; [|done..]. split; [done|]. by intros (? & _). }
  rewrite (bool_decide_eq_false_2 (name = "")) by done.
  destruct (decide (g = "")) as [->|Hg].
  { simpl. split_and!; [|done..]. split; [done|]. by intros (_ & ? & _). }
  rewrite (bool_decide_eq_false_2 (g = "")) by done. simpl.
  destruct (head (filter (λ l, Lab.name l = name) (labs s))) as [l|] eqn:Hhead.
  - apply head_filter_Some in Hhead as [Hl Hn]. simpl.
    split_and!; [|done..]. split; [done|]. intros (_ & _ & Hfresh).
    destruct Hfresh. rewrite <-Hn. by apply list_elem_of_fmap_2.
  - rewrite head_filter_None in Hhead.
    assert (name ∉ Lab.name <$> labs s) as Hfresh.
    { intros (l & Hn & Hl)%list_elem_of_fmap. by apply (Hhead l). }
    simpl. split_and!.
    + done.
    + rewrite fmap_app. apply NoDup_app. split_and!; [done| |apply NoDup_singleton].
      intros x Hx Hx'%list_elem_of_singleton. by subst x.
    + intros i lab. apply get_lab_app.
    + intros _. exists (Lab.mk (next_id (Lab.id <$> labs s)) name g 40 true).
      split; [|done].
      apply elem_of_active_labs_in. simpl. split_and!; [|done..].
      apply elem_of_app. right. by left.
    + done.
Qed.

Lemma get_lab_deleted s lab i :
  i ≠ Lab.id lab →
  get_lab (with_labs (filter (λ l, Lab.id l ≠ Lab.id lab) (labs s)) s) i =
  get_lab s i.
Proof.
  intros Hne. unfold get_lab. simpl. f_equal.
  rewrite list_filter_filter. apply filter_ext_elem_of.
  intros l _. split; [by intros [? _]|]. intros Hl. split; [done|congruence].
Qed.

Lemma group_of_lab_ref_deleted s lab o :
  o ≠ Some (Lab.id lab) →
  group_of_lab_ref
    (with_labs (filter (λ l, Lab.id l ≠ Lab.id lab) (labs s)) s) o =
  group_of_lab_ref s o.
Proof.
  intros Ho. unfold group_of_lab_ref. destruct o as [i|]; [|done]. simpl.
  rewrite get_lab_deleted; [done|congruence].
Qed.

(** X21.  Deleting a lab never breaks a reference.  The lab is removed only
    when no reservation, no teacher and no request names it; in every
    case the lab of each reservation and each preference is looked up as
    before, every request resolves to the same group, and group respect is
    kept.  Reservations, requests and users are not touched. *)
Theorem admin_delete_lab_keeps_references lab_id s :
  (∀ i, (∃ r, r ∈ reservations s ∧ Reservation.lab_id r = i) ∨
        (∃ u, u ∈ users s ∧ User.preferred_lab_id u = Some i) ∨
        (∃ q, q ∈ lab_requests s ∧ LabRequest.preferred_lab_id q = Some i) →
     get_lab (admin_delete_lab lab_id s).2 i = get_lab s i) ∧
  (∀ q, q ∈ lab_requests s →
     _infer_req_group (admin_delete_lab lab_id s).2 q = _infer_req_group s q) ∧
  (group_respect s → group_respect (admin_delete_lab lab_id s).2) ∧
  ((admin_delete_lab lab_id s).1 = LabDeleted →
     get_lab (admin_delete_lab lab_id s).2 lab_id = None) ∧
  reservations (admin_delete_lab lab_id s).2 = reservations s ∧
  lab_requests (admin_delete_lab lab_id s).2 = lab_requests s ∧
  users (admin_delete_lab lab_id s).2 = users s.
Proof.
  unfold admin_delete_lab.
  destruct (get_lab s lab_id) as [lab|] eqn:Hget; [|done].
  destruct (head (filter (λ r, Reservation.lab_id r = Lab.id lab) _))
    eqn:Hres; [done|].
  destruct (head (filter (λ u, User.preferred_lab_id u = Some (Lab.id lab)) _))
    eqn:Husers; [done|].
  destruct (head (filter (λ r, LabRequest.preferred_lab_id r = Some (Lab.id lab)) _))
    eqn:Hreqs; [done|].
  rewrite head_filter_None in Hres. rewrite head_filter_None in Husers.
  rewrite head_filter_None in Hreqs. simpl.
  set (s' := with_labs _ s).
  assert (∀ q, q ∈ lab_requests s →
            _infer_req_group s' q = _infer_req_group s q) as Hinfer.
  { intros q Hq. unfold _infer_req_group.
    unfold s'. rewrite group_of_lab_ref_deleted by by apply Hreqs.
    change (get_user (with_labs ?ls s)) with (get_user s).
    destruct (get_user s (LabRequest.teacher_id q)) as [u|] eqn:Hu; [|done].
    simpl. apply (head_filter_Some (λ u, User.id u = _)) in Hu as [Hu _].
    by rewrite group_of_lab_ref_deleted by by apply Husers. }
  assert (∀ i, (∃ r, r ∈ reservations s ∧ Reservation.lab_id r = i) →
            get_lab s' i = get_lab s i) as Hlabs.
  { intros i (r & Hr & <-). apply get_lab_deleted. by apply Hres. }
  split_and!; [|done| | |done..].
  - intros i [Hr|[(u & Hu & Hp)|(q & Hq & Hp)]]; [by apply Hlabs|..];
      apply get_lab_deleted; intros ->.
    + by apply (Husers u).
    + by apply (Hreqs q).
  - intros Hs r q Hr Hq.
    change (get_request s') with (get_request s) in Hq.
    destruct (Hs r q Hr Hq) as (l & Hl & Hid & Hg).
    exists l. split_and!; [|done|].
    + apply list_elem_of_filter. split; [|done].
      rewrite Hid. by apply Hres.
    + rewrite Hinfer; [done|]. by apply get_request_Some in Hq as [? _].
  - intros _. apply get_lab_Some in Hget as [_ <-].
    unfold get_lab. simpl. apply head_filter_None.
    by intros l [? _]%list_elem_of_filter.
Qed.

(** ** Administration of weeks *)

Lemma get_week_Some s i w :
  get_week s i = Some w → w ∈ weeks s ∧ WeekSchedule.id w = i.
Proof. apply (head_filter_Some (λ w, WeekSchedule.id w = i)). Qed.

Lemma get_week_switched_off s w j :
  get_week
    (with_weeks
       ((λ x, if decide (WeekSchedule.id x = WeekSchedule.id w)
              then week_with_is_active false x else x) <$> weeks s) s) j =
  (λ x, if decide (WeekSchedule.id x = WeekSchedule.id w)
        then week_with_is_active false x else x) <$> get_week s j.
Proof.
  unfold get_week. simpl. apply (head_filter_fmap (λ x, WeekSchedule.id x = j)).
  intros x. by destruct (decide (WeekSchedule.id x = WeekSchedule.id w)).
Qed.

Lemma get_week_deleted s w j :
  get_week
    (with_weeks (filter (λ x, WeekSchedule.id x ≠ WeekSchedule.id w) (weeks s)) s)
    j =
  if decide (j = WeekSchedule.id w) then None else get_week s j.
Proof.
  unfold get_week. simpl. case_decide as Hj.
  - apply head_filter_None. intros x [? _]%list_elem_of_filter. congruence.
  - f_equal. rewrite list_filter_filter. apply filter_ext_elem_of.
    intros x _. split; [by intros [? _]|]. intros Hx. split; [done|congruence].
Qed.

(** X22.  Deleting a week closes it for submissions and keeps what refers
    to it.  After the call no submission for that week is accepted,
    whoever sends it and whatever else the form holds.  A week that some
    request refers to is not removed but switched off, with its dates
    unchanged; the other weeks, the requests and the reservations are as
    before. *)
Theorem deleted_week_takes_no_submission week_id s u form now :
  RequestForm.week_id_str form = IsInt week_id →
  (new_request u (POST form) now (admin_delete_week week_id s).2).1 ≠ Submitted ∧
  (new_request u (POST form) now (admin_delete_week week_id s).2).2 =
    (admin_delete_week week_id s).2 ∧
  (∀ q w, q ∈ lab_requests s → LabRequest.week_id q = Some week_id →
     get_week s week_id = Some w →
     get_week (admin_delete_week week_id s).2 week_id =
       Some (week_with_is_active false w)) ∧
  (∀ j, j ≠ week_id → get_week (admin_delete_week week_id s).2 j = get_week s j) ∧
  lab_requests (admin_delete_week week_id s).2 = lab_requests s ∧
  reservations (admin_delete_week week_id s).2 = reservations s.
Proof.
  intros Hform.
  assert (∀ w, get_week (admin_delete_week week_id s).2 week_id = Some w →
               WeekSchedule.is_active w = false) as Hclosed.
  { intros w. unfold admin_delete_week.
    destruct (get_week s week_id) as [w0|] eqn:Hget; simpl; [|by rewrite Hget].
    destruct (get_week_Some _ _ _ Hget) as [_ Hid].
    destruct (head (filter _ (lab_requests s))); simpl.
    - rewrite get_week_switched_off, Hget. simpl.
      rewrite decide_True by done. by intros [= <-].
    - rewrite get_week_deleted. by rewrite decide_True. }
  split_and!.
  - destruct (new_request_cases u (POST form) now (admin_delete_week week_id s).2)
      as [[? _]|(form' & g & d & w & p & [= <-] & _ & _ & _ & Hdate & _)]; [done|].
    apply submission_date_inr in Hdate
      as [(Hblank & _)|(i & week & wd & Hi & Hweek & _ & Hact & _)]; [congruence|].
    rewrite Hform in Hi. injection Hi as <-.
    rewrite (Hclosed week Hweek) in Hact. done.
  - destruct (new_request_cases u (POST form) now (admin_delete_week week_id s).2)
      as [[_ ?]|(form' & g & d & w & p & [= <-] & _ & _ & _ & Hdate & _)]; [done|].
    apply submission_date_inr in Hdate
      as [(Hblank & _)|(i & week & wd & Hi & Hweek & _ & Hact & _)]; [congruence|].
    rewrite Hform in Hi. injection Hi as <-.
    rewrite (Hclosed week Hweek) in Hact. done.
  - intros q w Hq Hweek Hget. unfold admin_delete_week. rewrite Hget.
    destruct (get_week_Some _ _ _ Hget) as [_ Hid].
    destruct (head (filter _ (lab_requests s))) eqn:Hused; simpl.
    + rewrite get_week_switched_off, Hget. simpl. by rewrite decide_True.
    + rewrite head_filter_None in Hused. destruct (Hused q Hq). congruence.
  - intros j Hne. unfold admin_delete_week.
    destruct (get_week s week_id) as [w0|] eqn:Hget; [|done].
    destruct (get_week_Some _ _ _ Hget) as [_ Hid].
    destruct (head (filter _ (lab_requests s))); simpl.
    + rewrite get_week_switched_off.
      destruct (get_week s j) as [x|] eqn:Hj; [|done]. simpl.
      apply get_week_Some in Hj as [_ Hj].
      rewrite decide_False; [done|congruence].
    + rewrite get_week_deleted. rewrite decide_False; [done|congruence].
  - unfold admin_delete_week.
    destruct (get_week s week_id); [|done].
    by destruct (head (filter _ (lab_requests s))).
  - unfold admin_delete_week.
    destruct (get_week s week_id); [|done].
    by destruct (head (filter _ (lab_requests s))).
Qed.

(** ** Deletion of a teacher *)

Lemma remove_first_filter {A} (P : A → Prop) `{!∀ x, Decision (P x)}
    (l : list A) :
  (length (filter P l) ≤ 1)%nat → remove_first P l = filter (λ x, ¬ P x) l.
Proof.
  induction l as [|y l IH]; simpl; [done|].
  rewrite !filter_cons. destruct (decide (P y)) as [Hy|Hy]; simpl.
  - intros Hlen. rewrite decide_False by by intros ?.
    symmetry. apply filter_all. apply Forall_forall. intros x Hx HP.
    assert (x ∈ filter P l) as Hin by by apply list_elem_of_filter.
    destruct (filter P l); [by apply elem_of_nil in Hin|simpl in Hlen; lia].
  - intros Hlen. rewrite decide_True by done. by rewrite IH.
Qed.

Lemma filter_sublist_mono {A} (P : A → Prop) `{!∀ x, Decision (P x)}
    (k l : list A) :
  k `sublist_of` l → filter P k `sublist_of` filter P l.
Proof.
  induction 1 as [|x k l Hkl IH|x k l Hkl IH]; [done|..];
    rewrite ?filter_cons; case_decide; try done.
  - by apply sublist_skip.
  - by apply sublist_cons.
Qed.

Lemma get_user_Some s i u : get_user s i = Some u → u ∈ users s ∧ User.id u = i.
Proof. apply (head_filter_Some (λ u, User.id u = i)). Qed.

(** The loop of the cascade removes the requests it is given and, when none
    of them has more than one reservation, all of their reservations. *)
Lemma cascade_loop L s :
  (∀ q, q ∈ L → (length (reservations_of s (LabRequest.id q)) ≤ 1)%nat) →
  labs (foldl delete_request_cascade s L) = labs s ∧
  users (foldl delete_request_cascade s L) = users s ∧
  weeks (foldl delete_request_cascade s L) = weeks s ∧
  lab_requests (foldl delete_request_cascade s L) =
    filter (λ q, LabRequest.id q ∉ LabRequest.id <$> L) (lab_requests s) ∧
  reservations (foldl delete_request_cascade s L) =
    filter (λ r, Reservation.request_id r ∉ LabRequest.id <$> L) (reservations s).
Proof.
  revert s. induction L as [|q L IH]; intros s Hone.
  { simpl. split_and!; [done..| |]; symmetry; apply filter_all, Forall_forall;
      intros x _; apply not_elem_of_nil. }
  rewrite foldl_turn.
  destruct (IH (delete_request_cascade s q)) as (Hl & Hu & Hw & Hq & Hr).
  { intros q' Hq'. unfold reservations_of. simpl.
    etrans; [|apply (Hone q'); by right].
    apply sublist_length, filter_sublist_mono, remove_first_sublist. }
  rewrite Hl, Hu, Hw, Hq, Hr. simpl. split_and!; [done..| |].
  - rewrite list_filter_filter. apply filter_ext_elem_of.
    intros x _. rewrite not_elem_of_cons. tauto.
  - rewrite remove_first_filter by (apply (Hone q); by left).
    rewrite list_filter_filter. apply filter_ext_elem_of.
    intros x _. rewrite not_elem_of_cons. tauto.
Qed.

Lemma cascade_users L s : users (foldl delete_request_cascade s L) = users s.
Proof.
  revert s. induction L as [|q L IH]; intros s; [done|].
  by rewrite foldl_turn, IH.
Qed.

(** X23.  Deleting a teacher takes the teacher's requests and their
    reservations along, and nothing else.  With unique request keys and at
    most one reservation per request, a successful call leaves exactly the
    users with another key, exactly the requests of other teachers, and
    exactly the reservations that do not serve a request of the deleted
    teacher; the labs are untouched, and the 1:1 binding and slot
    uniqueness are kept. *)
Theorem admin_delete_teacher_cascade cu tid s s' :
  NoDup (LabRequest.id <$> lab_requests s) →
  (∀ q, q ∈ lab_requests s →
     (length (reservations_of s (LabRequest.id q)) ≤ 1)%nat) →
  admin_delete_teacher cu tid s = (TeacherDeleted, s') →
  users s' = filter (λ u, User.id u ≠ tid) (users s) ∧
  lab_requests s' =
    filter (λ q, LabRequest.teacher_id q ≠ tid) (lab_requests s) ∧
  (∀ r, r ∈ reservations s' ↔
        r ∈ reservations s ∧
        ∀ q, q ∈ lab_requests s →
             LabRequest.id q = Reservation.request_id r →
             LabRequest.teacher_id q ≠ tid) ∧
  labs s' = labs s ∧
  (binding_ok s → binding_ok s') ∧
  (slot_unique s → slot_unique s').
Proof.
  intros Hnd Hweak. unfold admin_delete_teacher.
  destruct (get_user s tid) as [teacher|] eqn:Hget; [|done].
  destruct (get_user_Some _ _ _ Hget) as [_ Hid].
  case_decide; [done|]. case_decide; [done|]. intros [= <-].
  set (L := filter (λ r, LabRequest.teacher_id r = User.id teacher)
              (lab_requests s)).
  destruct (cascade_loop L s) as (Hl & Hu & Hw & Hq & Hr).
  { intros q [_ Hq]%list_elem_of_filter. by apply Hweak. }
  assert (∀ q, q ∈ lab_requests s →
            LabRequest.id q ∈ LabRequest.id <$> L ↔ LabRequest.teacher_id q = tid)
    as Hmine.
  { intros q Hin. split.
    - intros (q' & Heq & [Ht Hin']%list_elem_of_filter)%list_elem_of_fmap.
      assert (q = q') as -> by by apply (NoDup_fmap_eq LabRequest.id (lab_requests s)).
      congruence.
    - intros Ht. apply list_elem_of_fmap_2, list_elem_of_filter.
      split; [congruence|done]. }
  assert (∀ r, r ∈ reservations (foldl delete_request_cascade s L) ↔
            r ∈ reservations s ∧
            ∀ q, q ∈ lab_requests s →
                 LabRequest.id q = Reservation.request_id r →
                 LabRequest.teacher_id q ≠ tid) as Hrows.
  { intros r. rewrite Hr, list_elem_of_filter. split.
    - intros [Hnot Hin]. split; [done|]. intros q Hq' Heq Ht.
      apply Hnot. rewrite <-Heq. by apply Hmine.
    - intros [Hin Hall]. split; [|done].
      intros (q & Heq & [Ht Hq']%list_elem_of_filter)%list_elem_of_fmap.
      apply (Hall q); [done..|congruence]. }
  simpl. rewrite Hu, Hid. split_and!; [done| |done|done| |].
  - rewrite Hq. apply filter_ext_elem_of. intros q Hin.
    by rewrite (Hmine q Hin).
  - intros Hb q. simpl. rewrite Hq.
    intros [Hnot Hin]%list_elem_of_filter.
    rewrite <-(Hb q Hin). unfold reservations_of. simpl. rewrite Hr.
    f_equal. rewrite list_filter_filter. apply filter_ext_elem_of.
    intros r _. split; [by intros [? _]|]. intros Heq. split; [done|].
    by rewrite Heq.
  - rewrite !slot_unique_NoDup. simpl. rewrite Hr. intros Hs.
    eapply sublist_NoDup; [exact Hs|]. apply fmap_sublist, sublist_filter.
Qed.

(** X24.  The administrator's own account and every account that is not a
    teacher's cannot be deleted: with unique user keys, a call aimed at
    such an account is refused and changes nothing, and the account
    survives a call aimed at any key. *)
Theorem admin_delete_teacher_spares cu s u :
  NoDup (User.id <$> users s) →
  u ∈ users s →
  User.role u ≠ "teacher" ∨ User.id u = User.id cu →
  (admin_delete_teacher cu (User.id u) s = (NotATeacherAccount, s) ∨
   admin_delete_teacher cu (User.id u) s = (OwnAccount, s)) ∧
  ∀ tid, u ∈ users (admin_delete_teacher cu tid s).2.
Proof.
  intros Hnd Hu Hspared.
  assert (∀ tid teacher, get_user s tid = Some teacher → tid = User.id u →
            teacher = u) as Hsame.
  { intros tid teacher [Hin Hid]%get_user_Some ->.
    by apply (NoDup_fmap_eq User.id (users s)). }
  split.
  - unfold admin_delete_teacher.
    destruct (get_user s (User.id u)) as [teacher|] eqn:Hget.
    + rewrite (Hsame _ _ Hget eq_refl).
      case_decide; [by left|]. case_decide; [by right|].
      by destruct Hspared.
    + unfold get_user in Hget. rewrite head_filter_None in Hget.
      by destruct (Hget u Hu).
  - intros tid. unfold admin_delete_teacher.
    destruct (get_user s tid) as [teacher|] eqn:Hget; [|done].
    case_decide as Hrole; [done|]. case_decide as Hown; [done|]. simpl.
    rewrite cascade_users.
    apply list_elem_of_filter. split; [|done].
    intros Heq. destruct (get_user_Some _ _ _ Hget) as [_ Hid].
    assert (teacher = u) as -> by (apply (Hsame tid); congruence).
    by destruct Hspared.
Qed.

(** ** The explanation of a conflict *)

Lemma elem_of_get_occupied_details s d p g o :
  o ∈ _get_occupied_details s d p g ↔
  ∃ res lab req teacher,
    res ∈ reservations s ∧ Reservation.date res = d ∧ Reservation.period res = p ∧
    lab ∈ labs s ∧ Lab.id lab = Reservation.lab_id res ∧
    Lab.subject_group lab = g ∧
    req ∈ lab_requests s ∧ LabRequest.id req = Reservation.request_id res ∧
    teacher ∈ users s ∧ User.id teacher = LabRequest.teacher_id req ∧
    o = mkOccupied (Lab.name lab) (User.full_name teacher)
          (LabRequest.class_name req).
Proof.
  unfold _get_occupied_details. rewrite list_elem_of_bind. split.
  - intros (res & Ho & Hres).
    apply list_elem_of_bind in Ho as (lab & Ho & [Hlid Hlab]%list_elem_of_filter).
    apply list_elem_of_bind in Ho as (req & Ho & [Hrid Hreq]%list_elem_of_filter).
    apply list_elem_of_bind in Ho as (t & Ho & [Htid Ht]%list_elem_of_filter).
    case_decide as Hslot; [|by apply elem_of_nil in Ho].
    apply list_elem_of_singleton in Ho. destruct Hslot as (? & ? & ?).
    by exists res, lab, req, t.
  - intros (res & lab & req & t & Hres & Hd & Hp & Hlab & Hlid & Hg & Hreq & Hrid
            & Ht & Htid & ->).
    exists res. split; [|done].
    apply list_elem_of_bind. exists lab. split; [|by apply list_elem_of_filter].
    apply list_elem_of_bind. exists req. split; [|by apply list_elem_of_filter].
    apply list_elem_of_bind. exists t. split; [|by apply list_elem_of_filter].
    rewrite decide_True by done. by apply list_elem_of_singleton.
Qed.

(** X25.  The explanation of a failed assignment.  When the assignment of
    a request fails, the explanation that is then asked for the request
    returns a diagnosis whenever the window is negative or its first and
    last day are dates of the calendar.  A diagnosis that is returned
    reports the group the request resolved to; every entry of its list of
    occupied labs is a lab of that group with a reservation at the
    request's date and period; and, when each reservation has its request
    and teacher, every active lab of the group is in the list. *)
Theorem conflict_explained s req s' max_period day_window top_k :
  get_request s (LabRequest.id req) = Some req →
  _assign_reservation_for_request req s = (false, s') →
  (day_window < 0 ∨
     (in_calendar (LabRequest.date req - day_window) ∧
      in_calendar (LabRequest.date req + day_window)) →
   ∃ diag,
     ai_explain_conflict_and_suggest s' (LabRequest.id req)
       max_period day_window top_k = Returned (Some diag)) ∧
  ∀ diag,
    ai_explain_conflict_and_suggest s' (LabRequest.id req)
      max_period day_window top_k = Returned (Some diag) →
    diag_lab_group diag = _infer_req_group s req ∧
    (∀ o, o ∈ diag_occupied diag →
       ∃ lab, lab ∈ labs s ∧ Lab.name lab = occ_lab_name o ∧
              Lab.subject_group lab = _infer_req_group s req ∧
              reserved_at s (Lab.id lab) (LabRequest.date req)
                (LabRequest.period req)) ∧
    (references_ok s →
     ∀ lab, lab ∈ labs s → Lab.is_active lab = true →
       Lab.subject_group lab = _infer_req_group s req →
       ∃ o, o ∈ diag_occupied diag ∧ occ_lab_name o = Lab.name lab).
Proof.
  intros Hget Hassign.
  set (g := _infer_req_group s req).
  assert (s' = set_lab_group (LabRequest.id req) g s ∧
          ∀ lab, lab ∈ active_labs_in s g →
            Lab.id lab ∈ occupied_lab_ids s (LabRequest.date req)
                            (LabRequest.period req) g) as [-> Hall].
  { revert Hassign.
    destruct (assign_cases req s) as [r Hr|Hnone Hall|lab Hnone Hlab Hocc];
      [done| |done].
    by intros [= <-]. }
  assert (get_request (set_lab_group (LabRequest.id req) g s) (LabRequest.id req)
          = Some (LabRequest.with_lab_group g req)) as Hget'.
  { rewrite get_request_set_lab_group, Hget. simpl. by rewrite decide_True. }
  split.
  { intros Hwindow.
    by apply (explain_returns _ _ (LabRequest.with_lab_group g req)). }
  intros diag. unfold ai_explain_conflict_and_suggest. rewrite Hget'.
  assert (_infer_req_group (set_lab_group (LabRequest.id req) g s)
            (LabRequest.with_lab_group g req) = g) as ->.
  { unfold _infer_req_group at 1. simpl.
    by rewrite decide_False by apply infer_req_group_nonempty. }
  destruct (day_loop _ _ _ _ _ _ _ _) as [suggestions|]; [|done].
  intros [= <-]. simpl. split_and!; [done| |].
  - intros o (res & lab & q & t & Hres & Hd & Hp & Hlab & Hlid & Hg & _ & _
                & _ & _ & ->)%elem_of_get_occupied_details.
    exists lab. split_and!; [done..|]. by exists res.
  - intros Hrefs lab Hlab Hact Hg.
    assert (reserved_at s (Lab.id lab) (LabRequest.date req)
              (LabRequest.period req)) as (res & Hres & Hlid & Hd & Hp).
    { apply (elem_of_occupied_lab_ids s _ _ g); [done..|].
      apply Hall. by apply elem_of_active_labs_in. }
    destruct (Hrefs res Hres) as (q & u & [Hq Hqid]%get_request_Some
                                  & [Hu Huid]%get_user_Some).
    set (q' := if decide (LabRequest.id q = LabRequest.id req)
               then LabRequest.with_lab_group g q else q).
    exists (mkOccupied (Lab.name lab) (User.full_name u)
              (LabRequest.class_name q')).
    split; [|done]. apply elem_of_get_occupied_details.
    exists res, lab, q', u.
    assert (LabRequest.id q' = LabRequest.id q ∧
            LabRequest.teacher_id q' = LabRequest.teacher_id q) as [Hid' Ht'].
    { unfold q'. by case_decide. }
    split_and!; [done..| |congruence|done|congruence|done].
    simpl. apply list_elem_of_fmap. by exists q.
Qed.

(** ** The further properties on the example stores *)

Lemma weak_binding_Forall s :
  Forall (λ r, (length (reservations_of s (LabRequest.id r)) ≤
                if decide (LabRequest.status r = scheduled) then 1 else 0)%nat)
         (lab_requests s) →
  weak_binding s.
Proof. rewrite Forall_forall. by intros Hall r Hr; apply Hall. Qed.

Lemma group_respect_empty s : reservations s = [] → group_respect s.
Proof. intros Hnil r q Hr. rewrite Hnil in Hr. by apply elem_of_nil in Hr. Qed.

(** X2 on [Demo.standing]: [C] names no lab, its teacher prefers [R2], and
    [R2] is taken although [R1] comes first by name. *)
Lemma assign_creates_witness :
  request_reservation Demo.standing 3 = None ∧
  ∃ lab, free_for Demo.standing "Science" 100 3 lab ∧ lab = Demo.R2 ∧
         reservations (_assign_reservation_for_request Demo.C Demo.standing).2 =
           [Reservation.mk (Lab.id lab) 3 100 3].
Proof.
  assert (¬ reserved_at Demo.standing 2 100 3) as Hfree2.
  { rewrite reserved_at_Exists. apply (bool_decide_unpack _). vm_compute. exact I. }
  split; [reflexivity|].
  destruct (assign_creates Demo.standing Demo.C
              (_assign_reservation_for_request Demo.C Demo.standing).2
              eq_refl eq_refl) as (lab & Hfree & Hs & Hpref & _).
  exists lab. split; [exact Hfree|]. split; [|rewrite Hs; reflexivity].
  apply Hpref. exists 2. split_and!.
  - split; [lia|right; split; [left; reflexivity|]].
    exists Demo.teacher3. split; reflexivity.
  - reflexivity.
  - split_and!;
      [apply list_elem_of_further, list_elem_of_here|reflexivity|reflexivity
      |exact Hfree2].
Defined.

(** X3 on [Demo.full], where [B] holds lab [R1]. *)
Lemma group_respect_preserved_witness :
  group_respect Demo.full ∧
  group_respect (run_auto_schedule Demo.full).2 ∧
  group_respect (manual_assign 1 (IsInt 1) Demo.full).2 ∧
  group_respect (update_request_status 2 "pending" Demo.full).2.
Proof.
  assert (group_respect Demo.full) as Hfull.
  { apply (group_respect_assign Demo.B Demo.crowded).
    apply group_respect_empty. reflexivity. }
  pose proof (group_respect_preserved Demo.full Hfull)
    as (_ & Hrun & Hmanual & Hupdate).
  exact (conj Hfull (conj Hrun (conj (Hmanual 1 (IsInt 1)) (Hupdate 2 "pending")))).
Defined.

(** X5 on [Demo.crowded]: two pending requests, one lab. *)
Lemma run_auto_schedule_clears_backlog_witness :
  binding_ok Demo.crowded ∧ backlog (run_auto_schedule Demo.crowded).2 = [].
Proof.
  assert (binding_ok Demo.crowded) as Hb.
  { apply binding_ok_Forall. apply (bool_decide_unpack _). vm_compute. exact I. }
  exact (conj Hb (run_auto_schedule_clears_backlog Demo.crowded Hb)).
Defined.

(** X6 on [orphaned]: the backfill gives [A] its reservation. *)
Lemma backfill_repairs_binding_witness :
  weak_binding orphaned ∧
  binding_ok (ensure_reservations_for_scheduled_requests orphaned).1.
Proof.
  assert (weak_binding orphaned) as Hw.
  { apply weak_binding_Forall. apply (bool_decide_unpack _). vm_compute. exact I. }
  exact (conj Hw (proj1 (backfill_repairs_binding orphaned) Hw)).
Defined.

(** X7 on [Demo.full], which satisfies the 1:1 binding. *)
Lemma backfill_counts_witness :
  binding_ok Demo.full ∧
  ensure_reservations_for_scheduled_requests Demo.full = (Demo.full, (0, 0)).
Proof.
  assert (binding_ok Demo.full) as Hb.
  { apply binding_ok_Forall. apply (bool_decide_unpack _). vm_compute. exact I. }
  exact (conj Hb (proj2 (proj2 (backfill_counts Demo.full)) Hb)).
Defined.

(** X8 on [Demo.full]: [B] goes back to pending and lab [R1] is free
    again on date 100, period 3. *)
Lemma status_change_frees_slot_witness :
  slot_unique Demo.full ∧
  reservations_of (update_request_status 2 "pending" Demo.full).2 2 = [] ∧
  ¬ reserved_at (update_request_status 2 "pending" Demo.full).2 1 100 3.
Proof.
  assert (slot_unique Demo.full) as Hs.
  { apply slot_unique_NoDup. apply (bool_decide_unpack _). vm_compute. exact I. }
  split; [exact Hs|].
  apply (status_change_frees_slot Demo.full 2 "pending" pending
           (LabRequest.mk 2 2 "10B" "Science" None 100 3 scheduled (Some 2) 2)
           (Reservation.mk 1 2 100 3));
    [reflexivity|reflexivity|discriminate|exact Hs|reflexivity].
Defined.

(** X9 on [Demo.store]: [A] is assigned to lab [R2] by hand. *)
Lemma manual_assign_assigned_witness :
  get_request Demo.store 1 = Some Demo.A ∧
  reservations_of (manual_assign 1 (IsInt 2) Demo.store).2 1 =
    [Reservation.mk 2 1 100 3].
Proof.
  split; [reflexivity|].
  apply (proj2 (proj2 (manual_assign_assigned Demo.store 1 2 Demo.A eq_refl)));
    [reflexivity|vm_compute; lia].
Defined.

(** X10 on [half_booked]: [A] is moved from lab [R1] to lab [R2]. *)
Lemma manual_assign_moves_witness :
  slot_unique half_booked ∧
  ¬ reserved_at (manual_assign 1 (IsInt 2) half_booked).2 1 100 3.
Proof.
  assert (slot_unique half_booked) as Hs.
  { apply slot_unique_NoDup. apply (bool_decide_unpack _). vm_compute. exact I. }
  split; [exact Hs|].
  apply (manual_assign_moves half_booked 1 2 (Reservation.mk 1 1 100 3));
    [exact Hs|reflexivity|reflexivity].
Defined.


(** X13 on [termly]: [teacher1] asks for the third day of week 1. *)
Lemma new_request_week_date_witness :
  (new_request Demo.teacher1 (POST week_form) 9 termly).1 = Submitted ∧
  ∃ week q,
    lab_requests (new_request Demo.teacher1 (POST week_form) 9 termly).2 =
      lab_requests termly ++ [q] ∧
    get_week termly 1 = Some week ∧
    WeekSchedule.start_date week ≤ LabRequest.date q ≤ WeekSchedule.end_date week.
Proof.
  split; [reflexivity|].
  destruct (new_request_week_date Demo.teacher1 week_form 9 termly 1
              eq_refl eq_refl) as (week & q & Hq & Hweek & _ & _ & Hin & _).
  exists week, q. exact (conj Hq (conj Hweek Hin)).
Defined.

(** X14 on [Demo.store]: the form names lab [R2] and no group, and the
    request is stored with the group of [R2]. *)
Lemma new_request_group_witness :
  (new_request Demo.teacher1 (POST lab_form) 9 Demo.store).1 = Submitted ∧
  ∃ q,
    lab_requests (new_request Demo.teacher1 (POST lab_form) 9 Demo.store).2 =
      lab_requests Demo.store ++ [q] ∧
    if truthy (LabRequest.preferred_lab_id q)
    then ∃ lab, LabRequest.preferred_lab_id q ≫= get_lab Demo.store = Some lab ∧
                Lab.is_active lab = true ∧
                LabRequest.lab_group q = Lab.subject_group lab
    else LabRequest.lab_group q ≠ "" ∧
         LabRequest.lab_group q =
           (if decide (RequestForm.lab_group lab_form = "") then default_group
            else RequestForm.lab_group lab_form).
Proof.
  split; [reflexivity|].
  exact (new_request_group Demo.teacher1 lab_form 9 Demo.store eq_refl).
Defined.

(** X15 on [Demo.store], for an accepted submission. *)
Lemma new_request_keeps_teacher_slots_witness :
  teacher_slots_unique Demo.store ∧
  teacher_slots_unique
    (new_request Demo.teacher1 (POST lab_form) 9 Demo.store).2.
Proof.
  assert (teacher_slots_unique Demo.store) as Hu.
  { apply (bool_decide_unpack _). vm_compute. exact I. }
  exact (conj Hu (new_request_keeps_teacher_slots Demo.teacher1 (POST lab_form) 9
                    Demo.store Hu)).
Defined.

(** X16 on [Demo.busy], with [day_window = 2], [max_period = 2] and
    [top_k = 1]. *)
Lemma suggestions_bounds_witness :
  ai_explain_conflict_and_suggest Demo.busy 1 2 2 1 =
    Returned
      (Some (mkDiagnosis "Science"
               (_get_occupied_details Demo.busy 100 1 "Science")
               [mkSuggestion 101 2 ["R1"]])) ∧
  ∃ lab, free_for Demo.busy "Science" 101 2 lab ∧ Lab.name lab = "R1".
Proof.
  split; [reflexivity|].
  destruct (suggestions_bounds Demo.busy 1 Demo.X 2 2 1
              (mkDiagnosis "Science"
                 (_get_occupied_details Demo.busy 100 1 "Science")
                 [mkSuggestion 101 2 ["R1"]]) eq_refl eq_refl)
    as (_ & Hall & _).
  destruct (Hall (mkSuggestion 101 2 ["R1"]) (list_elem_of_here _ _))
    as (_ & _ & _ & _ & Hnames).
  exact (Hnames "R1" (list_elem_of_here _ _)).
Defined.

(** X17 on [Demo.busy]: the administrator is answered, [teacher2], who
    does not own request 1, is refused. *)
Lemma api_ai_conflict_answer_witness :
  get_request Demo.busy 1 = Some Demo.X ∧
  (∃ diag, api_ai_conflict admin_user 1 Demo.busy = ApiData (Some diag) ∧
           diag_suggestions diag = take 3 (qualifying Demo.busy Demo.X 10 7)) ∧
  api_ai_conflict Demo.teacher2 1 Demo.busy = ApiForbidden.
Proof.
  split; [reflexivity|]. split.
  - apply (proj1 (api_ai_conflict_answer admin_user 1 Demo.busy Demo.X eq_refl));
      [left; reflexivity|..];
      unfold in_calendar, date_min, date_max; simpl; lia.
  - apply (proj2 (api_ai_conflict_answer Demo.teacher2 1 Demo.busy Demo.X eq_refl));
      discriminate.
Defined.

(** On [last_day] the request is for [date.max] and its group has no lab:
    the search finds nothing on that day and the day before, reaches the
    day after, and the call fails. *)
Example api_ai_conflict_last_day :
  api_ai_conflict Demo.teacher1 1 last_day = ApiError.
Proof. vm_compute. done. Qed.

(** X19 on [Demo.store]: lab [R1] is switched off and on again. *)
Lemma admin_toggle_lab_off_and_back_witness :
  NoDup (Lab.id <$> labs Demo.store) ∧
  get_lab (admin_toggle_lab 1 Demo.store).2 1 =
    Some (lab_with_is_active false Demo.R1) ∧
  (admin_toggle_lab 1 (admin_toggle_lab 1 Demo.store).2).2 = Demo.store.
Proof.
  assert (NoDup (Lab.id <$> labs Demo.store)) as Hnd.
  { apply (bool_decide_unpack _). vm_compute. exact I. }
  destruct (admin_toggle_lab_off_and_back 1 Demo.store Demo.R1 Hnd eq_refl)
    as (Hoff & _ & Hback & _).
  exact (conj Hnd (conj Hoff Hback)).
Defined.

(** X20 on [Demo.store]: a third Science lab is added. *)
Lemma admin_labs_adds_witness :
  NoDup (Lab.name <$> labs Demo.store) ∧
  NoDup (Lab.name <$> labs (admin_labs (LabsPOST "R3" "Science") Demo.store).2) ∧
  ∃ lab, lab ∈ active_labs_in
                 (admin_labs (LabsPOST "R3" "Science") Demo.store).2 "Science" ∧
         Lab.name lab = "R3" ∧ Lab.capacity lab = 40.
Proof.
  assert (NoDup (Lab.name <$> labs Demo.store)) as Hnd.
  { apply (bool_decide_unpack _). vm_compute. exact I. }
  destruct (admin_labs_adds "R3" "Science" Demo.store Hnd)
    as (_ & Hnames & _ & Hadded & _).
  exact (conj Hnd (conj Hnames (Hadded eq_refl))).
Defined.

(** X21 on [half_booked]: lab [P2], which nothing refers to, is deleted. *)
Lemma admin_delete_lab_keeps_references_witness :
  group_respect half_booked ∧
  (admin_delete_lab 4 half_booked).1 = LabDeleted ∧
  group_respect (admin_delete_lab 4 half_booked).2 ∧
  get_lab (admin_delete_lab 4 half_booked).2 4 = None.
Proof.
  assert (group_respect half_booked) as Hg.
  { apply (group_respect_assign Demo.A Demo.store).
    apply group_respect_empty. reflexivity. }
  destruct (admin_delete_lab_keeps_references 4 half_booked)
    as (_ & _ & Hkept & Hgone & _).
  exact (conj Hg (conj eq_refl (conj (Hkept Hg) (Hgone eq_refl)))).
Defined.

(** X22 on [termly]: week 1 has a request, is switched off, and takes no
    further submission. *)
Lemma deleted_week_takes_no_submission_witness :
  (new_request Demo.teacher1 (POST week_form) 9 termly).1 = Submitted ∧
  (new_request Demo.teacher1 (POST week_form) 9
     (admin_delete_week 1 termly).2).1 ≠ Submitted ∧
  get_week (admin_delete_week 1 termly).2 1 =
    Some (week_with_is_active false week1).
Proof.
  destruct (deleted_week_takes_no_submission 1 termly Demo.teacher1 week_form 9
              eq_refl) as (Hrefused & _ & Hkept & _).
  split; [reflexivity|]. split; [exact Hrefused|].
  apply (Hkept weekly week1);
    [apply list_elem_of_further, list_elem_of_further, list_elem_of_here
    |reflexivity|reflexivity].
Defined.

(** X23 on [staffed]: [teacher2] is deleted with request [B] and its
    reservation. *)
Lemma admin_delete_teacher_cascade_witness :
  NoDup (LabRequest.id <$> lab_requests staffed) ∧
  (∀ q, q ∈ lab_requests staffed →
     (length (reservations_of staffed (LabRequest.id q)) ≤ 1)%nat) ∧
  (admin_delete_teacher admin_user 2 staffed).1 = TeacherDeleted ∧
  users (admin_delete_teacher admin_user 2 staffed).2 =
    filter (λ u, User.id u ≠ 2) (users staffed) ∧
  lab_requests (admin_delete_teacher admin_user 2 staffed).2 =
    filter (λ q, LabRequest.teacher_id q ≠ 2) (lab_requests staffed).
Proof.
  assert (NoDup (LabRequest.id <$> lab_requests staffed)) as Hnd.
  { apply (bool_decide_unpack _). vm_compute. exact I. }
  assert (∀ q, q ∈ lab_requests staffed →
            (length (reservations_of staffed (LabRequest.id q)) ≤ 1)%nat) as Hw.
  { apply Forall_forall. apply (bool_decide_unpack _). vm_compute. exact I. }
  destruct (admin_delete_teacher_cascade admin_user 2 staffed
              (admin_delete_teacher admin_user 2 staffed).2 Hnd Hw eq_refl)
    as (Husers & Hreqs & _).
  exact (conj Hnd (conj Hw (conj eq_refl (conj Husers Hreqs)))).
Defined.

(** X24 on [staffed]: the administrator aims at the own account. *)
Lemma admin_delete_teacher_spares_witness :
  NoDup (User.id <$> users staffed) ∧
  (admin_delete_teacher admin_user 9 staffed = (NotATeacherAccount, staffed) ∨
   admin_delete_teacher admin_user 9 staffed = (OwnAccount, staffed)) ∧
  admin_user ∈ users (admin_delete_teacher admin_user 2 staffed).2.
Proof.
  assert (NoDup (User.id <$> users staffed)) as Hnd.
  { apply (bool_decide_unpack _). vm_compute. exact I. }
  destruct (admin_delete_teacher_spares admin_user staffed admin_user Hnd
              (list_elem_of_here _ _) (or_intror eq_refl)) as [Hrefused Hstays].
  exact (conj Hnd (conj Hrefused (Hstays 2))).
Defined.

(** X25 on [Demo.full]: [A] cannot be assigned, and the explanation names
    lab [R1]. *)
Lemma conflict_explained_witness :
  references_ok Demo.full ∧
  ∃ diag,
    ai_explain_conflict_and_suggest (set_lab_group 1 "Science" Demo.full) 1 10 7 3
      = Returned (Some diag) ∧
    ∃ o, o ∈ diag_occupied diag ∧ occ_lab_name o = "R1".
Proof.
  assert (references_ok Demo.full) as Hrefs.
  { intros r Hr. apply list_elem_of_singleton in Hr. rewrite Hr.
    eexists _, _. split; reflexivity. }
  split; [exact Hrefs|].
  destruct (conflict_explained Demo.full Demo.A
              (set_lab_group 1 "Science" Demo.full) 10 7 3 eq_refl eq_refl)
    as [Hreturns Hall].
  destruct Hreturns as [diag Hdiag].
  { right. unfold in_calendar, date_min, date_max. simpl. lia. }
  exists diag. split; [exact Hdiag|].
  destruct (Hall diag Hdiag) as (_ & _ & Hocc).
  apply (Hocc Hrefs Demo.R1); [apply list_elem_of_here|reflexivity|reflexivity].
Defined.
